(** * The Forge: assignment generation and evaluation routes

    A shallow embedding of the two request handlers of the application,
    [src/app/api/generate/route.ts] and [src/app/api/evaluate/route.ts],
    together with the fragment of the JavaScript semantics they rely on:
    IEEE-754 binary64 numbers, dynamically typed values as produced by
    [JSON.parse], truthiness, [+], [||], [===], property access, string
    conversion, [trim], the three regular expressions of the extraction
    step, and exceptions caught by the handlers' [try]/[catch]. *)

From Stdlib Require Import ZArith List String Ascii Bool Lia.
From Stdlib Require Import DecimalString.
From Stdlib Require Import Floats.SpecFloat.
Import ListNotations.
Open Scope string_scope.
Open Scope Z_scope.

(** ** JavaScript numbers: IEEE-754 binary64 *)

Module Num.

Definition prec : Z := 53.
Definition emax : Z := 1024.

Definition number := spec_float.

Definition nan : number := S754_nan.
Definition zero : number := S754_zero false.
Definition infinity (neg : bool) : number := S754_infinity neg.

Definition of_Z (z : Z) : number := binary_normalize prec emax z 0 false.

Definition add : number -> number -> number := SFadd prec emax.
Definition mul : number -> number -> number := SFmul prec emax.
Definition div : number -> number -> number := SFdiv prec emax.

(** [x === y] on numbers: NaN differs from itself, the two zeros are equal. *)
Definition eqb : number -> number -> bool := SFeqb.

Definition is_nan (x : number) : bool :=
  match x with S754_nan => true | _ => false end.

Definition is_zero (x : number) : bool :=
  match x with S754_zero _ => true | _ => false end.

Definition is_finite (x : number) : bool :=
  match x with S754_zero _ | S754_finite _ _ _ => true | _ => false end.

(** [Math.round]: the nearest integer, ties towards +Infinity; NaN, the
    infinities and the zeros are returned unchanged, and a result that
    rounds a negative number to zero is -0. *)
Definition round (x : number) : number :=
  match x with
  | S754_finite s m e =>
      if 0 <=? e then x
      else
        let n := (cond_Zopp s (Zpos m) * 2 + 2 ^ (- e)) / 2 ^ (- e + 1) in
        match n with
        | Z0 => S754_zero s
        | _ => of_Z n
        end
  | _ => x
  end.

(** Number of decimal digits of a positive integer (0 for 0). *)
Fixpoint digits10_fuel (fuel : nat) (z : Z) : Z :=
  match fuel with
  | O => 0
  | S f => if z <=? 0 then 0 else 1 + digits10_fuel f (z / 10)
  end.

Definition digits10 (z : Z) : Z :=
  digits10_fuel (S (Z.to_nat (Z.log2 z))) z.

(** The binary64 value nearest to [m * 10^e] (ties to even), as every
    conversion of a decimal literal computes it. *)
Definition of_decimal (neg : bool) (m : Z) (e : Z) : number :=
  match m with
  | Zpos p =>
      let d := digits10 m in
      if 310 <? e + d then S754_infinity neg
      else if e + d <? -330 then S754_zero neg
      else if 0 <=? e then binary_round prec emax neg (p * Z.to_pos (10 ^ e)) 0
      else
        let '(q, e', l) := SFdiv_core_binary prec emax m 0 (10 ^ (- e)) 0 in
        binary_round_aux prec emax neg q e' l
  | _ => S754_zero neg
  end.

(** *** Number::toString

    The shortest decimal digit string [s] (of [k] digits, the decimal point
    after the [n]-th digit) that converts back to the number, the closest
    to it when several do, then laid out as the language prescribes. *)

Definition Z_to_string (z : Z) : string := NilZero.string_of_int (Z.to_int z).

Definition ratio (m : positive) (e : Z) : Z * Z :=
  if 0 <=? e then (Zpos m * 2 ^ e, 1) else (Zpos m, 2 ^ (- e)).

Definition lt_pow10 (num den n : Z) : bool :=
  if 0 <=? n then num <? den * 10 ^ n else num * 10 ^ (- n) <? den.

Fixpoint find_point (fuel : nat) (num den n : Z) : Z :=
  match fuel with
  | O => n
  | S f => if lt_pow10 num den n then n else find_point f num den (n + 1)
  end.

(** The [n] with [10^(n-1) <= num/den < 10^n]. *)
Definition point (num den : Z) : Z :=
  find_point 8 num den (((Z.log2 num - Z.log2 den - 1) * 30103) / 100000 - 1).

Definition candidate (x : number) (num den n k : Z) : option (Z * Z) :=
  let sh := n - k in
  let yn := if 0 <=? sh then num else num * 10 ^ (- sh) in
  let yd := if 0 <=? sh then den * 10 ^ sh else den in
  let lo := yn / yd in
  let r := yn mod yd in
  let hi := lo + 1 in
  let ok s := SFeqb (of_decimal false s sh) x in
  let norm s := if s =? 10 ^ k then (10 ^ (k - 1), n + 1) else (s, n) in
  match ok lo, ok hi with
  | true, true =>
      Some (norm (match 2 * r ?= yd with
                  | Lt => lo
                  | Gt => hi
                  | Eq => if Z.even lo then lo else hi
                  end))
  | true, false => Some (lo, n)
  | false, true => Some (norm hi)
  | false, false => None
  end.

Fixpoint shortest (fuel : nat) (x : number) (num den n k : Z) : Z * Z * Z :=
  match fuel with
  | O => (num * 10 ^ (k - n) / den, n, k)
  | S f =>
      match candidate x num den n k with
      | Some (s, n') => (s, n', k)
      | None => shortest f x num den n (k + 1)
      end
  end.

Fixpoint zeros (n : nat) : string :=
  match n with
  | O => EmptyString
  | S n' => String "0" (zeros n')
  end.

Definition layout (s n k : Z) : string :=
  let ds := Z_to_string s in
  if (k <=? n) && (n <=? 21) then ds ++ zeros (Z.to_nat (n - k))
  else if (0 <? n) && (n <=? 21) then
    substring 0 (Z.to_nat n) ds ++ "." ++ substring (Z.to_nat n) (Z.to_nat (k - n)) ds
  else if (-6 <? n) && (n <=? 0) then "0." ++ zeros (Z.to_nat (- n)) ++ ds
  else
    let e := n - 1 in
    let es := (if e <? 0 then "-" else "+") ++ Z_to_string (Z.abs e) in
    if k =? 1 then ds ++ "e" ++ es
    else substring 0 1 ds ++ "." ++ substring 1 (Z.to_nat (k - 1)) ds ++ "e" ++ es.

Definition to_string (x : number) : string :=
  match x with
  | S754_nan => "NaN"
  | S754_zero _ => "0"
  | S754_infinity s => if s then "-Infinity" else "Infinity"
  | S754_finite sg m e =>
      let '(num, den) := ratio m e in
      let '(s, n, k) := shortest 17 (S754_finite false m e) num den (point num den) 1 in
      (if sg then "-" else "") ++ layout s n k
  end.

End Num.

(** ** JavaScript strings

    Strings are byte strings holding UTF-8 text.  The only characters the
    handlers inspect individually are ASCII (backticks, braces, line
    feeds) and white space, whose non-ASCII members are recognised by
    their UTF-8 encodings. *)

Module Str.

Definition LF : ascii := "010"%char.
Definition code (c : ascii) : N := N_of_ascii c.

(** White space and line terminators of the language: U+0009..U+000D and
    U+0020 (one byte); U+00A0 (two bytes); U+1680, U+2000..U+200A, U+2028,
    U+2029, U+202F, U+205F, U+3000 and U+FEFF (three bytes). *)
Definition ws1 (a : ascii) : bool :=
  ((9 <=? code a) && (code a <=? 13) || (code a =? 32))%N.

Definition ws2 (a b : ascii) : bool :=
  ((code a =? 194) && (code b =? 160))%N.

Definition ws3 (a b c : ascii) : bool :=
  ((code a =? 225) && (code b =? 154) && (code c =? 128)
   || (code a =? 226) && (code b =? 128)
      && ((128 <=? code c) && (code c <=? 138)
          || (code c =? 168) || (code c =? 169) || (code c =? 175))
   || (code a =? 226) && (code b =? 129) && (code c =? 159)
   || (code a =? 227) && (code b =? 128) && (code c =? 128)
   || (code a =? 239) && (code b =? 187) && (code c =? 191))%N.

(** Removal of leading white space.  With [back] the string is read from
    its end, so the bytes of a character come in reverse order. *)
Fixpoint trim_from (back : bool) (s : string) : string :=
  match s with
  | String a r1 =>
      if ws1 a then trim_from back r1
      else
        match r1 with
        | String b r2 =>
            if (if back then ws2 b a else ws2 a b) then trim_from back r2
            else
              match r2 with
              | String c r3 =>
                  if (if back then ws3 c b a else ws3 a b c)
                  then trim_from back r3
                  else s
              | EmptyString => s
              end
        | EmptyString => s
        end
  | EmptyString => s
  end.

Definition rev (s : string) : string :=
  string_of_list_ascii (List.rev (list_ascii_of_string s)).

Definition trimStart (s : string) : string := trim_from false s.
Definition trimEnd (s : string) : string := rev (trim_from true (rev s)).

(** [s.trim()] *)
Definition trim (s : string) : string := trimEnd (trimStart s).

(** [s.startsWith(p)] *)
Definition startsWith (s p : string) : bool := prefix p s.

Fixpoint drop (n : nat) (s : string) : string :=
  match n, s with
  | O, _ => s
  | S n', String _ r => drop n' r
  | S _, EmptyString => EmptyString
  end.

(** [s.includes(p)] *)
Fixpoint includes (s p : string) : bool :=
  prefix p s ||
  match s with
  | EmptyString => false
  | String _ r => includes r p
  end.

(** [s.replace(/^<fence>\n?/, "")]: the opening marker and at most one
    line feed after it are removed when the string starts with the marker. *)
Definition strip_open (fence s : string) : string :=
  if prefix fence s then
    match drop (length fence) s with
    | String c r => if Ascii.eqb c LF then r else String c r
    | EmptyString => EmptyString
    end
  else s.

(** [s.replace(/\n?```$/, "")]: a match has to end at the end of the input,
    so it is the last three characters, preceded by a line feed when there
    is one (the leftmost match). *)
Definition strip_close (s : string) : string :=
  let r := rev s in
  if prefix "```" r then
    match drop 3 r with
    | String c r' => if Ascii.eqb c LF then rev r' else rev (String c r')
    | EmptyString => EmptyString
    end
  else s.

(** The suffix starting at the first occurrence of [c]. *)
Fixpoint from_first (c : ascii) (s : string) : option string :=
  match s with
  | EmptyString => None
  | String a r => if Ascii.eqb a c then Some s else from_first c r
  end.

(** [s.match(/\{[\s\S]*\}/)]: the leftmost match starts at the first
    opening brace and, the star being greedy, runs to the last closing
    brace after it; there is no match when no closing brace follows. *)
Definition match_braces (s : string) : option string :=
  match from_first "{" s with
  | None => None
  | Some t =>
      match from_first "}" (rev t) with
      | None => None
      | Some u => Some (rev u)
      end
  end.

(** [s.trim().split(/\s+/).filter(Boolean).length]: maximal runs of
    characters that are not white space. *)
Fixpoint count_words (fuel : nat) (inword : bool) (s : string) : Z :=
  match fuel with
  | O => 0
  | S f =>
      match s with
      | EmptyString => 0
      | String a r =>
          let t := trim_from false s in
          if (length t <? length s)%nat then count_words f false t
          else (if inword then 0 else 1) + count_words f true r
      end
  end.

Definition wordCount (s : string) : Z := count_words (S (length s)) false s.

End Str.

(** ** JavaScript values *)

#[warnings="-register-all"]
Inductive value : Type :=
| VUndefined
| VNull
| VBool (b : bool)
| VNum (n : Num.number)
| VStr (s : string)
| VArr (xs : list value)
| VObj (fields : list (string * value)).

(** Objects keep their properties in creation order; defining a property
    that exists replaces its value in place. *)
Fixpoint obj_set (fields : list (string * value)) (k : string) (v : value)
  : list (string * value) :=
  match fields with
  | [] => [(k, v)]
  | (k', v') :: rest =>
      if String.eqb k' k then (k', v) :: rest else (k', v') :: obj_set rest k v
  end.

Fixpoint obj_get (fields : list (string * value)) (k : string) : option value :=
  match fields with
  | [] => None
  | (k', v) :: rest => if String.eqb k' k then Some v else obj_get rest k
  end.

(** ** [JSON.parse] *)

Module JSON.

Definition code (c : ascii) : Z := Z.of_N (N_of_ascii c).
Definition chr (z : Z) : ascii := ascii_of_N (Z.to_N z).

Definition is_ws (c : ascii) : bool :=
  (code c =? 32) || (code c =? 9) || (code c =? 10) || (code c =? 13).

Fixpoint skip_ws (s : string) : string :=
  match s with
  | String c r => if is_ws c then skip_ws r else s
  | EmptyString => s
  end.

Definition digit_val (c : ascii) : option Z :=
  if (48 <=? code c) && (code c <=? 57) then Some (code c - 48) else None.

Definition hex_val (c : ascii) : option Z :=
  if (48 <=? code c) && (code c <=? 57) then Some (code c - 48)
  else if (97 <=? code c) && (code c <=? 102) then Some (code c - 87)
  else if (65 <=? code c) && (code c <=? 70) then Some (code c - 55)
  else None.

(** Reads a run of decimal digits: the number they extend [acc] to, how
    many there were, and the rest of the input. *)
Fixpoint read_digits (s : string) (acc cnt : Z) : Z * Z * string :=
  match s with
  | String c r =>
      match digit_val c with
      | Some d => read_digits r (acc * 10 + d) (cnt + 1)
      | None => (acc, cnt, s)
      end
  | EmptyString => (acc, cnt, s)
  end.

Definition read_exponent (s : string) : option (Z * string) :=
  match s with
  | String c r =>
      if (code c =? 101) || (code c =? 69) then
        let '(eneg, s1) :=
          match r with
          | String g r' =>
              if code g =? 43 then (false, r')
              else if code g =? 45 then (true, r')
              else (false, r)
          | EmptyString => (false, r)
          end in
        let '(ev, ecnt, s2) := read_digits s1 0 0 in
        if ecnt =? 0 then None else Some (if eneg then - ev else ev, s2)
      else Some (0, s)
  | EmptyString => Some (0, s)
  end.

Definition read_fraction (ip : Z) (s : string) : option (Z * Z * string) :=
  match s with
  | String c r =>
      if code c =? 46 then
        let '(m, cnt, s1) := read_digits r ip 0 in
        if cnt =? 0 then None else Some (m, cnt, s1)
      else Some (ip, 0, s)
  | EmptyString => Some (ip, 0, s)
  end.

(** A number literal: an optional minus sign; a zero, or a non-zero digit
    followed by digits; optionally a point and at least one digit;
    optionally an exponent mark, a sign and at least one digit. *)
Definition parse_number (s : string) : option (Num.number * string) :=
  let '(neg, s1) :=
    match s with
    | String c r => if code c =? 45 then (true, r) else (false, s)
    | EmptyString => (false, s)
    end in
  match s1 with
  | String c r =>
      match digit_val c with
      | None => None
      | Some d =>
          let '(ip, _, s2) := if d =? 0 then (0, 1, r) else read_digits s1 0 0 in
          match read_fraction ip s2 with
          | None => None
          | Some (m, cnt, s3) =>
              match read_exponent s3 with
              | None => None
              | Some (ev, s4) => Some (Num.of_decimal neg m (ev - cnt), s4)
              end
          end
      end
  | EmptyString => None
  end.

(** UTF-8 bytes of a code point, last byte first. *)
Definition utf8_rev (cp : Z) : list ascii :=
  if cp <? 128 then [chr cp]
  else if cp <? 2048 then [chr (128 + cp mod 64); chr (192 + cp / 64)]
  else if cp <? 65536 then
    [chr (128 + cp mod 64); chr (128 + (cp / 64) mod 64); chr (224 + cp / 4096)]
  else
    [chr (128 + cp mod 64); chr (128 + (cp / 64) mod 64);
     chr (128 + (cp / 4096) mod 64); chr (240 + cp / 262144)].

(** A pending high surrogate is written out on its own unless a low
    surrogate follows at once. *)
Definition flush (pending : option Z) (acc : list ascii) : list ascii :=
  match pending with
  | Some hi => (utf8_rev hi ++ acc)%list
  | None => acc
  end.

Definition unit_escape (pending : option Z) (u : Z) (acc : list ascii)
  : option Z * list ascii :=
  if (55296 <=? u) && (u <? 56320) then (Some u, flush pending acc)
  else if (56320 <=? u) && (u <? 57344) then
    match pending with
    | Some hi => (None, (utf8_rev (65536 + (hi - 55296) * 1024 + (u - 56320)) ++ acc)%list)
    | None => (None, (utf8_rev u ++ acc)%list)
    end
  else (None, (utf8_rev u ++ flush pending acc)%list).

Definition simple_escape (c : ascii) : option ascii :=
  if code c =? 34 then Some (chr 34)
  else if code c =? 92 then Some (chr 92)
  else if code c =? 47 then Some (chr 47)
  else if code c =? 98 then Some (chr 8)
  else if code c =? 102 then Some (chr 12)
  else if code c =? 110 then Some (chr 10)
  else if code c =? 114 then Some (chr 13)
  else if code c =? 116 then Some (chr 9)
  else None.

(** The characters of a string literal after its opening quote. *)
Fixpoint parse_string_body (s : string) (pending : option Z) (acc : list ascii)
  : option (string * string) :=
  match s with
  | EmptyString => None
  | String c r =>
      if code c =? 34 then
        Some (string_of_list_ascii (List.rev (flush pending acc)), r)
      else if code c =? 92 then
        match r with
        | String e r1 =>
            if code e =? 117 then
              match r1 with
              | String h1 (String h2 (String h3 (String h4 r2))) =>
                  match hex_val h1, hex_val h2, hex_val h3, hex_val h4 with
                  | Some a, Some b, Some c', Some d =>
                      let '(p, acc') :=
                        unit_escape pending (((a * 16 + b) * 16 + c') * 16 + d) acc in
                      parse_string_body r2 p acc'
                  | _, _, _, _ => None
                  end
              | _ => None
              end
            else
              match simple_escape e with
              | Some x => parse_string_body r1 None (x :: flush pending acc)
              | None => None
              end
        | EmptyString => None
        end
      else if code c <? 32 then None
      else parse_string_body r None (c :: flush pending acc)
  end.

Definition expect (lit : string) (v : value) (s : string) : option (value * string) :=
  if prefix lit s then Some (v, Str.drop (length lit) s) else None.

Fixpoint parse_value (fuel : nat) (s : string) : option (value * string) :=
  match fuel with
  | O => None
  | S f =>
      match skip_ws s with
      | EmptyString => None
      | String c r =>
          if code c =? 123 then
            match skip_ws r with
            | String c' r' =>
                if code c' =? 125 then Some (VObj [], r')
                else parse_members f (String c' r') []
            | EmptyString => None
            end
          else if code c =? 91 then
            match skip_ws r with
            | String c' r' =>
                if code c' =? 93 then Some (VArr [], r')
                else parse_elements f (String c' r') []
            | EmptyString => None
            end
          else if code c =? 34 then
            match parse_string_body r None [] with
            | Some (str, r') => Some (VStr str, r')
            | None => None
            end
          else if code c =? 116 then expect "true" (VBool true) (String c r)
          else if code c =? 102 then expect "false" (VBool false) (String c r)
          else if code c =? 110 then expect "null" VNull (String c r)
          else
            match parse_number (String c r) with
            | Some (n, r') => Some (VNum n, r')
            | None => None
            end
      end
  end

with parse_elements (fuel : nat) (s : string) (acc : list value)
  : option (value * string) :=
  match fuel with
  | O => None
  | S f =>
      match parse_value f s with
      | None => None
      | Some (v, s1) =>
          match skip_ws s1 with
          | String c r =>
              if code c =? 44 then parse_elements f r (v :: acc)
              else if code c =? 93 then Some (VArr (List.rev (v :: acc)), r)
              else None
          | EmptyString => None
          end
      end
  end

with parse_members (fuel : nat) (s : string) (acc : list (string * value))
  : option (value * string) :=
  match fuel with
  | O => None
  | S f =>
      match skip_ws s with
      | String q r0 =>
          if code q =? 34 then
            match parse_string_body r0 None [] with
            | None => None
            | Some (k, s1) =>
                match skip_ws s1 with
                | String c r =>
                    if code c =? 58 then
                      match parse_value f r with
                      | None => None
                      | Some (v, s2) =>
                          match skip_ws s2 with
                          | String c' r' =>
                              if code c' =? 44 then parse_members f r' (obj_set acc k v)
                              else if code c' =? 125 then Some (VObj (obj_set acc k v), r')
                              else None
                          | EmptyString => None
                          end
                      end
                    else None
                | EmptyString => None
                end
            end
          else None
      | EmptyString => None
      end
  end.

(** [JSON.parse(s)]: [None] stands for the [SyntaxError] it throws. *)
Definition parse (s : string) : option value :=
  match parse_value (2 * length s + 2) s with
  | Some (v, r) =>
      match skip_ws r with
      | EmptyString => Some v
      | String _ _ => None
      end
  | None => None
  end.

End JSON.

(** ** Outcomes of evaluation

    An expression yields a value or throws.  A thrown value is an [Error]
    instance (with its [name] and [message]) or something else.  The
    wording of the messages of errors raised by the runtime itself is the
    engine's; V8's wording is used.  [Beyond] marks the few places where the
    result depends on built-in prototype members that this development does
    not enumerate; no statement below is made about such runs. *)

Inductive exn : Type :=
| ErrorObj (name message : string)
| NonError.

Inductive result (A : Type) : Type :=
| Ok (a : A)
| Throw (e : exn)
| Beyond.

Arguments Ok {A} a.
Arguments Throw {A} e.
Arguments Beyond {A}.

Definition bind {A B : Type} (m : result A) (k : A -> result B) : result B :=
  match m with
  | Ok a => k a
  | Throw e => Throw e
  | Beyond => Beyond
  end.

Declare Scope js_scope.
Delimit Scope js_scope with js.
Notation "x <- m ;; k" := (bind m (fun x => k))
  (at level 61, m at next level, right associativity) : js_scope.
Notation "' p <- m ;; k" := (bind m (fun x => let 'p := x in k))
  (at level 61, p pattern, m at next level, right associativity) : js_scope.
Open Scope js_scope.

Definition TypeError (msg : string) : exn := ErrorObj "TypeError" msg.
Definition SyntaxError (msg : string) : exn := ErrorObj "SyntaxError" msg.

Fixpoint mapM {A B : Type} (f : A -> result B) (xs : list A) : result (list B) :=
  match xs with
  | [] => Ok []
  | x :: r => y <- f x ;; ys <- mapM f r ;; Ok (y :: ys)
  end.

Fixpoint foldM {A B : Type} (f : B -> A -> result B) (xs : list A) (b : B)
  : result B :=
  match xs with
  | [] => Ok b
  | x :: r => b' <- f b x ;; foldM f r b'
  end.

(** ** Operators on values *)

Module JS.

(** ToBoolean *)
Definition truthy (v : value) : bool :=
  match v with
  | VUndefined | VNull => false
  | VBool b => b
  | VNum n => negb (Num.is_zero n || Num.is_nan n)
  | VStr s => negb (String.eqb s "")
  | VArr _ | VObj _ => true
  end.

(** [a || b] *)
Definition or (a b : value) : value := if truthy a then a else b.

Definition is_string (v : value) : bool :=
  match v with VStr _ => true | _ => false end.

Definition has_own (fields : list (string * value)) (k : string) : bool :=
  match obj_get fields k with Some _ => true | None => false end.

Definition join (sep : string) (xs : list string) : string :=
  String.concat sep xs.

(** ToString.  An array is joined with commas, [null] and [undefined]
    elements giving the empty string.  A plain object gives
    ["[object Object]"]; one with an own [toString] property (never callable
    in data read from JSON) has no primitive value and the conversion throws
    a [TypeError]. *)
Fixpoint to_string (v : value) : result string :=
  match v with
  | VUndefined => Ok "undefined"
  | VNull => Ok "null"
  | VBool b => Ok (if b then "true" else "false")
  | VNum n => Ok (Num.to_string n)
  | VStr s => Ok s
  | VArr xs =>
      let fix elems (l : list value) : result (list string) :=
        match l with
        | [] => Ok []
        | x :: r =>
            s <- match x with
                 | VUndefined | VNull => Ok ""
                 | _ => to_string x
                 end ;;
            ss <- elems r ;;
            Ok (s :: ss)
        end in
      ss <- elems xs ;; Ok (join "," ss)
  | VObj fs =>
      if has_own fs "toString"
      then Throw (TypeError "Cannot convert object to primitive value")
      else Ok "[object Object]"
  end.

(** ToPrimitive: arrays and objects become the strings above. *)
Definition to_primitive (v : value) : result value :=
  match v with
  | VArr _ | VObj _ => s <- to_string v ;; Ok (VStr s)
  | _ => Ok v
  end.

(** StringToNumber: white space is trimmed; the empty string is 0; then a
    hexadecimal, octal or binary integer, or an optionally signed
    [Infinity] or decimal literal; anything else is NaN. *)
Fixpoint read_radix (radix : Z) (s : string) (acc cnt : Z) : option (Z * Z) :=
  match s with
  | EmptyString => Some (acc, cnt)
  | String c r =>
      match JSON.hex_val c with
      | Some d => if d <? radix then read_radix radix r (acc * radix + d) (cnt + 1) else None
      | None => None
      end
  end.

Definition radix_literal (radix : Z) (s : string) : Num.number :=
  match read_radix radix s 0 0 with
  | Some (v, cnt) => if cnt =? 0 then Num.nan else Num.of_Z v
  | None => Num.nan
  end.

Definition decimal_literal (neg : bool) (s : string) : Num.number :=
  let '(ip, icnt, s1) := JSON.read_digits s 0 0 in
  let '(m, fcnt, s2) :=
    match s1 with
    | String c r => if JSON.code c =? 46 then JSON.read_digits r ip 0 else (ip, 0, s1)
    | EmptyString => (ip, 0, s1)
    end in
  if icnt + fcnt =? 0 then Num.nan
  else
    match JSON.read_exponent s2 with
    | Some (ev, EmptyString) => Num.of_decimal neg m (ev - fcnt)
    | _ => Num.nan
    end.

Definition signed_literal (neg : bool) (s : string) : Num.number :=
  if String.eqb s "Infinity" then Num.infinity neg else decimal_literal neg s.

Definition string_to_number (s : string) : Num.number :=
  let t := Str.trim s in
  match t with
  | EmptyString => Num.zero
  | String c r =>
      if prefix "0x" t || prefix "0X" t then radix_literal 16 (Str.drop 2 t)
      else if prefix "0o" t || prefix "0O" t then radix_literal 8 (Str.drop 2 t)
      else if prefix "0b" t || prefix "0B" t then radix_literal 2 (Str.drop 2 t)
      else if JSON.code c =? 43 then signed_literal false r
      else if JSON.code c =? 45 then signed_literal true r
      else signed_literal false t
  end.

(** ToNumber *)
Definition to_number (v : value) : result Num.number :=
  match v with
  | VUndefined => Ok Num.nan
  | VNull => Ok Num.zero
  | VBool b => Ok (Num.of_Z (if b then 1 else 0))
  | VNum n => Ok n
  | VStr s => Ok (string_to_number s)
  | VArr _ | VObj _ => s <- to_string v ;; Ok (string_to_number s)
  end.

(** [a + b]: concatenation as soon as one operand, made primitive, is a
    string; numeric addition otherwise. *)
Definition add (a b : value) : result value :=
  pa <- to_primitive a ;;
  pb <- to_primitive b ;;
  if is_string pa || is_string pb then
    sa <- to_string pa ;; sb <- to_string pb ;; Ok (VStr (sa ++ sb))
  else
    na <- to_number pa ;; nb <- to_number pb ;; Ok (VNum (Num.add na nb)).

(** [a / b] *)
Definition div (a b : value) : result Num.number :=
  na <- to_number a ;; nb <- to_number b ;; Ok (Num.div na nb).

(** [a === b].  Arrays and objects are compared by identity; the two sides
    of every comparison in the handlers are read from different places of
    freshly parsed data, so they are never the same object. *)
Definition strict_eq (a b : value) : bool :=
  match a, b with
  | VUndefined, VUndefined => true
  | VNull, VNull => true
  | VBool x, VBool y => Bool.eqb x y
  | VNum x, VNum y => Num.eqb x y
  | VStr x, VStr y => String.eqb x y
  | _, _ => false
  end.

Definition describe (v : value) : string :=
  match v with VNull => "null" | _ => "undefined" end.

Definition cannot_read (v : value) (k : string) : exn :=
  TypeError ("Cannot read properties of " ++ describe v ++ " (reading '" ++ k ++ "')").

(** [length] of a string counts UTF-16 code units: one for each character
    of up to three bytes, two for each of four. *)
Fixpoint utf16_length (s : string) : Z :=
  match s with
  | EmptyString => 0
  | String c r =>
      (if JSON.code c <? 128 then 1
       else if JSON.code c <? 192 then 0
       else if JSON.code c <? 240 then 1
       else 2) + utf16_length r
  end.

(** The members every plain object inherits. *)
Definition object_prototype_names : list string :=
  ["constructor"; "hasOwnProperty"; "isPrototypeOf"; "propertyIsEnumerable";
   "toLocaleString"; "toString"; "valueOf"; "__proto__"; "__defineGetter__";
   "__defineSetter__"; "__lookupGetter__"; "__lookupSetter__"].

Definition inherited (k : string) : bool :=
  existsb (String.eqb k) object_prototype_names.

(** [v.k] for the property names the handlers spell out; none of them
    names a member of a built-in prototype. *)
Definition get (v : value) (k : string) : result value :=
  match v with
  | VUndefined | VNull => Throw (cannot_read v k)
  | VObj fs =>
      match obj_get fs k with
      | Some x => Ok x
      | None => if inherited k then Beyond else Ok VUndefined
      end
  | VArr xs =>
      if String.eqb k "length" then Ok (VNum (Num.of_Z (Z.of_nat (List.length xs))))
      else Ok VUndefined
  | VStr s =>
      if String.eqb k "length" then Ok (VNum (Num.of_Z (utf16_length s)))
      else Ok VUndefined
  | VBool _ | VNum _ => Ok VUndefined
  end.

(** A property key is an array index when it is the decimal spelling of
    a natural number. *)
Definition as_index (k : string) : option Z :=
  match JSON.read_digits k 0 0 with
  | (n, cnt, EmptyString) =>
      if (0 <? cnt) && String.eqb (Num.Z_to_string n) k then Some n else None
  | _ => None
  end.

Definition is_ascii (s : string) : bool :=
  forallb (fun c => JSON.code c <? 128) (list_ascii_of_string s).

(** [v[key]] with a computed key.  Own properties, elements, characters
    and [length] are read as they are; a key that is no own property is
    [undefined] when it cannot name an inherited member. *)
Definition get_computed (v key : value) : result value :=
  match v with
  | VUndefined | VNull =>
      Throw (TypeError ("Cannot read properties of " ++ describe v))
  | _ =>
      k <- to_string key ;;
      match v with
      | VObj fs =>
          match obj_get fs k with
          | Some x => Ok x
          | None => if inherited k then Beyond else Ok VUndefined
          end
      | VArr xs =>
          match as_index k with
          | Some i => Ok (nth (Z.to_nat i) xs VUndefined)
          | None =>
              if String.eqb k "length"
              then Ok (VNum (Num.of_Z (Z.of_nat (List.length xs))))
              else Beyond
          end
      | VStr str =>
          match as_index k with
          | Some i =>
              if is_ascii str then
                Ok (match String.get (Z.to_nat i) str with
                    | Some c => VStr (String c "")
                    | None => VUndefined
                    end)
              else Beyond
          | None =>
              if String.eqb k "length" then Ok (VNum (Num.of_Z (utf16_length str)))
              else Beyond
          end
      | _ =>
          match as_index k with
          | Some _ => Ok VUndefined
          | None => Beyond
          end
      end
  end.

(** [v.toString()] *)
Definition toString_method (v : value) : result string :=
  match v with
  | VUndefined | VNull => Throw (cannot_read v "toString")
  | VObj fs =>
      if has_own fs "toString"
      then Throw (TypeError "toString is not a function")
      else Ok "[object Object]"
  | _ => to_string v
  end.

(** The receiver of [map] or [reduce] has to be an array: nothing else
    read from JSON has such a method. *)
Definition as_array (method : string) (v : value) : result (list value) :=
  match v with
  | VArr xs => Ok xs
  | VUndefined | VNull => Throw (cannot_read v method)
  | _ => Throw (TypeError (method ++ " is not a function"))
  end.

(** [v.trim()] *)
Definition trim_method (v : value) : result string :=
  match v with
  | VStr s => Ok (Str.trim s)
  | VUndefined | VNull => Throw (cannot_read v "trim")
  | _ => Throw (TypeError "trim is not a function")
  end.

(** Own property keys come out with the array indices first, in
    ascending order, then the other keys in creation order. *)
Fixpoint insert_index {A : Type} (e : Z * (string * A)) (l : list (Z * (string * A)))
  : list (Z * (string * A)) :=
  match l with
  | [] => [e]
  | x :: r => if fst e <? fst x then e :: x :: r else x :: insert_index e r
  end.

Definition is_index_key (k : string) : bool :=
  match as_index k with
  | Some i => i <? 4294967295
  | None => false
  end.

Definition index_entries {A : Type} (fs : list (string * A)) : list (Z * (string * A)) :=
  fold_right
    (fun kv acc =>
       match as_index (fst kv) with
       | Some i => if i <? 4294967295 then insert_index (i, kv) acc else acc
       | None => acc
       end)
    [] fs.

Definition ordered_entries {A : Type} (fs : list (string * A)) : list (string * A) :=
  (map snd (index_entries fs)
   ++ filter (fun kv => negb (is_index_key (fst kv))) fs)%list.

Fixpoint enumerate {A : Type} (i : Z) (xs : list A) : list (Z * A) :=
  match xs with
  | [] => []
  | x :: r => (i, x) :: enumerate (i + 1) r
  end.

(** [Object.entries(v)] *)
Definition entries (v : value) : result (list (string * value)) :=
  match v with
  | VUndefined | VNull =>
      Throw (TypeError "Cannot convert undefined or null to object")
  | VObj fs => Ok (ordered_entries fs)
  | VArr xs => Ok (map (fun ix => (Num.Z_to_string (fst ix), snd ix)) (enumerate 0 xs))
  | VStr s =>
      if is_ascii s then
        Ok (map (fun ix => (Num.Z_to_string (fst ix), VStr (String (snd ix) "")))
                (enumerate 0 (list_ascii_of_string s)))
      else Beyond
  | VBool _ | VNum _ => Ok []
  end.

End JS.

(** ** [JSON.stringify]

    Used to state what a serialised object is; the handlers themselves
    never call it. *)

Definition hex_digit (z : Z) : ascii :=
  if z <? 10 then JSON.chr (48 + z) else JSON.chr (87 + z).

Definition unicode_escape (u : Z) : string :=
  "\u" ++ String (hex_digit (u / 4096))
            (String (hex_digit ((u / 256) mod 16))
               (String (hex_digit ((u / 16) mod 16))
                  (String (hex_digit (u mod 16)) ""))).

(** The characters of a quoted string: the quote, the backslash and the
    control characters are escaped, and so is a surrogate that stands
    alone (bytes [ED A0..BF xx]). *)
Fixpoint quote_chars (s : string) : string :=
  match s with
  | EmptyString => EmptyString
  | String c r =>
      let n := JSON.code c in
      if n =? 34 then "\" ++ String c (quote_chars r)
      else if n =? 92 then "\\" ++ quote_chars r
      else if n =? 8 then "\b" ++ quote_chars r
      else if n =? 12 then "\f" ++ quote_chars r
      else if n =? 10 then "\n" ++ quote_chars r
      else if n =? 13 then "\r" ++ quote_chars r
      else if n =? 9 then "\t" ++ quote_chars r
      else if n <? 32 then unicode_escape n ++ quote_chars r
      else
        match r with
        | String c2 (String c3 r3) =>
            if (n =? 237) && (160 <=? JSON.code c2) then
              unicode_escape (53248 + (JSON.code c2 mod 64) * 64 + JSON.code c3 mod 64)
              ++ quote_chars r3
            else String c (quote_chars r)
        | _ => String c (quote_chars r)
        end
  end.

Definition quote_string (s : string) : string :=
  String (JSON.chr 34) (quote_chars s ++ String (JSON.chr 34) "").

Definition member_text (kv : string * option string) : list string :=
  match snd kv with
  | Some s => [quote_string (fst kv) ++ ":" ++ s]
  | None => []
  end.

(** [None] is the [undefined] that serialising [undefined] gives; inside
    an array it becomes [null], and a property holding it is left out. *)
Fixpoint JSON_stringify (v : value) : option string :=
  match v with
  | VUndefined => None
  | VNull => Some "null"
  | VBool b => Some (if b then "true" else "false")
  | VNum n => Some (if Num.is_finite n then Num.to_string n else "null")
  | VStr s => Some (quote_string s)
  | VArr xs =>
      let fix elements (l : list value) : list string :=
        match l with
        | [] => []
        | x :: r =>
            match JSON_stringify x with
            | Some s => s
            | None => "null"
            end :: elements r
        end in
      Some ("[" ++ JS.join "," (elements xs) ++ "]")
  | VObj fs =>
      let fix members (l : list (string * value)) : list (string * option string) :=
        match l with
        | [] => []
        | (k, x) :: r => (k, JSON_stringify x) :: members r
        end in
      Some ("{" ++ JS.join "," (flat_map member_text (JS.ordered_entries (members fs))) ++ "}")
  end.

(** The serialisation of an object, which is never [undefined]. *)
Definition stringify (J : value) : string :=
  match JSON_stringify J with
  | Some s => s
  | None => "undefined"
  end.

(** ** Requests, responses and the handlers' effects *)

Record response : Type := { status : Z; payload : value }.

(** [NextResponse.json(payload, { status })]; the status is 200 when none
    is given. *)
Definition json_response (payload : value) (st : Z) : response :=
  {| status := st; payload := payload |}.

Definition error_payload (msg : string) : value := VObj [("error", VStr msg)].

(** A request is the text of its body; [request.json()] parses it. *)
Record request : Type := { body : string }.

Definition request_json (req : request) : result value :=
  match JSON.parse (body req) with
  | Some v => Ok v
  | None => Throw (SyntaxError "Unexpected token in JSON")
  end.

(** The surroundings of a handler: the environment variable holding the
    credential, and the text-generation service, which answers a prompt
    (under a token budget) with a text or fails. *)
Record world : Type := {
  OPENAI_API_KEY : option string;
  generateText : string -> Z -> result string
}.

(** [!process.env.OPENAI_API_KEY] *)
Definition no_api_key (w : world) : bool :=
  match OPENAI_API_KEY w with
  | None => true
  | Some k => String.eqb k ""
  end.

(** An external call is recorded with its prompt and budget. *)
Definition call : Type := string * Z.

(** A handler body threads the log of external calls and either goes on
    with a value, returns a response early, or throws. *)
Definition handler (A : Type) : Type :=
  list call -> result (response + A) * list call.

Definition ret {A : Type} (a : A) : handler A := fun log => (Ok (inr a), log).

Definition respond {A : Type} (r : response) : handler A :=
  fun log => (Ok (inl r), log).

Definition lift {A : Type} (m : result A) : handler A :=
  fun log =>
    (match m with
     | Ok a => Ok (inr a)
     | Throw e => Throw e
     | Beyond => Beyond
     end, log).

Definition hbind {A B : Type} (m : handler A) (k : A -> handler B) : handler B :=
  fun log =>
    match m log with
    | (Ok (inr a), log') => k a log'
    | (Ok (inl r), log') => (Ok (inl r), log')
    | (Throw e, log') => (Throw e, log')
    | (Beyond, log') => (Beyond, log')
    end.

Notation "x <~ m ;; k" := (hbind m (fun x => k))
  (at level 61, m at next level, right associativity) : js_scope.

(** [if (c) return r;] *)
Definition return_if (c : bool) (r : response) : handler unit :=
  if c then respond r else ret tt.

(** [await generateText({ model, prompt, maxTokens })] *)
Definition call_model (w : world) (prompt : string) (maxTokens : Z) : handler string :=
  fun log =>
    (match generateText w prompt maxTokens with
     | Ok t => Ok (inr t)
     | Throw e => Throw e
     | Beyond => Beyond
     end, (log ++ [(prompt, maxTokens)])%list).

(** [try { ... } catch (error) { ... }] around a body that ends by
    returning a response. *)
Definition try_catch (m : handler response) (on_error : exn -> response)
  : option response * list call :=
  match m [] with
  | (Ok (inl r), log) => (Some r, log)
  | (Ok (inr r), log) => (Some r, log)
  | (Throw e, log) => (Some (on_error e), log)
  | (Beyond, log) => (None, log)
  end.

(** Double quotes inside the prompt templates are written [~] and put
    back by [tpl]. *)
Definition tpl (s : string) : string :=
  string_of_list_ascii
    (map (fun c => if Ascii.eqb c "~" then ascii_of_nat 34 else c)
         (list_ascii_of_string s)).

(** ** Recovery of JSON from the model's text (both handlers) *)

Definition strip_fences (jsonText : string) : string :=
  if Str.startsWith jsonText "```json"
  then Str.strip_close (Str.strip_open "```json" jsonText)
  else if Str.startsWith jsonText "```"
  then Str.strip_close (Str.strip_open "```" jsonText)
  else jsonText.

Definition extract_json (failure : string) (text : string) : result value :=
  let jsonText := strip_fences (Str.trim text) in
  match JSON.parse jsonText with
  | Some data => Ok data
  | None =>
      match Str.match_braces jsonText with
      | Some jsonMatch =>
          match JSON.parse jsonMatch with
          | Some data => Ok data
          | None => Throw (SyntaxError "Unexpected token in JSON")
          end
      | None => Throw (ErrorObj "Error" failure)
      end
  end.

(** ** The evaluation handler: [src/app/api/evaluate/route.ts] *)

Module Evaluate.

Definition LF : string := String Str.LF "".

(** [${e}] inside a template literal *)
Definition subst (m : result value) : result string :=
  v <- m ;; JS.to_string v.

Definition path (v : value) (keys : list string) : result value :=
  foldM JS.get keys v.

Definition num (z : Z) : value := VNum (Num.of_Z z).

(** The rubric section shared by the five prompts:
    [assignment.rubric.categories.map(cat => ...).join("\n")] *)
Definition rubric_category (cat : value) : result string :=
  name <- subst (JS.get cat "name") ;;
  points <- subst (JS.get cat "points") ;;
  exemplary <- subst (path cat ["levels"; "exemplary"; "description"]) ;;
  proficient <- subst (path cat ["levels"; "proficient"; "description"]) ;;
  developing <- subst (path cat ["levels"; "developing"; "description"]) ;;
  beginning <- subst (path cat ["levels"; "beginning"; "description"]) ;;
  Ok ("
- " ++ name ++ " (" ++ points ++ " points):
  Exemplary: " ++ exemplary ++ "
  Proficient: " ++ proficient ++ "
  Developing: " ++ developing ++ "
  Beginning: " ++ beginning ++ "
").

Definition rubric_text (assignment : value) : result string :=
  categories <- path assignment ["rubric"; "categories"] ;;
  cats <- JS.as_array "map" categories ;;
  parts <- mapM rubric_category cats ;;
  Ok (JS.join LF parts).

(** The closing instructions; the five prompts differ in the numbered
    list and in the sample values of the JSON skeleton. *)
Definition response_format (feedback detailed score categoryFeedback : string) : string :=
  tpl ("Format your response as JSON:
{
  ~overallFeedback~: ~" ++ feedback ++ "~,
  ~detailedFeedback~: ~" ++ detailed ++ "~,
  ~rubricAssessment~: [
    {
      ~category~: ~Category Name~,
      ~score~: " ++ score ++ ",
      ~maxScore~: 25,
      ~feedback~: ~" ++ categoryFeedback ++ "~
    }
  ]
}").

(** *** Multiple choice: the answers are scored before the prompt is written *)

Record question_detail : Type := {
  question : value;
  studentAnswer : value;
  correctAnswer : value;
  isCorrect : bool;
  points : value;
  earnedPoints : value
}.

Record tally : Type := {
  correctCount : Z;
  totalPoints : value;
  questionDetails : list question_detail
}.

(** One turn of the callback of [questions.map], with the two counters it
    updates. *)
Definition score_question (answers answerKey : value) (t : tally) (q : value)
  : result tally :=
  number <- JS.get q "number" ;;
  studentAnswer <- JS.get_computed answers number ;;
  number' <- JS.get q "number" ;;
  key <- JS.toString_method number' ;;
  correctAnswer <- JS.get_computed answerKey (VStr key) ;;
  let isCorrect := JS.strict_eq studentAnswer correctAnswer in
  '(count, total) <-
    (if isCorrect then
       pts <- JS.get q "points" ;;
       total <- JS.add (totalPoints t) pts ;;
       Ok (correctCount t + 1, total)
     else Ok (correctCount t, totalPoints t)) ;;
  question <- JS.get q "question" ;;
  points <- JS.get q "points" ;;
  earned <- (if isCorrect then JS.get q "points" else Ok (num 0)) ;;
  Ok {| correctCount := count;
        totalPoints := total;
        questionDetails :=
          (questionDetails t ++
           [{| question := question; studentAnswer := studentAnswer;
               correctAnswer := correctAnswer; isCorrect := isCorrect;
               points := points; earnedPoints := earned |}])%list |}.

Definition score_questions (questions : list value) (answers answerKey : value)
  : result tally :=
  foldM (score_question answers answerKey) questions
        {| correctCount := 0; totalPoints := num 0; questionDetails := [] |}.

(** [questions.reduce((sum, q) => sum + q.points, 0)] *)
Definition possible_points (questions : list value) : result value :=
  foldM (fun sum q => pts <- JS.get q "points" ;; JS.add sum pts) questions (num 0).

(** [Math.round((a / b) * 100)] *)
Definition percent (a b : value) : result Num.number :=
  ratio <- JS.div a b ;;
  Ok (Num.round (Num.mul ratio (Num.of_Z 100))).

Definition detail_text (iq : Z * question_detail) : result string :=
  let '(i, q) := iq in
  question <- JS.to_string (question q) ;;
  student <- JS.to_string (studentAnswer q) ;;
  correct <- JS.to_string (correctAnswer q) ;;
  earned <- JS.to_string (earnedPoints q) ;;
  points <- JS.to_string (points q) ;;
  Ok ("
" ++ Num.to_string (Num.of_Z (i + 1)) ++ ". " ++ question ++ "
   Student Answer: " ++ student ++ "
   Correct Answer: " ++ correct ++ "
   Result: " ++ (if isCorrect q then "✓ Correct" else "✗ Incorrect") ++ "
   Points: " ++ earned ++ " / " ++ points ++ "
").

Definition multiple_choice_prompt (assignment submission : value) : result string :=
  questions <- JS.get assignment "questions" ;;
  answers <- JS.get submission "answers" ;;
  answerKey <- JS.get assignment "answerKey" ;;
  qs <- JS.as_array "map" questions ;;
  t <- score_questions qs answers answerKey ;;
  title <- subst (JS.get assignment "title") ;;
  earned <- JS.to_string (totalPoints t) ;;
  possible <- subst (possible_points qs) ;;
  possible' <- possible_points qs ;;
  pct <- percent (totalPoints t) possible' ;;
  details <- mapM detail_text (JS.enumerate 0 (questionDetails t)) ;;
  rubric <- rubric_text assignment ;;
  Ok ("You are an expert educator evaluating a multiple choice test submission.

ASSIGNMENT: " ++ title ++ "

STUDENT PERFORMANCE:
- Correct Answers: " ++ Num.to_string (Num.of_Z (correctCount t))
  ++ " out of " ++ Num.to_string (Num.of_Z (Z.of_nat (List.length qs))) ++ "
- Points Earned: " ++ earned ++ " out of " ++ possible ++ "
- Percentage: " ++ Num.to_string pct ++ "%

QUESTION-BY-QUESTION BREAKDOWN:
" ++ JS.join LF details ++ "

RUBRIC:
" ++ rubric ++ "

Please provide:
1. Overall feedback (2-3 sentences summarizing performance)
2. Detailed feedback analyzing strengths and areas for improvement
3. Rubric-based assessment for each category with scores and feedback

" ++ response_format "Overall feedback text..." "Detailed analysis..." "25"
       "Feedback for this category...").

(** *** Essay *)

Definition numbered (iv : Z * value) : result string :=
  text <- JS.to_string (snd iv) ;;
  Ok (Num.to_string (Num.of_Z (fst iv + 1)) ++ ". " ++ text).

Definition essay_prompt (assignment submission : value) : result string :=
  title <- subst (JS.get assignment "title") ;;
  prompt <- subst (JS.get assignment "prompt") ;;
  essay <- subst (JS.get submission "text") ;;
  text <- JS.get submission "text" ;;
  trimmed <- JS.trim_method text ;;
  requirements <- JS.get assignment "requirements" ;;
  reqs <- JS.as_array "map" requirements ;;
  lines <- mapM numbered (JS.enumerate 0 reqs) ;;
  rubric <- rubric_text assignment ;;
  Ok ("You are an expert educator evaluating an essay submission.

ASSIGNMENT: " ++ title ++ "
ESSAY PROMPT: " ++ prompt ++ "

STUDENT ESSAY:
" ++ essay ++ "

WORD COUNT: " ++ Num.to_string (Num.of_Z (Str.wordCount trimmed)) ++ " words

REQUIREMENTS:
" ++ JS.join LF lines ++ "

RUBRIC:
" ++ rubric ++ "

Evaluate the essay based on the rubric. Consider:
- How well the essay addresses the prompt
- Quality of argumentation and analysis
- Use of evidence and examples
- Organization and structure
- Writing quality (clarity, grammar, style)
- Adherence to requirements

Provide:
1. Overall feedback (3-4 sentences)
2. Detailed feedback with specific examples from the essay
3. Rubric-based assessment with scores for each category

" ++ response_format "Overall feedback text..."
       "Detailed analysis with specific examples..." "20"
       "Feedback for this category with specific examples...").

(** *** Mixed test: answers and answer key are listed side by side *)

Definition test_question (submission : value) (q : value) : result string :=
  answers <- JS.get submission "answers" ;;
  number <- JS.get q "number" ;;
  given <- JS.get_computed answers number ;;
  let answer := JS.or given (VStr "No answer provided") in
  number' <- subst (JS.get q "number") ;;
  type <- subst (JS.get q "type") ;;
  question <- subst (JS.get q "question") ;;
  answer' <- JS.to_string answer ;;
  points <- subst (JS.get q "points") ;;
  Ok (number' ++ ". [" ++ type ++ "] " ++ question ++ "
   Student Answer: " ++ answer' ++ "
   Points: " ++ points).

Definition key_line (entry : string * value) : result string :=
  ans <- JS.to_string (snd entry) ;;
  Ok (fst entry ++ ". " ++ ans).

Definition test_prompt (assignment submission : value) : result string :=
  title <- subst (JS.get assignment "title") ;;
  questions <- JS.get assignment "questions" ;;
  qs <- JS.as_array "map" questions ;;
  answers <- mapM (test_question submission) qs ;;
  answerKey <- JS.get assignment "answerKey" ;;
  keys <- JS.entries answerKey ;;
  keyLines <- mapM key_line keys ;;
  rubric <- rubric_text assignment ;;
  Ok ("You are an expert educator evaluating a mixed test submission.

ASSIGNMENT: " ++ title ++ "

STUDENT ANSWERS:
" ++ JS.join (LF ++ LF) answers ++ "

ANSWER KEY:
" ++ JS.join LF keyLines ++ "

RUBRIC:
" ++ rubric ++ "

Evaluate the submission and provide:
1. Overall feedback
2. Detailed feedback for each question type
3. Rubric-based assessment

" ++ response_format "Overall feedback text..." "Detailed analysis..." "20"
       "Feedback for this category...").

(** *** Case study *)

Definition task_response (submission : value) (it : Z * value) : result string :=
  responses <- JS.get submission "responses" ;;
  given <- JS.get_computed responses (num (fst it + 1)) ;;
  let response := JS.or given (VStr "No response provided") in
  task <- JS.to_string (snd it) ;;
  response' <- JS.to_string response ;;
  Ok ("Task " ++ Num.to_string (Num.of_Z (fst it + 1)) ++ ": " ++ task ++ "
Response: " ++ response').

Definition case_study_prompt (assignment submission : value) : result string :=
  title <- subst (JS.get assignment "title") ;;
  scenario <- subst (JS.get assignment "scenario") ;;
  tasks <- JS.get assignment "tasks" ;;
  ts <- JS.as_array "map" tasks ;;
  responses <- mapM (task_response submission) (JS.enumerate 0 ts) ;;
  rubric <- rubric_text assignment ;;
  Ok ("You are an expert educator evaluating a case study submission.

ASSIGNMENT: " ++ title ++ "
CASE STUDY SCENARIO: " ++ scenario ++ "

STUDENT RESPONSES:
" ++ JS.join (LF ++ LF) responses ++ "

RUBRIC:
" ++ rubric ++ "

Evaluate the responses based on:
- Depth of analysis
- Application of concepts
- Critical thinking
- Quality of reasoning
- Completeness of responses

Provide:
1. Overall feedback
2. Detailed feedback for each task
3. Rubric-based assessment

" ++ response_format "Overall feedback text..." "Detailed analysis..." "20"
       "Feedback for this category...").

(** *** Every other case: presentations, projects, and whatever else the
    type and the submission happen to be *)

Definition generic_prompt (assignment submission assignmentType : value)
  : result string :=
  type <- JS.to_string assignmentType ;;
  title <- subst (JS.get assignment "title") ;;
  text <- subst (JS.get submission "text") ;;
  rubric <- rubric_text assignment ;;
  Ok ("You are an expert educator evaluating a " ++ type ++ " submission.

ASSIGNMENT: " ++ title ++ "

STUDENT SUBMISSION:
" ++ text ++ "

RUBRIC:
" ++ rubric ++ "

Evaluate the submission and provide:
1. Overall feedback
2. Detailed feedback
3. Rubric-based assessment

" ++ response_format "Overall feedback text..." "Detailed analysis..." "20"
       "Feedback for this category...").

(** [assignmentType === kind && submission.type === kind] *)
Definition both_are (kind : string) (assignmentType submission : value) : result bool :=
  if JS.strict_eq assignmentType (VStr kind) then
    type <- JS.get submission "type" ;;
    Ok (JS.strict_eq type (VStr kind))
  else Ok false.

Definition evaluation_prompt (assignment submission assignmentType : value)
  : result string :=
  mc <- both_are "multiple-choice" assignmentType submission ;;
  if mc then multiple_choice_prompt assignment submission else
  essay <- both_are "essay" assignmentType submission ;;
  if essay then essay_prompt assignment submission else
  test <- both_are "test" assignmentType submission ;;
  if test then test_prompt assignment submission else
  cs <- both_are "case-study" assignmentType submission ;;
  if cs then case_study_prompt assignment submission else
  generic_prompt assignment submission assignmentType.

(** *** The handler *)

(** [evaluationData.rubricAssessment.reduce((sum, item) => sum + (item.score || 0), 0)] *)
Definition add_score (sum item : value) : result value :=
  score <- JS.get item "score" ;;
  JS.add sum (JS.or score (num 0)).

Definition total_score (rubricAssessment : value) : result value :=
  items <- JS.as_array "reduce" rubricAssessment ;;
  foldM add_score items (num 0).

Definition success (totalScore maxScore : value) (percentage : Num.number)
  (evaluationData : value) : result response :=
  overall <- JS.get evaluationData "overallFeedback" ;;
  detailed <- JS.get evaluationData "detailedFeedback" ;;
  rubricAssessment <- JS.get evaluationData "rubricAssessment" ;;
  Ok (json_response
        (VObj [("success", VBool true);
               ("results",
                VObj [("totalScore", totalScore);
                      ("maxScore", maxScore);
                      ("percentage", VNum percentage);
                      ("feedback", JS.or overall (VStr "Evaluation complete."));
                      ("detailedFeedback", detailed);
                      ("rubricScores", JS.or rubricAssessment (VArr []))])])
        200).

(** What the handler does with the model's text. *)
Definition results (assignment : value) (text : string) : result response :=
  evaluationData <- extract_json "Could not parse evaluation data from AI response" text ;;
  rubricAssessment <- JS.get evaluationData "rubricAssessment" ;;
  totalScore <- total_score rubricAssessment ;;
  maxScore <- path assignment ["rubric"; "totalPoints"] ;;
  percentage <- percent totalScore maxScore ;;
  success totalScore maxScore percentage evaluationData.

Definition attempt (w : world) (req : request) : handler response :=
  body <~ lift (request_json req) ;;
  assignment <~ lift (JS.get body "assignment") ;;
  submission <~ lift (JS.get body "submission") ;;
  assignmentType <~ lift (JS.get body "assignmentType") ;;
  _ <~ return_if (negb (JS.truthy assignment))
         (json_response (error_payload "Assignment data is required.") 400) ;;
  _ <~ return_if (negb (JS.truthy submission))
         (json_response (error_payload "Submission data is required.") 400) ;;
  _ <~ return_if (negb (JS.truthy assignmentType))
         (json_response (error_payload "Assignment type is required.") 400) ;;
  _ <~ return_if (no_api_key w)
         (json_response
            (error_payload
               "OpenAI API key is not configured. Please add OPENAI_API_KEY to your .env.local file.")
            500) ;;
  evaluationPrompt <~ lift (evaluation_prompt assignment submission assignmentType) ;;
  text <~ call_model w evaluationPrompt 2000 ;;
  lift (results assignment text).

Definition failure (e : exn) : response :=
  match e with
  | ErrorObj _ message =>
      json_response
        (error_payload
           ("Failed to evaluate submission: " ++ message ++ ". Please try again."))
        500
  | NonError =>
      json_response
        (error_payload "An unexpected error occurred while evaluating the submission.")
        500
  end.

(** The response, when the run stays within this development, and the
    external calls made. *)
Definition POST (w : world) (req : request) : option response * list call :=
  try_catch (attempt w req) failure.

End Evaluate.

(** ** The generation handler: [src/app/api/generate/route.ts] *)

Module Generate.

(** The six prompt templates.  Each opens with a sentence that quotes the
    query and goes on with fixed instructions and the JSON skeleton the
    answer has to follow. *)

Definition multiple_choice_opening : string :=
  "You are an expert educational content creator. Generate a comprehensive multiple choice test based on the following topic or search query: ".

Definition multiple_choice_instructions : string :=
  tpl "

Please create:

1. ASSIGNMENT TITLE: A clear, engaging title for the test

2. TEST INSTRUCTIONS: Clear instructions for students on how to complete the test, including time limits, scoring, and any special requirements.

3. ASSIGNMENT OBJECTIVES: List 3-5 specific learning objectives this test assesses.

4. MULTIPLE CHOICE QUESTIONS: Create 10-15 high-quality multiple choice questions. Each question should:
   - Test understanding, application, or analysis (not just recall)
   - Have 4 answer options (A, B, C, D)
   - Have exactly ONE correct answer
   - Include plausible distractors (wrong answers that seem reasonable)
   - Be clearly written and unambiguous

5. ANSWER KEY: Provide the correct answer for each question.

6. GRADING RUBRIC: Create a rubric for grading the test with point allocations.

Make the content academic, rigorous, and suitable for university-level coursework. Questions should require critical thinking and demonstrate understanding of the topic.

Format your response as JSON with the following structure:
{
  ~title~: ~Test Title~,
  ~instructions~: ~Test instructions...~,
  ~objectives~: [~Objective 1~, ~Objective 2~, ...],
  ~questions~: [
    {
      ~number~: 1,
      ~question~: ~Question text?~,
      ~options~: {
        ~A~: ~Option A text~,
        ~B~: ~Option B text~,
        ~C~: ~Option C text~,
        ~D~: ~Option D text~
      },
      ~correctAnswer~: ~A~,
      ~points~: 5,
      ~explanation~: ~Brief explanation of why this is correct~
    }
  ],
  ~answerKey~: {
    ~1~: ~A~,
    ~2~: ~B~,
    ...
  },
  ~rubric~: {
    ~categories~: [
      {
        ~name~: ~Category Name~,
        ~points~: 50,
        ~levels~: {
          ~exemplary~: { ~points~: 50, ~description~: ~...~ },
          ~proficient~: { ~points~: 40, ~description~: ~...~ },
          ~developing~: { ~points~: 30, ~description~: ~...~ },
          ~beginning~: { ~points~: 20, ~description~: ~...~ }
        }
      }
    ],
    ~totalPoints~: 100
  }
}".

Definition essay_opening : string :=
  "You are an expert educational content creator. Generate a comprehensive essay assignment based on the following topic or search query: ".

Definition essay_instructions : string :=
  tpl "

Please create:

1. ASSIGNMENT TITLE: A clear, engaging title for the essay assignment

2. ESSAY PROMPT: A detailed, thought-provoking prompt that requires students to analyze, synthesize, and argue. Make it complex enough to require critical thinking and research.

3. ASSIGNMENT OBJECTIVES: List 3-5 specific learning objectives students should achieve.

4. ASSIGNMENT REQUIREMENTS: Provide clear requirements including:
   - Word count or page length
   - Formatting requirements
   - Citation style
   - Required sources or research components
   - Any specific elements that must be included

5. GRADING RUBRIC: Create a comprehensive rubric with the following structure:
   - Criteria categories (e.g., Thesis/Argument, Evidence/Analysis, Organization, Writing Quality, Citations)
   - Performance levels (Exemplary, Proficient, Developing, Beginning)
   - Point allocations
   - Clear descriptions for each performance level

Make the content academic, rigorous, and suitable for university-level coursework.

Format your response as JSON with the following structure:
{
  ~title~: ~Essay Assignment Title~,
  ~prompt~: ~Essay prompt text...~,
  ~objectives~: [~Objective 1~, ~Objective 2~, ...],
  ~requirements~: [~Requirement 1~, ~Requirement 2~, ...],
  ~rubric~: {
    ~categories~: [
      {
        ~name~: ~Category Name~,
        ~points~: 25,
        ~levels~: {
          ~exemplary~: { ~points~: 25, ~description~: ~...~ },
          ~proficient~: { ~points~: 20, ~description~: ~...~ },
          ~developing~: { ~points~: 15, ~description~: ~...~ },
          ~beginning~: { ~points~: 10, ~description~: ~...~ }
        }
      }
    ],
    ~totalPoints~: 100
  }
}".

Definition test_opening : string :=
  "You are an expert educational content creator. Generate a comprehensive test (mix of question types) based on the following topic or search query: ".

Definition test_instructions : string :=
  tpl "

Please create:

1. ASSIGNMENT TITLE: A clear, engaging title for the test

2. TEST INSTRUCTIONS: Clear instructions for students.

3. ASSIGNMENT OBJECTIVES: List 3-5 specific learning objectives this test assesses.

4. TEST QUESTIONS: Create a mix of question types:
   - 5-8 multiple choice questions (4 options each)
   - 3-5 short answer questions
   - 2-3 essay questions
   Each question should test understanding and application.

5. ANSWER KEY: Provide answers for all questions.

6. GRADING RUBRIC: Create a rubric with point allocations.

Make the content academic, rigorous, and suitable for university-level coursework.

Format your response as JSON with the following structure:
{
  ~title~: ~Test Title~,
  ~instructions~: ~Test instructions...~,
  ~objectives~: [~Objective 1~, ~Objective 2~, ...],
  ~questions~: [
    {
      ~type~: ~multiple-choice~,
      ~number~: 1,
      ~question~: ~Question text?~,
      ~options~: {~A~: ~...~, ~B~: ~...~, ~C~: ~...~, ~D~: ~...~},
      ~correctAnswer~: ~A~,
      ~points~: 5
    },
    {
      ~type~: ~short-answer~,
      ~number~: 6,
      ~question~: ~Question text?~,
      ~points~: 10
    },
    {
      ~type~: ~essay~,
      ~number~: 9,
      ~question~: ~Question text?~,
      ~points~: 20
    }
  ],
  ~answerKey~: {
    ~1~: ~A~,
    ~6~: ~Sample answer...~,
    ~9~: ~Sample answer...~
  },
  ~rubric~: {
    ~categories~: [...],
    ~totalPoints~: 100
  }
}".

Definition presentation_opening : string :=
  "You are an expert educational content creator. Generate a comprehensive presentation assignment based on the following topic or search query: ".

Definition presentation_instructions : string :=
  tpl "

Please create:

1. ASSIGNMENT TITLE: A clear, engaging title for the presentation assignment

2. PRESENTATION TOPIC/PROMPT: A detailed topic or prompt that students will present on. Make it engaging and require research.

3. ASSIGNMENT OBJECTIVES: List 3-5 specific learning objectives students should achieve.

4. PRESENTATION REQUIREMENTS: Provide clear requirements including:
   - Duration (e.g., 10-15 minutes)
   - Required slides or sections
   - Visual aids requirements
   - Research requirements
   - Delivery expectations

5. GRADING RUBRIC: Create a comprehensive rubric covering content, organization, delivery, visual aids, and Q&A handling.

Format your response as JSON with the following structure:
{
  ~title~: ~Presentation Assignment Title~,
  ~topic~: ~Presentation topic/prompt...~,
  ~objectives~: [~Objective 1~, ~Objective 2~, ...],
  ~requirements~: [~Requirement 1~, ~Requirement 2~, ...],
  ~rubric~: {
    ~categories~: [
      {
        ~name~: ~Category Name~,
        ~points~: 25,
        ~levels~: {
          ~exemplary~: { ~points~: 25, ~description~: ~...~ },
          ~proficient~: { ~points~: 20, ~description~: ~...~ },
          ~developing~: { ~points~: 15, ~description~: ~...~ },
          ~beginning~: { ~points~: 10, ~description~: ~...~ }
        }
      }
    ],
    ~totalPoints~: 100
  }
}".

Definition project_opening : string :=
  "You are an expert educational content creator. Generate a comprehensive project assignment based on the following topic or search query: ".

Definition project_instructions : string :=
  tpl "

Please create:

1. ASSIGNMENT TITLE: A clear, engaging title for the project

2. PROJECT DESCRIPTION: A detailed description of what students will create or accomplish. Make it engaging and require application of knowledge.

3. ASSIGNMENT OBJECTIVES: List 3-5 specific learning objectives students should achieve.

4. PROJECT REQUIREMENTS: Provide clear requirements including:
   - Deliverables (what students must submit)
   - Timeline or milestones
   - Required components or sections
   - Research or data requirements
   - Format specifications

5. GRADING RUBRIC: Create a comprehensive rubric covering all project components.

Format your response as JSON with the following structure:
{
  ~title~: ~Project Assignment Title~,
  ~description~: ~Project description...~,
  ~objectives~: [~Objective 1~, ~Objective 2~, ...],
  ~requirements~: [~Requirement 1~, ~Requirement 2~, ...],
  ~rubric~: {
    ~categories~: [
      {
        ~name~: ~Category Name~,
        ~points~: 25,
        ~levels~: {
          ~exemplary~: { ~points~: 25, ~description~: ~...~ },
          ~proficient~: { ~points~: 20, ~description~: ~...~ },
          ~developing~: { ~points~: 15, ~description~: ~...~ },
          ~beginning~: { ~points~: 10, ~description~: ~...~ }
        }
      }
    ],
    ~totalPoints~: 100
  }
}".

Definition case_study_opening : string :=
  "You are an expert educational content creator. Generate a nuanced case study assignment based on the following topic or search query: ".

Definition case_study_instructions : string :=
  tpl "

Please create:

1. ASSIGNMENT TITLE: A clear, engaging title for the case study

2. CASE STUDY SCENARIO: A detailed, realistic scenario that students will analyze. Make it complex enough to require critical thinking, with multiple dimensions to consider.

3. ASSIGNMENT OBJECTIVES: List 3-5 specific learning objectives students should achieve.

4. ASSIGNMENT TASKS: Provide clear, specific tasks students must complete. These should be actionable and require analysis, synthesis, and critical thinking.

5. GRADING RUBRIC: Create a comprehensive rubric with the following structure:
   - Criteria categories (e.g., Analysis, Application, Communication)
   - Performance levels (Exemplary, Proficient, Developing, Beginning)
   - Point allocations
   - Clear descriptions for each performance level

Make the content academic, rigorous, and suitable for university-level coursework. Ensure the case study is nuanced and requires students to think critically about multiple perspectives.

Format your response as JSON with the following structure:
{
  ~title~: ~Assignment Title~,
  ~scenario~: ~Case study scenario text...~,
  ~objectives~: [~Objective 1~, ~Objective 2~, ...],
  ~tasks~: [~Task 1~, ~Task 2~, ...],
  ~rubric~: {
    ~categories~: [
      {
        ~name~: ~Category Name~,
        ~points~: 25,
        ~levels~: {
          ~exemplary~: { ~points~: 25, ~description~: ~...~ },
          ~proficient~: { ~points~: 20, ~description~: ~...~ },
          ~developing~: { ~points~: 15, ~description~: ~...~ },
          ~beginning~: { ~points~: 10, ~description~: ~...~ }
        }
      }
    ],
    ~totalPoints~: 100
  }
}".

Definition quote : string := String (ascii_of_nat 34) "".

Definition generation_prompt (assignmentType : value) (query : string) : string :=
  let quoted := quote ++ query ++ quote in
  if JS.strict_eq assignmentType (VStr "multiple-choice")
  then multiple_choice_opening ++ quoted ++ multiple_choice_instructions
  else if JS.strict_eq assignmentType (VStr "essay")
  then essay_opening ++ quoted ++ essay_instructions
  else if JS.strict_eq assignmentType (VStr "test")
  then test_opening ++ quoted ++ test_instructions
  else if JS.strict_eq assignmentType (VStr "presentation")
  then presentation_opening ++ quoted ++ presentation_instructions
  else if JS.strict_eq assignmentType (VStr "project")
  then project_opening ++ quoted ++ project_instructions
  else case_study_opening ++ quoted ++ case_study_instructions.

Definition validTypes : list string :=
  ["case-study"; "multiple-choice"; "essay"; "test"; "presentation"; "project"].

(** [validTypes.includes(v)] *)
Definition is_valid_type (v : value) : bool :=
  existsb (fun t => JS.strict_eq (VStr t) v) validTypes.

(** [!query || typeof query !== "string" || query.trim().length === 0] *)
Definition query_rejected (query : value) : bool :=
  negb (JS.truthy query)
  || match query with
     | VStr q => String.eqb (Str.trim q) ""
     | _ => true
     end.

(** [const { query, assignmentType = "case-study" } = body] *)
Definition with_default (v : value) (d : value) : value :=
  match v with
  | VUndefined => d
  | _ => v
  end.

(** What the handler does with the model's text. *)
Definition generated (query assignmentType : value) (text : string) : result response :=
  assignmentData <- extract_json "Could not parse assignment data from AI response" text ;;
  Ok (json_response
        (VObj [("success", VBool true);
               ("assignment", assignmentData);
               ("query", query);
               ("assignmentType", assignmentType)])
        200).

Definition attempt (w : world) (req : request) : handler response :=
  body <~ lift (request_json req) ;;
  query <~ lift (JS.get body "query") ;;
  given <~ lift (JS.get body "assignmentType") ;;
  let assignmentType := with_default given (VStr "case-study") in
  _ <~ return_if (query_rejected query)
         (json_response
            (error_payload "Please provide a search query to generate an assignment.")
            400) ;;
  _ <~ return_if (negb (is_valid_type assignmentType))
         (json_response
            (error_payload
               ("Invalid assignment type. Must be one of: " ++ JS.join ", " validTypes))
            400) ;;
  _ <~ return_if (no_api_key w)
         (json_response
            (error_payload
               "OpenAI API key is not configured. Please add OPENAI_API_KEY to your .env.local file.")
            500) ;;
  q <~ lift (JS.to_string query) ;;
  text <~ call_model w (generation_prompt assignmentType q) 3000 ;;
  lift (generated query assignmentType text).

Definition failure (e : exn) : response :=
  match e with
  | ErrorObj _ message =>
      json_response
        (error_payload
           ("Failed to generate assignment: " ++ message
            ++ ". Please try again or check your API configuration."))
        500
  | NonError =>
      json_response
        (error_payload "An unexpected error occurred while generating the assignment.")
        500
  end.

Definition POST (w : world) (req : request) : option response * list call :=
  try_catch (attempt w req) failure.

End Generate.

(** ** Notions used to state the properties *)

(** Whether a character occurs in a string. *)
Fixpoint occurs (c : ascii) (s : string) : bool :=
  match s with
  | EmptyString => false
  | String a r => Ascii.eqb a c || occurs c r
  end.

(** Text without braces. *)
Definition brace_free (s : string) : bool :=
  negb (occurs "{" s) && negb (occurs "}" s).

(** A span that starts with an opening brace and ends with a closing one. *)
Definition has_span (t : string) : Prop :=
  exists a b c, t = a ++ String "{" (b ++ String "}" c).

(** A fenced block: the marker with its language tag, the content on
    lines of its own, the closing marker. *)
Definition fence (lang content : string) : string :=
  "```" ++ lang ++ String Str.LF (content ++ String Str.LF "```").

(** How a handler settles a computation that ends in a response: a thrown
    error is answered by the [catch] block. *)
Definition settle (on_error : exn -> response) (m : result response)
  : option response :=
  match m with
  | Ok r => Some r
  | Throw e => Some (on_error e)
  | Beyond => None
  end.

(** A field of the [results] object of a response. *)
Definition result_field (r : response) (k : string) : option value :=
  match payload r with
  | VObj fs =>
      match obj_get fs "results" with
      | Some (VObj rs) => obj_get rs k
      | _ => None
      end
  | _ => None
  end.

(** Following the words of the specification: the number a category's
    score stands for, a missing score counting as zero (and a zero of
    either sign as zero). *)
Definition score_of (item : value) : Num.number :=
  match JS.get item "score" with
  | Ok (VNum n) => if Num.is_zero n then Num.zero else n
  | _ => Num.zero
  end.

(** Following the words of the specification:
    [sum(item.score for item in rubricScores)], added up in order. *)
Definition sum_of_scores (items : list value) : Num.number :=
  fold_left (fun acc item => Num.add acc (score_of item)) items Num.zero.

(** An entry as the data model has it: its score is a number, or missing. *)
Definition numeric_entry (item : value) : Prop :=
  JS.get item "score" = Ok VUndefined
  \/ exists n, JS.get item "score" = Ok (VNum n) /\ Num.is_nan n = false.

(** An entry the summation copes with: something other than [null] whose
    score is a number or is falsy. *)
Definition tolerated (item : value) : Prop :=
  exists score, JS.get item "score" = Ok score
                /\ (JS.truthy score = false \/ exists n, score = VNum n).

(** What an entry adds to the total: nothing when its score is falsy
    (missing, [null], [false], a zero, NaN or the empty string), and the
    score itself when it is any other number. *)
Definition contribution (item : value) : Num.number :=
  match JS.get item "score" with
  | Ok (VNum n) => if JS.truthy (VNum n) then n else Num.zero
  | _ => Num.zero
  end.

Definition sum_of_contributions (items : list value) : Num.number :=
  fold_left (fun acc item => Num.add acc (contribution item)) items Num.zero.

(** Following the words of the specification:
    [round(100 * totalScore / maxScore)] on integers, halves rounding up. *)
Definition spec_percentage (totalScore maxScore : Z) : Z :=
  (200 * totalScore + maxScore) / (2 * maxScore).

(** An entry of [rubricScores] with a score and a maximum, as in the
    worked example of the specification. *)
Definition scored (score maxScore : Z) : value :=
  VObj [("score", VNum (Num.of_Z score)); ("maxScore", VNum (Num.of_Z maxScore))].

(** How the figures of a response hang together: [totalScore] is what the
    handler's summation makes of [rubricScores], which is their sum when
    the scores are numbers; [maxScore] is the assignment's
    [rubric.totalPoints]; [percentage] is
    [Math.round((totalScore / maxScore) * 100)] in binary64 arithmetic. *)
Definition figures_agree (req : request) (r : response) : Prop :=
  exists b assignment items totalScore maxScore percentage,
    JSON.parse (body req) = Some b
    /\ JS.get b "assignment" = Ok assignment
    /\ result_field r "rubricScores" = Some (VArr items)
    /\ result_field r "totalScore" = Some totalScore
    /\ result_field r "maxScore" = Some maxScore
    /\ result_field r "percentage" = Some (VNum percentage)
    /\ Evaluate.total_score (VArr items) = Ok totalScore
    /\ (Forall numeric_entry items -> totalScore = VNum (sum_of_scores items))
    /\ Evaluate.path assignment ["rubric"; "totalPoints"] = Ok maxScore
    /\ Evaluate.percent totalScore maxScore = Ok percentage
    /\ (forall t m,
          totalScore = VNum t -> maxScore = VNum m ->
          percentage = Num.round (Num.mul (Num.div t m) (Num.of_Z 100)))
    /\ (items = [scored 20 25; scored 15 25] ->
        maxScore = VNum (Num.of_Z 50) ->
        totalScore = VNum (Num.of_Z 35) /\ percentage = Num.of_Z 70).

(** Sample requests: an essay graded against a rubric worth [totalPoints],
    and a model that answers with the given scores. *)
Definition essay_request (totalPoints : string) : request :=
  {| body := tpl ("{ ~assignment~: { ~title~: ~Trade~, ~prompt~: ~Discuss.~, ~requirements~: [~Cite sources~], ~rubric~: { ~categories~: [], ~totalPoints~: " ++ totalPoints ++ " } }, ~submission~: { ~type~: ~essay~, ~text~: ~An answer.~ }, ~assignmentType~: ~essay~ }") |}.

Definition scores_reply (scores : string) : string :=
  "```json" ++ String Str.LF (tpl ("{ ~overallFeedback~: ~Fine.~, ~rubricAssessment~: " ++ scores ++ " }")
    ++ String Str.LF "```").

Definition model_replying (reply : string) : world :=
  {| OPENAI_API_KEY := Some "key"; generateText := fun _ _ => Ok reply |}.

Definition response_of (run : option response * list call) : response :=
  match fst run with
  | Some r => r
  | None => json_response VUndefined 0
  end.

Definition example_response : response :=
  Eval vm_compute in
    response_of
      (Evaluate.POST
         (model_replying
            (scores_reply "[ { ~score~: 20, ~maxScore~: 25 }, { ~score~: 15, ~maxScore~: 25 } ]"))
         (essay_request "50")).

Definition example_calls : list call :=
  Eval vm_compute in
    snd (Evaluate.POST
           (model_replying
              (scores_reply "[ { ~score~: 20, ~maxScore~: 25 }, { ~score~: 15, ~maxScore~: 25 } ]"))
           (essay_request "50")).

Definition example_prompt : string :=
  Eval vm_compute in
    match example_calls with
    | [(prompt, _)] => prompt
    | _ => ""
    end.

(** A divisor that is zero or absent. *)
Definition zero_or_absent (maxScore : value) : Prop :=
  maxScore = VUndefined \/ maxScore = VNull
  \/ exists s, maxScore = VNum (S754_zero s).

(** An evaluation in which everything but the division is settled: the
    request carries its three fields, the credential is set, the prompt
    can be written, the model answers, and the rubric assessment recovered
    from its answer is an array that the summation adds up. *)
Definition sums_up (w : world) (req : request) (assignment : value)
  (prompt : string) (totalScore : value) : Prop :=
  exists b submission ty text data items,
    JSON.parse (body req) = Some b
    /\ JS.get b "assignment" = Ok assignment /\ JS.truthy assignment = true
    /\ JS.get b "submission" = Ok submission /\ JS.truthy submission = true
    /\ JS.get b "assignmentType" = Ok ty /\ JS.truthy ty = true
    /\ no_api_key w = false
    /\ Evaluate.evaluation_prompt assignment submission ty = Ok prompt
    /\ generateText w prompt 2000 = Ok text
    /\ extract_json "Could not parse evaluation data from AI response" text = Ok data
    /\ JS.get data "rubricAssessment" = Ok (VArr items)
    /\ Evaluate.total_score (VArr items) = Ok totalScore.

Definition zero_points_run : option response * list call :=
  Evaluate.POST (model_replying (scores_reply "[ { ~score~: 20, ~maxScore~: 25 } ]"))
    (essay_request "0").

Definition zero_points_prompt : string :=
  Eval vm_compute in
    match snd zero_points_run with
    | [(prompt, _)] => prompt
    | _ => ""
    end.

Definition essay_assignment (totalPoints : Num.number) : value :=
  VObj [("title", VStr "Trade"); ("prompt", VStr "Discuss.");
        ("requirements", VArr [VStr "Cite sources"]);
        ("rubric", VObj [("categories", VArr []);
                         ("totalPoints", VNum totalPoints)])].

Definition essay_body (totalPoints : Num.number) : value :=
  VObj [("assignment", essay_assignment totalPoints);
        ("submission", VObj [("type", VStr "essay"); ("text", VStr "An answer.")]);
        ("assignmentType", VStr "essay")].

Fixpoint filterM {A : Type} (f : A -> result bool) (xs : list A) : result (list A) :=
  match xs with
  | [] => Ok []
  | x :: r =>
      keep <- f x ;;
      rest <- filterM f r ;;
      Ok (if keep then x :: rest else rest)
  end.

(** Following the words of the specification:
    [submission.answers[q.number] == assignment.answerKey[q.number]]. *)
Definition answered_correctly (answers answerKey q : value) : result bool :=
  number <- JS.get q "number" ;;
  given <- JS.get_computed answers number ;;
  expected <- JS.get_computed answerKey number ;;
  Ok (JS.strict_eq given expected).

Definition add_points (sum q : value) : result value :=
  pts <- JS.get q "points" ;; JS.add sum pts.

(** Following the words of the specification: the objective score is the
    sum of [q.points] over the questions answered as the key has it. *)
Definition objective_score (questions : list value) (answers answerKey : value)
  : result value :=
  correct <- filterM (answered_correctly answers answerKey) questions ;;
  foldM add_points correct (Evaluate.num 0).

(** The prompt states the objective score of the submission. *)
Definition embeds_objective_score (assignment submission : value) (prompt : string)
  : Prop :=
  exists questions answers answerKey score earned,
    JS.get assignment "questions" = Ok (VArr questions)
    /\ JS.get submission "answers" = Ok answers
    /\ JS.get assignment "answerKey" = Ok answerKey
    /\ objective_score questions answers answerKey = Ok score
    /\ JS.to_string score = Ok earned
    /\ Str.includes prompt ("- Points Earned: " ++ earned ++ " out of ") = true.

(** The worked example of the specification: two questions worth five
    points each, the key A and B, the answers A and C. *)
Definition quiz_questions (p1 p2 : Z) : list value :=
  [VObj [("number", VNum (Num.of_Z 1)); ("type", VStr "multiple-choice");
         ("question", VStr "First?"); ("points", VNum (Num.of_Z p1))];
   VObj [("number", VNum (Num.of_Z 2)); ("type", VStr "multiple-choice");
         ("question", VStr "Second?"); ("points", VNum (Num.of_Z p2))]].

Definition quiz (kind : string) (p1 p2 : Z) : value :=
  VObj [("title", VStr "Quiz");
        ("questions", VArr (quiz_questions p1 p2));
        ("answerKey", VObj [("1", VStr "A"); ("2", VStr "B")]);
        ("rubric", VObj [("categories", VArr []); ("totalPoints", VNum (Num.of_Z 10))])].

Definition quiz_answers (second : string) : value :=
  VObj [("1", VStr "A"); ("2", VStr second)].

Definition quiz_submission (kind second : string) : value :=
  VObj [("type", VStr kind); ("answers", quiz_answers second)].

Definition quiz_prompt (kind second : string) (p1 p2 : Z) : string :=
  match Evaluate.evaluation_prompt (quiz kind p1 p2) (quiz_submission kind second)
          (VStr kind) with
  | Ok prompt => prompt
  | _ => ""
  end.

(** An ASCII character that is not white space. *)
Definition solid (c : ascii) : Prop := (Str.code c < 128)%N /\ Str.ws1 c = false.

(** What trimming and fence removal take away.

    Each of the four steps removes characters at one end only.  [cuts f c]
    says more: [f] removes them from what stands before the first [c]
    and never reaches that [c]. *)

Definition shortens (f : string -> string) : Prop :=
  forall s, exists x, s = x ++ f s.

Definition cuts (f : string -> string) (c : ascii) : Prop :=
  forall pre r, exists x pre1,
    pre = x ++ pre1 /\ f (pre ++ String c r) = pre1 ++ String c r.

(** The mirror images, for the steps that work at the end. *)
Definition mirrored (f g : string -> string) : Prop :=
  forall s, f s = Str.rev (g (Str.rev s)).

(** [keeps h s]: whatever [h] removes from a text in which [s] stands
    between two others, it removes from those two. *)
Definition keeps (h : string -> string) (s : string) : Prop :=
  forall pre post, exists pre' post' x y,
    h (pre ++ s ++ post) = pre' ++ s ++ post'
    /\ pre = x ++ pre' /\ post = post' ++ y.

(** A small assignment, for the examples. *)
Definition sample_assignment : value :=
  VObj [("title", VStr "Supply chain ethics");
        ("tasks", VArr [VStr "Identify the stakeholders"; VStr "Weigh the options"]);
        ("rubric", VObj [("totalPoints", VNum (Num.of_Z 50))])].

Definition graded_reply : string :=
  tpl "{ ~overallFeedback~: ~Fine.~, ~rubricAssessment~: [ { ~category~: ~Depth~, ~score~: 7, ~maxScore~: 10 } ] }".

(** ** Further notions *)

(** A model whose call fails with the given message. *)
Definition failing_model (message : string) : world :=
  {| OPENAI_API_KEY := Some "key";
     generateText := fun _ _ => Throw (ErrorObj "Error" message) |}.

(** The fields every generated assignment is asked to have: the ones the
    display looks for before it shows an assignment. *)
Definition required_fields : list string := ["title"; "objectives"; "rubric"].

(** What the tally of the multiple-choice scoring says about the
    questions: one detail for each question, in order, carrying its text
    and its points; as many correct answers counted as details marked
    correct; and the points of the question earned when it is correct, none
    otherwise. *)
Definition detail_of (q : value) (d : Evaluate.question_detail) : Prop :=
  JS.get q "question" = Ok (Evaluate.question d)
  /\ JS.get q "points" = Ok (Evaluate.points d)
  /\ Evaluate.earnedPoints d
     = (if Evaluate.isCorrect d then Evaluate.points d else Evaluate.num 0).

Definition tally_matches (questions : list value) (t : Evaluate.tally) : Prop :=
  Forall2 detail_of questions (Evaluate.questionDetails t)
  /\ Evaluate.correctCount t
     = Z.of_nat (List.length (filter Evaluate.isCorrect (Evaluate.questionDetails t)))
  /\ 0 <= Evaluate.correctCount t <= Z.of_nat (List.length questions).

Definition empty_tally : Evaluate.tally :=
  {| Evaluate.correctCount := 0; Evaluate.totalPoints := Evaluate.num 0;
     Evaluate.questionDetails := [] |}.

Definition unkeyed_question : value :=
  VObj [("number", Evaluate.num 7); ("question", VStr "Unkeyed?");
        ("points", Evaluate.num 5)].

(** ** The results panel: [src/components/EvaluationResults.tsx] *)

Module Results.

(** [percentage >= threshold]: the left side is converted to a number,
    and the comparison is false when that is NaN. *)
Definition at_least (percentage : value) (threshold : Z) : result bool :=
  n <- JS.to_number percentage ;;
  Ok (SFleb (Num.of_Z threshold) n).

Definition getGradeLetter (percentage : value) : result string :=
  a <- at_least percentage 90 ;;
  if a then Ok "A" else
  b <- at_least percentage 80 ;;
  if b then Ok "B" else
  c <- at_least percentage 70 ;;
  if c then Ok "C" else
  d <- at_least percentage 60 ;;
  if d then Ok "D" else Ok "F".

Definition getGradeColor (percentage : value) : result string :=
  a <- at_least percentage 90 ;;
  if a then Ok "text-green-600 dark:text-green-400" else
  b <- at_least percentage 80 ;;
  if b then Ok "text-blue-600 dark:text-blue-400" else
  c <- at_least percentage 70 ;;
  if c then Ok "text-yellow-600 dark:text-yellow-400" else
  d <- at_least percentage 60 ;;
  if d then Ok "text-orange-600 dark:text-orange-400"
  else Ok "text-red-600 dark:text-red-400".

(** [(item.score / item.maxScore) * 100] *)
Definition itemPercentage (item : value) : result Num.number :=
  score <- JS.get item "score" ;;
  maxScore <- JS.get item "maxScore" ;;
  ratio <- JS.div score maxScore ;;
  Ok (Num.mul ratio (Num.of_Z 100)).

(** The colour of a category's bar. *)
Definition bar_color (itemPercentage : Num.number) : string :=
  if SFleb (Num.of_Z 90) itemPercentage then "bg-green-500"
  else if SFleb (Num.of_Z 80) itemPercentage then "bg-blue-500"
  else if SFleb (Num.of_Z 70) itemPercentage then "bg-yellow-500"
  else if SFleb (Num.of_Z 60) itemPercentage then "bg-orange-500"
  else "bg-red-500".

End Results.

(** The five bands: letter, colour of the figure, colour of the bar. *)
Definition grade_bands : list (string * (string * string)) :=
  [("A", ("text-green-600 dark:text-green-400", "bg-green-500"));
   ("B", ("text-blue-600 dark:text-blue-400", "bg-blue-500"));
   ("C", ("text-yellow-600 dark:text-yellow-400", "bg-yellow-500"));
   ("D", ("text-orange-600 dark:text-orange-400", "bg-orange-500"));
   ("F", ("text-red-600 dark:text-red-400", "bg-red-500"))].

(** The place of a letter among the grades, the best one first. *)
Definition grade_rank (letter : string) : Z :=
  if String.eqb letter "A" then 4
  else if String.eqb letter "B" then 3
  else if String.eqb letter "C" then 2
  else if String.eqb letter "D" then 1
  else 0.


(** ** The submission form: [AssignmentSubmission] in [src/components/AssignmentDisplay.tsx] *)

Module Submission.

(** [k in v], for the names the form spells out ([questions] and
    [tasks], which no built-in prototype has).  Searching something that is
    no object throws. *)
Definition has_property (k : string) (v : value) : result bool :=
  match v with
  | VObj fs =>
      if JS.has_own fs k then Ok true
      else if JS.inherited k then Beyond else Ok false
  | VArr _ => Ok (String.eqb k "length")
  | _ =>
      shown <- JS.to_string v ;;
      Throw (TypeError ("Cannot use 'in' operator to search for '" ++ k ++ "' in " ++ shown))
  end.

(** The state of the form.  The three records of answers start empty and
    are only ever replaced by a copy with one more property. *)
Record form : Type := {
  mcAnswers : list (string * value);
  essayText : string;
  mixedAnswers : list (string * value);
  caseStudyResponses : list (string * value)
}.

Definition initial : form :=
  {| mcAnswers := []; essayText := ""; mixedAnswers := [];
     caseStudyResponses := [] |}.

(** [{ ...answers, [number]: e.target.value }] *)
Definition record_answer (answers : list (string * value)) (number : value)
  (chosen : string) : result (list (string * value)) :=
  k <- JS.to_string number ;;
  Ok (obj_set answers k (VStr chosen)).

(** What [handleSubmit] does: it warns and stops, or hands a submission
    to [onSubmit]. *)
Inductive outcome : Type :=
| Alert (message : string)
| Submit (submission : value).

(** [questions.filter((q) => !answers[q.number])] *)
Definition unanswered_questions (answers questions : value) : result (list value) :=
  qs <- JS.as_array "filter" questions ;;
  filterM (fun q =>
             number <- JS.get q "number" ;;
             given <- JS.get_computed answers number ;;
             Ok (negb (JS.truthy given))) qs.

(** [tasks.filter((_, index) => !responses[index + 1])] *)
Definition unanswered_tasks (responses tasks : value) : result (list (Z * value)) :=
  ts <- JS.as_array "filter" tasks ;;
  filterM (fun it =>
             given <- JS.get_computed responses (Evaluate.num (fst it + 1)) ;;
             Ok (negb (JS.truthy given))) (JS.enumerate 0 ts).

Definition count {A : Type} (xs : list A) : string :=
  Num.to_string (Num.of_Z (Z.of_nat (List.length xs))).

(** [assignmentType === kind && field in assignment] *)
Definition kind_with (kind field : string) (assignmentType assignment : value)
  : result bool :=
  if JS.strict_eq assignmentType (VStr kind) then has_property field assignment
  else Ok false.

Definition answers_submission (kind : string) (answers : list (string * value))
  (questions : value) : result outcome :=
  unanswered <- unanswered_questions (VObj answers) questions ;;
  if (0 <? Z.of_nat (List.length unanswered)) then
    Ok (Alert ("Please answer all questions. You have " ++ count unanswered
               ++ " unanswered question(s)."))
  else Ok (Submit (VObj [("type", VStr kind); ("answers", VObj answers)])).

Definition text_submission (type : value) (text message : string) : outcome :=
  if negb (JS.truthy (VStr (Str.trim text))) then Alert message
  else Submit (VObj [("type", type); ("text", VStr text)]).

Definition handleSubmit (f : form) (assignment assignmentType : value)
  : result outcome :=
  mc <- kind_with "multiple-choice" "questions" assignmentType assignment ;;
  if mc then
    questions <- JS.get assignment "questions" ;;
    answers_submission "multiple-choice" (mcAnswers f) questions
  else if JS.strict_eq assignmentType (VStr "essay") then
    Ok (text_submission (VStr "essay") (essayText f)
          "Please write your essay before submitting.")
  else
  test <- kind_with "test" "questions" assignmentType assignment ;;
  if test then
    questions <- JS.get assignment "questions" ;;
    answers_submission "test" (mixedAnswers f) questions
  else
  cs <- kind_with "case-study" "tasks" assignmentType assignment ;;
  if cs then
    tasks <- JS.get assignment "tasks" ;;
    unanswered <- unanswered_tasks (VObj (caseStudyResponses f)) tasks ;;
    if (0 <? Z.of_nat (List.length unanswered)) then
      Ok (Alert ("Please respond to all tasks. You have " ++ count unanswered
                 ++ " unanswered task(s)."))
    else Ok (Submit (VObj [("type", VStr "case-study");
                           ("responses", VObj (caseStudyResponses f))]))
  else
    Ok (text_submission assignmentType (essayText f)
          "Please provide your submission before submitting.").

End Submission.

(** ** What the browser gets back from a route *)

(** [fetch(url, { method: "POST", body })] gives a response, of which the
    handlers read [ok] and the parsed body, or fails. *)
Record fetched : Type := { ok : bool; json : result value }.

Definition transport : Type := string -> string -> result fetched.

(** [err instanceof Error ? err.message : otherwise] *)
Definition message_or (otherwise : string) (e : exn) : string :=
  match e with
  | ErrorObj _ message => message
  | NonError => otherwise
  end.

(** [throw new Error(data.error || otherwise)] *)
Definition throw_error_of {A : Type} (data : value) (otherwise : string) : result A :=
  e <- JS.get data "error" ;;
  message <- JS.to_string (JS.or e (VStr otherwise)) ;;
  Throw (ErrorObj "Error" message).

(** [data.success && data.key] *)
Definition success_and (data : value) (k : string) : result value :=
  success <- JS.get data "success" ;;
  if JS.truthy success then JS.get data k else Ok success.

(** ** The display: [AssignmentDisplay] in [src/components/AssignmentDisplay.tsx] *)

Module Display.

Definition validTypes : list string :=
  ["case-study"; "multiple-choice"; "essay"; "test"; "presentation"; "project"].

(** [validTypes.includes(assignmentType) ? assignmentType : "case-study"] *)
Definition safeAssignmentType (assignmentType : value) : value :=
  if existsb (fun t => JS.strict_eq (VStr t) assignmentType) validTypes
  then assignmentType else VStr "case-study".

Record view : Type := {
  showSubmission : bool;
  isEvaluating : bool;
  evaluationResults : value
}.

Definition evaluate_body (assignment submission assignmentType : value) : string :=
  stringify (VObj [("assignment", assignment); ("submission", submission);
                   ("assignmentType", safeAssignmentType assignmentType)]).

(** The body of the [try] block, from the response on: the results to
    show. *)
Definition received (r : fetched) : result value :=
  data <- json r ;;
  if negb (ok r) then throw_error_of data "Failed to evaluate submission."
  else
    shown <- success_and data "results" ;;
    if JS.truthy shown then JS.get data "results"
    else Throw (ErrorObj "Error" "Invalid response from evaluation API.").

(** The run of [handleSubmission]: the view it leaves, the alerts it
    raised and the requests it sent. *)
Record run : Type := {
  after : view;
  alerts : list string;
  sent : list (string * string)
}.

Definition handleSubmission (fetch : transport)
  (assignment assignmentType submission : value) (v : view) : option run :=
  let request := ("/api/evaluate", evaluate_body assignment submission assignmentType) in
  match (r <- fetch (fst request) (snd request) ;; received r) with
  | Ok results =>
      Some {| after := {| showSubmission := false; isEvaluating := false;
                          evaluationResults := results |};
              alerts := []; sent := [request] |}
  | Throw e =>
      Some {| after := {| showSubmission := false; isEvaluating := false;
                          evaluationResults := evaluationResults v |};
              alerts := [message_or "Failed to evaluate submission. Please try again." e];
              sent := [request] |}
  | Beyond => None
  end.

End Display.

(** ** The page: [Home], printed after the route in [src/app/api/generate/route.ts] *)

Module Home.

Record page : Type := {
  searchQuery : string;
  assignmentType : string;
  isGenerating : bool;
  assignment : value;
  generatedQuery : value;
  generatedAssignmentType : value;
  error : option string
}.

(** The values the selector offers. *)
Definition options : list string :=
  ["case-study"; "multiple-choice"; "essay"; "test"; "presentation"; "project"].

(** [!searchQuery.trim()] *)
Definition blank (searchQuery : string) : bool :=
  negb (JS.truthy (VStr (Str.trim searchQuery))).

Definition generate_body (p : page) : string :=
  stringify (VObj [("query", VStr (searchQuery p));
                   ("assignmentType", VStr (assignmentType p))]).

(** The body of the [try] block, from the response on: the assignment,
    the query and the type to show. *)
Definition received (p : page) (r : fetched) : result (value * value * value) :=
  data <- json r ;;
  if negb (ok r) then
    throw_error_of data "Failed to generate assignment. Please try again."
  else
    shown <- success_and data "assignment" ;;
    if JS.truthy shown then
      a <- JS.get data "assignment" ;;
      q <- JS.get data "query" ;;
      t <- JS.get data "assignmentType" ;;
      Ok (a, JS.or q (VStr (searchQuery p)), JS.or t (VStr (assignmentType p)))
    else Throw (ErrorObj "Error" "Invalid response from server. Please try again.").

Definition handleGenerateAssignment (fetch : transport) (p : page)
  : option (page * list (string * string)) :=
  if blank (searchQuery p) then
    Some ({| searchQuery := searchQuery p; assignmentType := assignmentType p;
             isGenerating := isGenerating p; assignment := VNull;
             generatedQuery := generatedQuery p;
             generatedAssignmentType := generatedAssignmentType p;
             error := Some "Please enter a search query or topic to generate an assignment." |},
          [])
  else
    let request := ("/api/generate", generate_body p) in
    match (r <- fetch (fst request) (snd request) ;; received p r) with
    | Ok (a, q, t) =>
        Some ({| searchQuery := searchQuery p; assignmentType := assignmentType p;
                 isGenerating := false; assignment := a;
                 generatedQuery := q; generatedAssignmentType := t;
                 error := None |},
              [request])
    | Throw e =>
        Some ({| searchQuery := searchQuery p; assignmentType := assignmentType p;
                 isGenerating := false; assignment := VNull;
                 generatedQuery := generatedQuery p;
                 generatedAssignmentType := generatedAssignmentType p;
                 error := Some (message_or "An unexpected error occurred. Please try again." e) |},
              [request])
    | Beyond => None
    end.

End Home.

(** ** Notions about the form *)

(** A question has an answer in a record of answers: what is stored under
    its number is not falsy. *)
Definition answered (answers q : value) : Prop :=
  exists number given,
    JS.get q "number" = Ok number
    /\ JS.get_computed answers number = Ok given
    /\ JS.truthy given = true.

(** The task at a (0-based) index has a response. *)
Definition responded (responses : value) (index : Z) : Prop :=
  exists given,
    JS.get_computed responses (Evaluate.num (index + 1)) = Ok given
    /\ JS.truthy given = true.

(** The kinds whose form asks for one answer per item, with the field of
    the assignment that lists the items. *)
Definition itemised_kinds : list (string * string) :=
  [("multiple-choice", "questions"); ("test", "questions"); ("case-study", "tasks")].

Definition form_with_text (text : string) : Submission.form :=
  {| Submission.mcAnswers := []; Submission.essayText := text;
     Submission.mixedAnswers := []; Submission.caseStudyResponses := [] |}.

Definition form_with_answers (answers : list (string * value)) : Submission.form :=
  {| Submission.mcAnswers := answers; Submission.essayText := "";
     Submission.mixedAnswers := []; Submission.caseStudyResponses := [] |}.

Definition form_with_responses (responses : list (string * value)) : Submission.form :=
  {| Submission.mcAnswers := []; Submission.essayText := "";
     Submission.mixedAnswers := []; Submission.caseStudyResponses := responses |}.

(** A multiple-choice assignment that came without questions, which the
    display accepts, and the request the display sends for it. *)
Definition itemless_assignment : value :=
  VObj [("title", VStr "Quiz"); ("objectives", VArr [VStr "Recall"]);
        ("rubric", VObj [("totalPoints", VNum (Num.of_Z 10))])].

Definition itemless_request : request :=
  {| body := tpl "{ ~assignment~: { ~title~: ~Quiz~, ~objectives~: [~Recall~], ~rubric~: { ~totalPoints~: 10 } }, ~submission~: { ~type~: ~multiple-choice~, ~text~: ~My answers.~ }, ~assignmentType~: ~multiple-choice~ }" |}.

(** The record of answers after a series of choices, each made for a
    question number, starting from the empty record. *)
Definition after_choices (choices : list (value * string))
  : result (list (string * value)) :=
  foldM (fun answers choice =>
           Submission.record_answer answers (fst choice) (snd choice))
        choices (Submission.mcAnswers Submission.initial).

(** Every property of a record is set to something that is not falsy. *)
Definition filled (fs : list (string * value)) : Prop :=
  forall k v, obj_get fs k = Some v -> JS.truthy v = true.

(** ** Notions about the rubric *)

(** A category has a level: under [levels] there is an entry of that
    name which is neither [undefined] nor [null], so that its
    [description] can be read, and what is read can be written into the
    prompt.  The description itself may be missing. *)
Definition level_present (cat : value) (level : string) : Prop :=
  exists levels entry description text,
    JS.get cat "levels" = Ok levels
    /\ JS.get levels level = Ok entry
    /\ entry <> VUndefined /\ entry <> VNull
    /\ JS.get entry "description" = Ok description
    /\ JS.to_string description = Ok text.

Definition rubric_levels : list string :=
  ["exemplary"; "proficient"; "developing"; "beginning"].

(** An essay request whose rubric has one category, with its four levels:
    one of them has no description and one a description that is no
    string. *)
Definition levelled_request : request :=
  {| body := tpl "{ ~assignment~: { ~title~: ~Trade~, ~prompt~: ~Discuss.~, ~requirements~: [~Cite sources~], ~rubric~: { ~categories~: [ { ~name~: ~Depth~, ~points~: 50, ~levels~: { ~exemplary~: { ~description~: ~Deep~ }, ~proficient~: { ~description~: ~Sound~ }, ~developing~: {}, ~beginning~: { ~description~: 1 } } } ], ~totalPoints~: 50 } }, ~submission~: { ~type~: ~essay~, ~text~: ~An answer.~ }, ~assignmentType~: ~essay~ }" |}.

Definition levelled_category : value :=
  VObj [("name", VStr "Depth"); ("points", VNum (Num.of_Z 50));
        ("levels",
         VObj [("exemplary", VObj [("description", VStr "Deep")]);
               ("proficient", VObj [("description", VStr "Sound")]);
               ("developing", VObj []);
               ("beginning", VObj [("description", VNum (Num.of_Z 1))])])].

Definition levelled_assignment : value :=
  VObj [("title", VStr "Trade"); ("prompt", VStr "Discuss.");
        ("requirements", VArr [VStr "Cite sources"]);
        ("rubric", VObj [("categories", VArr [levelled_category]);
                         ("totalPoints", VNum (Num.of_Z 50))])].

Definition levelled_body : value :=
  VObj [("assignment", levelled_assignment);
        ("submission", VObj [("type", VStr "essay"); ("text", VStr "An answer.")]);
        ("assignmentType", VStr "essay")].

(** ** Notions about the page and the display *)

(** A response that reports an error: its payload is an [error] with a
    message that is not empty. *)
Definition reported (x : response) : Prop :=
  exists message, payload x = error_payload message /\ message <> "".

(** What the browser gets back: [NextResponse.json(payload, { status })]
    sends the JSON text of the payload, and [response.json()] parses that
    text; [response.ok] holds for a status from 200 to 299. *)
Definition delivered (x : response) : fetched :=
  {| ok := (200 <=? status x) && (status x <=? 299);
     json := match JSON.parse (stringify (payload x)) with
             | Some v => Ok v
             | None => Throw (SyntaxError "Unexpected token in JSON")
             end |}.

(** A value that comes back from its JSON text as it was.  A non-finite
    number does not (it is sent as [null]), nor does an object with an
    [undefined] property (the property is left out). *)
Definition reads_back (v : value) : Prop := JSON.parse (stringify v) = Some v.

(** A transport that always delivers the same response. *)
Definition answering (x : response) : transport := fun _ _ => Ok (delivered x).

Definition typed_page (query type : string) : Home.page :=
  {| Home.searchQuery := query; Home.assignmentType := type;
     Home.isGenerating := false; Home.assignment := VNull;
     Home.generatedQuery := VStr ""; Home.generatedAssignmentType := VStr "case-study";
     Home.error := None |}.

Definition keyless : world :=
  {| OPENAI_API_KEY := None; generateText := fun _ _ => Ok "{}" |}.

Definition fresh_view : Display.view :=
  {| Display.showSubmission := true; Display.isEvaluating := false;
     Display.evaluationResults := VNull |}.

(** The page after an attempt to generate from a blank query. *)
Definition blank_refused : Home.page :=
  {| Home.searchQuery := "  "; Home.assignmentType := "essay";
     Home.isGenerating := false; Home.assignment := VNull;
     Home.generatedQuery := VStr "";
     Home.generatedAssignmentType := VStr "case-study";
     Home.error :=
       Some "Please enter a search query or topic to generate an assignment." |}.

(** A model that answers [null], and what the generation route makes of
    it for a query of the page. *)
Definition null_response : response :=
  response_of (Generate.POST (model_replying "null")
                 {| body := Home.generate_body (typed_page "Tides" "essay") |}).

(** An essay handed over by the form, and the answer of the evaluation
    route to the display's request for it when no credential is set. *)
Definition essay_submission : value :=
  VObj [("type", VStr "essay"); ("text", VStr "My essay.")].

Definition keyless_evaluation : response :=
  response_of
    (Evaluate.POST keyless
       {| body := Display.evaluate_body sample_assignment essay_submission
                    (VStr "essay") |}).

(** A model's answer with every part of an evaluation, and the answer of
    the evaluation route to the display's request when the model gives
    it. *)
Definition full_reply : string :=
  tpl "{ ~overallFeedback~: ~Fine.~, ~detailedFeedback~: ~Clear but short.~, ~rubricAssessment~: [ { ~category~: ~Depth~, ~score~: 7, ~maxScore~: 10, ~feedback~: ~Go on.~ } ] }".

Definition graded_evaluation : response :=
  response_of
    (Evaluate.POST (model_replying full_reply)
       {| body := Display.evaluate_body (essay_assignment (Num.of_Z 50))
                    essay_submission (VStr "essay") |}).

(** ** Tactics *)

(** Unfolds a handler down to the case analyses it is made of. *)
Ltac run_handler :=
  cbv beta iota zeta delta
    [Generate.POST Generate.attempt Evaluate.POST Evaluate.attempt
     try_catch hbind lift return_if respond ret call_model request_json].

(** * Properties *)

(** ** Strings *)

Module StrFacts.

Import Str.

Lemma list_of_app (a b : string) :
  list_ascii_of_string (a ++ b)
  = (list_ascii_of_string a ++ list_ascii_of_string b)%list.
Proof.
  induction a as [|c a IH]; simpl; [reflexivity | now rewrite IH].
Qed.

Lemma string_of_app (l1 l2 : list ascii) :
  string_of_list_ascii (l1 ++ l2)
  = string_of_list_ascii l1 ++ string_of_list_ascii l2.
Proof.
  induction l1 as [|c l1 IH]; simpl; [reflexivity | now rewrite IH].
Qed.

Lemma app_assoc (a b c : string) : (a ++ b) ++ c = a ++ (b ++ c).
Proof.
  induction a as [|x a IH]; simpl; [reflexivity | now rewrite IH].
Qed.

Lemma app_nil_r (a : string) : a ++ "" = a.
Proof.
  induction a as [|x a IH]; simpl; [reflexivity | now rewrite IH].
Qed.

Lemma app_inv_head (p x y : string) : p ++ x = p ++ y -> x = y.
Proof.
  induction p as [|c p IH]; simpl; intros H; [exact H|].
  injection H as H. auto.
Qed.

Lemma rev_app (a b : string) : rev (a ++ b) = rev b ++ rev a.
Proof.
  unfold rev. now rewrite list_of_app, List.rev_app_distr, string_of_app.
Qed.

Lemma rev_involutive (s : string) : rev (rev s) = s.
Proof.
  unfold rev.
  now rewrite list_ascii_of_string_of_list_ascii, List.rev_involutive,
    string_of_list_ascii_of_string.
Qed.

Lemma rev_cons (c : ascii) (s : string) : rev (String c s) = rev s ++ String c "".
Proof.
  change (String c s) with (String c "" ++ s). now rewrite rev_app.
Qed.

Lemma rev_inj (a b : string) : rev a = rev b -> a = b.
Proof.
  intros H. now rewrite <- (rev_involutive a), H, rev_involutive.
Qed.

(** *** White space never claims an ASCII character that is not white space *)

Lemma solid_ws (c : ascii) :
  solid c ->
  forall x y, ws2 c x = false /\ ws2 x c = false
              /\ ws3 c x y = false /\ ws3 y x c = false /\ ws3 x c y = false.
Proof.
  intros [Hc _] x y. unfold ws2, ws3.
  assert (E : forall k, (128 <=? k)%N = true -> (code c =? k)%N = false).
  { intros k Hk. apply N.leb_le in Hk. apply N.eqb_neq. lia. }
  assert (L : (128 <=? code c)%N = false) by (apply N.leb_gt; exact Hc).
  rewrite !E, ?L by reflexivity. simpl.
  repeat (rewrite ?Bool.andb_false_r; simpl).
  repeat split; reflexivity.
Qed.

Lemma trim_from_solid (back : bool) (c : ascii) (r : string) :
  solid c -> trim_from back (String c r) = String c r.
Proof.
  intros H. pose proof (solid_ws c H) as W. destruct H as [_ H1].
  simpl. rewrite H1.
  destruct r as [|b r2]; [reflexivity|].
  destruct (W b b) as (W1 & W2 & _).
  destruct back; rewrite ?W1, ?W2.
  - destruct r2 as [|d r3]; [reflexivity|].
    destruct (W b d) as (_ & _ & _ & W4 & _). now rewrite W4.
  - destruct r2 as [|d r3]; [reflexivity|].
    destruct (W b d) as (_ & _ & W3 & _ & _). now rewrite W3.
Qed.

Lemma solid_brace_open : solid "{". Proof. split; reflexivity. Qed.
Lemma solid_brace_close : solid "}". Proof. split; reflexivity. Qed.
Lemma solid_backtick : solid "`". Proof. split; reflexivity. Qed.

(** A string whose first and last characters are solid is its own trim. *)
Lemma trim_id (s : string) (c d : ascii) (r r' : string) :
  solid c -> solid d -> s = String c r -> rev s = String d r' -> trim s = s.
Proof.
  intros Hc Hd E1 E2. unfold trim, trimStart, trimEnd.
  rewrite E1 at 1. rewrite trim_from_solid by assumption.
  rewrite <- E1, E2, trim_from_solid by assumption.
  now rewrite <- E2, rev_involutive.
Qed.

(** *** Occurrences and the search for a character *)

Lemma occurs_app (c : ascii) (a b : string) :
  occurs c (a ++ b) = occurs c a || occurs c b.
Proof.
  induction a as [|x a IH]; simpl; [reflexivity|].
  now rewrite IH, Bool.orb_assoc.
Qed.

Lemma occurs_rev (c : ascii) (s : string) : occurs c (rev s) = occurs c s.
Proof.
  induction s as [|x s IH]; [reflexivity|].
  rewrite rev_cons, occurs_app, IH. simpl.
  rewrite Bool.orb_false_r. apply Bool.orb_comm.
Qed.

Lemma from_first_none (c : ascii) (s : string) :
  occurs c s = false -> from_first c s = None.
Proof.
  induction s as [|x s IH]; simpl; [reflexivity|].
  intros H. apply Bool.orb_false_iff in H as [H1 H2].
  rewrite H1. auto.
Qed.

Lemma from_first_app (c : ascii) (p r : string) :
  occurs c p = false -> from_first c (p ++ String c r) = Some (String c r).
Proof.
  induction p as [|x p IH]; simpl.
  - now rewrite Ascii.eqb_refl.
  - intros H. apply Bool.orb_false_iff in H as [H1 H2].
    rewrite H1. auto.
Qed.

Lemma from_first_some (c : ascii) (s t : string) :
  from_first c s = Some t ->
  exists p r, s = p ++ t /\ t = String c r /\ occurs c p = false.
Proof.
  revert t. induction s as [|x s IH]; simpl; intros t H; [discriminate|].
  destruct (Ascii.eqb x c) eqn:E.
  - injection H as <-. apply Ascii.eqb_eq in E as ->.
    exists "", s. repeat split.
  - destruct (IH _ H) as (p & r & -> & -> & Hp).
    exists (String x p), r. simpl. rewrite E. repeat split. exact Hp.
Qed.

Lemma from_first_occurs (c : ascii) (s : string) :
  occurs c s = true -> from_first c s <> None.
Proof.
  induction s as [|x s IH]; simpl; [discriminate|].
  destruct (Ascii.eqb x c); [discriminate | exact IH].
Qed.

(** Two ways of cutting a string at [c], one of them at its first
    occurrence. *)
Lemma first_cut (c : ascii) (p a r1 r2 : string) :
  p ++ String c r1 = a ++ String c r2 -> occurs c p = false ->
  exists a', a = p ++ a'.
Proof.
  revert a. induction p as [|x p IH]; intros a E H.
  - now exists a.
  - simpl in H. apply Bool.orb_false_iff in H as [H1 H2].
    destruct a as [|y a]; simpl in E.
    + injection E as -> _. now rewrite Ascii.eqb_refl in H1.
    + injection E as -> E. destruct (IH _ E H2) as [a' ->]. now exists a'.
Qed.

(** *** The greedy brace match *)

Lemma match_braces_wrapped (pre post s m m' : string) :
  brace_free pre = true -> brace_free post = true ->
  s = String "{" m -> rev s = String "}" m' ->
  match_braces (pre ++ s ++ post) = Some s.
Proof.
  unfold brace_free. intros Hpre Hpost Es Er.
  apply Bool.andb_true_iff in Hpre as [Hpre _].
  apply Bool.andb_true_iff in Hpost as [_ Hpost].
  apply Bool.negb_true_iff in Hpre, Hpost.
  unfold match_braces. rewrite Es at 1. simpl.
  rewrite from_first_app by assumption.
  change (String "{" (m ++ post)) with (String "{" m ++ post).
  rewrite <- Es, rev_app, Er, from_first_app by now rewrite occurs_rev.
  now rewrite <- Er, rev_involutive.
Qed.

Lemma match_braces_some (t m : string) : match_braces t = Some m -> has_span t.
Proof.
  unfold match_braces. intros H.
  destruct (from_first "{" t) as [t1|] eqn:E1; [|discriminate].
  destruct (from_first "}" (rev t1)) as [u|] eqn:E2; [|discriminate].
  apply from_first_some in E1 as (p & r1 & -> & -> & _).
  apply from_first_some in E2 as (p2 & r2 & E & -> & _).
  apply (f_equal rev) in E. rewrite rev_involutive, rev_app, rev_cons in E.
  destruct (rev r2) as [|x b]; simpl in E; [discriminate|].
  injection E as <- E. rewrite E.
  exists p, b, (rev p2). now rewrite app_assoc.
Qed.

Lemma match_braces_span (t : string) : has_span t -> match_braces t <> None.
Proof.
  intros (a & b & c & ->). unfold match_braces.
  destruct (from_first "{" _) as [t1|] eqn:E1.
  - apply from_first_some in E1 as (p & r1 & E & -> & Hp).
    symmetry in E. destruct (first_cut _ _ _ _ _ E Hp) as [a' ->].
    rewrite app_assoc in E. apply app_inv_head in E.
    rewrite E.
    destruct (from_first "}" _) eqn:E2; [discriminate|].
    exfalso. revert E2. apply from_first_occurs.
    rewrite occurs_rev, occurs_app. simpl. rewrite occurs_app. simpl.
    now rewrite !Bool.orb_true_r.
  - exfalso. revert E1. apply from_first_occurs.
    rewrite occurs_app. simpl. now rewrite Bool.orb_true_r.
Qed.

(** *** What trimming and fence removal take away *)

Lemma shortens_trim_from (back : bool) : shortens (trim_from back).
Proof.
  assert (H : forall n s, (length s <= n)%nat -> exists x, s = x ++ trim_from back s).
  { induction n as [|n IH]; intros s Hn.
    - destruct s; [now exists "" | simpl in Hn; lia].
    - destruct s as [|a r1]; [now exists ""|].
      simpl in Hn. simpl.
      destruct (ws1 a).
      { destruct (IH r1 ltac:(lia)) as [x E]. exists (String a x). simpl. now f_equal. }
      destruct r1 as [|b r2]; [now exists ""|].
      simpl in Hn.
      destruct (if back then ws2 b a else ws2 a b).
      { destruct (IH r2 ltac:(lia)) as [x E].
        exists (String a (String b x)). simpl. now do 2 f_equal. }
      destruct r2 as [|d r3]; [now exists ""|].
      simpl in Hn.
      destruct (if back then ws3 d b a else ws3 a b d).
      { destruct (IH r3 ltac:(lia)) as [x E].
        exists (String a (String b (String d x))). simpl. now do 3 f_equal. }
      now exists "". }
  intros s. now apply (H (length s)).
Qed.

Lemma cuts_trim_from (back : bool) (c : ascii) : solid c -> cuts (trim_from back) c.
Proof.
  intros Hc. pose proof (solid_ws c Hc) as W.
  assert (H : forall n pre r, (length pre <= n)%nat -> exists x pre1,
               pre = x ++ pre1
               /\ trim_from back (pre ++ String c r) = pre1 ++ String c r).
  { induction n as [|n IH]; intros pre r Hn.
    - destruct pre; [|simpl in Hn; lia].
      exists "", "". split; [reflexivity|]. now apply trim_from_solid.
    - destruct pre as [|a p1].
      { exists "", "". split; [reflexivity|]. now apply trim_from_solid. }
      simpl in Hn. cbn [append trim_from].
      destruct (ws1 a).
      { destruct (IH p1 r ltac:(lia)) as (x & pre1 & -> & E).
        exists (String a x), pre1. now split. }
      destruct p1 as [|b p2]; cbn [append].
      { destruct (W a a) as (_ & W2 & _). destruct (W a a) as (W1 & _).
        assert (Hab : (if back then ws2 c a else ws2 a c) = false)
          by (destruct back; [apply W1 | apply W2]).
        rewrite Hab.
        destruct r as [|d r3]; [now exists "", (String a "")|].
        assert (Hm : (if back then ws3 d c a else ws3 a c d) = false).
        { destruct back; [destruct (W d a) | destruct (W a d)]; tauto. }
        rewrite Hm. now exists "", (String a ""). }
      simpl in Hn.
      destruct (if back then ws2 b a else ws2 a b).
      { destruct (IH p2 r ltac:(lia)) as (x & pre1 & -> & E).
        exists (String a (String b x)), pre1. now split. }
      destruct p2 as [|d p3]; cbn [append].
      { assert (Hl : (if back then ws3 c b a else ws3 a b c) = false).
        { destruct back; [destruct (W b a) | destruct (W b a)]; tauto. }
        rewrite Hl. now exists "", (String a (String b "")). }
      simpl in Hn.
      destruct (if back then ws3 d b a else ws3 a b d).
      { destruct (IH p3 r ltac:(lia)) as (x & pre1 & -> & E).
        exists (String a (String b (String d x))), pre1. now split. }
      now exists "", (String a (String b (String d p3))). }
  intros pre r. now apply (H (length pre)).
Qed.

Lemma prefix_app (f s : string) : prefix f s = true -> exists r, s = f ++ r.
Proof.
  revert s. induction f as [|a f IH]; intros s H; [now exists s|].
  destruct s as [|b s]; simpl in H; [discriminate|].
  destruct (ascii_dec a b) as [<-|]; [|discriminate].
  destruct (IH _ H) as [r ->]. now exists r.
Qed.

Lemma prefix_refl_app (f r : string) : prefix f (f ++ r) = true.
Proof.
  induction f as [|a f IH]; simpl; [now destruct r|].
  destruct (ascii_dec a a); [exact IH | contradiction].
Qed.

Lemma drop_app (f r : string) : drop (length f) (f ++ r) = r.
Proof.
  induction f as [|a f IH]; simpl; [now destruct r | exact IH].
Qed.

Lemma shortens_strip_open (f : string) : shortens (strip_open f).
Proof.
  intros s. unfold strip_open.
  destruct (prefix f s) eqn:P; [|now exists ""].
  destruct (prefix_app _ _ P) as [r ->]. rewrite drop_app.
  destruct r as [|c r].
  - exists f. now rewrite app_nil_r.
  - destruct (Ascii.eqb c LF) eqn:E.
    + exists (f ++ String c ""). now rewrite app_assoc.
    + now exists f.
Qed.

Lemma cuts_strip_open (f : string) (c : ascii) :
  occurs c f = false -> c <> LF -> cuts (strip_open f) c.
Proof.
  intros Hf Hc pre r. unfold strip_open.
  destruct (prefix f (pre ++ String c r)) eqn:P; [|now exists "", pre].
  destruct (prefix_app _ _ P) as [r0 E].
  symmetry in E.
  assert (Hp : exists pre2, pre = f ++ pre2).
  { clear P. revert pre E. induction f as [|a f IH]; intros pre E; [now exists pre|].
    simpl in Hf. apply Bool.orb_false_iff in Hf as [H1 H2].
    destruct pre as [|b pre]; simpl in E.
    - injection E as -> _. now rewrite Ascii.eqb_refl in H1.
    - injection E as -> E. destruct (IH H2 _ E) as [pre2 ->]. now exists pre2. }
  destruct Hp as [pre2 ->]. rewrite app_assoc, drop_app.
  destruct pre2 as [|d p3]; cbn [append].
  - apply Ascii.eqb_neq in Hc. rewrite Hc. exists f, "". now rewrite app_nil_r.
  - destruct (Ascii.eqb d LF).
    + exists (f ++ String d ""), p3. now rewrite app_assoc.
    + now exists f, (String d p3).
Qed.

Lemma strip_close_rev (s : string) : strip_close s = rev (strip_open "```" (rev s)).
Proof.
  unfold strip_close, strip_open.
  destruct (prefix "```" (rev s)).
  - change (length "```") with 3%nat.
    destruct (drop 3 (rev s)) as [|c r]; [reflexivity|].
    now destruct (Ascii.eqb c LF).
  - now rewrite rev_involutive.
Qed.

Lemma mirrored_shortens (f g : string -> string) :
  mirrored f g -> shortens g -> forall s, exists y, s = f s ++ y.
Proof.
  intros M G s. destruct (G (rev s)) as [x E].
  exists (rev x). rewrite M. rewrite <- rev_app, <- E. now rewrite rev_involutive.
Qed.

Lemma mirrored_cuts (f g : string -> string) (d : ascii) :
  mirrored f g -> cuts g d ->
  forall s post r, rev s = String d r -> exists post1 y,
    post = post1 ++ y /\ f (s ++ post) = s ++ post1.
Proof.
  intros M G s post r Es.
  destruct (G (rev post) r) as (x & pre1 & E & Eg).
  exists (rev pre1), (rev x). split.
  - rewrite <- rev_app, <- E. now rewrite rev_involutive.
  - rewrite M, rev_app, Es, Eg, rev_app, <- Es. now rewrite rev_involutive.
Qed.

Lemma mirrored_trimEnd : mirrored trimEnd (trim_from true).
Proof. intros s. reflexivity. Qed.

End StrFacts.

(** ** Recovery of JSON *)

Module ExtractFacts.

Import Str StrFacts.

Lemma keeps_front (f : string -> string) (c : ascii) (m : string) :
  cuts f c -> keeps f (String c m).
Proof.
  intros F pre post.
  destruct (F pre (m ++ post)) as (x & pre1 & E & Ef).
  exists pre1, post, x, "". cbn [append]. rewrite Ef, app_nil_r. auto.
Qed.

Lemma keeps_back (f g : string -> string) (d : ascii) (s r : string) :
  mirrored f g -> cuts g d -> rev s = String d r -> keeps f s.
Proof.
  intros M G Es pre post.
  assert (Er : rev (pre ++ s) = String d (r ++ rev pre))
    by (now rewrite rev_app, Es).
  destruct (mirrored_cuts f g d M G (pre ++ s) post _ Er) as (post1 & y & E & Ef).
  exists pre, post1, "", y. rewrite <- app_assoc, Ef, app_assoc. auto.
Qed.

Lemma keeps_compose (f g : string -> string) (s : string) :
  keeps f s -> keeps g s -> keeps (fun t => g (f t)) s.
Proof.
  intros F G pre post.
  destruct (F pre post) as (pre1 & post1 & x & y & Ef & -> & ->).
  destruct (G pre1 post1) as (pre2 & post2 & x' & y' & Eg & -> & ->).
  exists pre2, post2, (x ++ x'), (y' ++ y).
  rewrite Ef, Eg, !app_assoc. auto.
Qed.

Lemma keeps_id (s : string) : keeps (fun t => t) s.
Proof.
  intros pre post. exists pre, post, "", "". now rewrite app_nil_r.
Qed.

Section Braced.

(** A text that opens with a brace and closes with one, as the
    serialisation of an object does. *)
Variables (s m m' : string).
Hypothesis opens : s = String "{" m.
Hypothesis closes : rev s = String "}" m'.

Lemma keeps_trim : keeps trim s.
Proof.
  apply (keeps_compose trimStart trimEnd).
  - rewrite opens. apply keeps_front, cuts_trim_from, solid_brace_open.
  - apply (keeps_back trimEnd (trim_from true) "}" s m');
      [apply mirrored_trimEnd | apply cuts_trim_from, solid_brace_close | exact closes].
Qed.

Lemma keeps_strip_open (f : string) :
  occurs "{" f = false -> keeps (strip_open f) s.
Proof.
  intros Hf. rewrite opens. apply keeps_front, cuts_strip_open; [exact Hf | discriminate].
Qed.

Lemma keeps_strip_close : keeps strip_close s.
Proof.
  apply (keeps_back strip_close (strip_open "```") "}" s m');
    [exact strip_close_rev | apply cuts_strip_open; [reflexivity | discriminate]
    | exact closes].
Qed.

Lemma keeps_strip_fences : keeps strip_fences s.
Proof.
  intros pre post. unfold strip_fences.
  destruct (startsWith _ "```json").
  - apply (keeps_compose (strip_open "```json") strip_close);
      [now apply keeps_strip_open | apply keeps_strip_close].
  - destruct (startsWith _ "```").
    + apply (keeps_compose (strip_open "```") strip_close);
        [now apply keeps_strip_open | apply keeps_strip_close].
    + apply keeps_id.
Qed.

Lemma keeps_jsonText : keeps (fun t => strip_fences (trim t)) s.
Proof. apply keeps_compose; [apply keeps_trim | apply keeps_strip_fences]. Qed.

Lemma trim_braced : trim s = s.
Proof.
  apply (trim_id s "{" "}" m m');
    [apply solid_brace_open | apply solid_brace_close | exact opens | exact closes].
Qed.

Lemma strip_fences_braced : strip_fences s = s.
Proof. rewrite opens. reflexivity. Qed.

Lemma jsonText_fenced (lang : string) :
  lang = "json" \/ lang = "" -> strip_fences (trim (fence lang s)) = s.
Proof.
  intros Hl.
  assert (T : trim (fence lang s) = fence lang s).
  { apply (trim_id _ "`" "`" ("``" ++ lang ++ String LF (s ++ String LF "```"))
             ("``" ++ String LF (rev s ++ String LF (rev lang ++ "```"))));
      [apply solid_backtick | apply solid_backtick | reflexivity |].
    unfold fence.
    change (String LF (s ++ String LF "```")) with (String LF "" ++ (s ++ String LF "```")).
    rewrite !rev_app. cbn [append]. rewrite !app_assoc. reflexivity. }
  rewrite T.
  assert (C : strip_close (s ++ String LF "```") = s).
  { rewrite strip_close_rev, rev_app. cbn. apply rev_involutive. }
  destruct Hl as [-> | ->]; unfold fence, strip_fences; cbn; exact C.
Qed.

End Braced.

Lemma brace_free_app (a b : string) :
  brace_free (a ++ b) = brace_free a && brace_free b.
Proof.
  unfold brace_free. rewrite !occurs_app.
  destruct (occurs "{" a), (occurs "{" b), (occurs "}" a), (occurs "}" b); reflexivity.
Qed.

(** What is parsed is a stretch of the model's text. *)
Lemma jsonText_part (text : string) :
  exists x y, text = x ++ strip_fences (trim text) ++ y.
Proof.
  assert (Hc : forall t, exists y, t = strip_close t ++ y)
    by (apply (mirrored_shortens _ _ strip_close_rev), shortens_strip_open).
  assert (Hs : forall t, exists x y, t = x ++ strip_fences t ++ y).
  { intros t. unfold strip_fences.
    destruct (startsWith t "```json").
    - destruct (shortens_strip_open "```json" t) as [x Ex].
      destruct (Hc (strip_open "```json" t)) as [y Ey].
      exists x, y. now rewrite <- Ey.
    - destruct (startsWith t "```").
      + destruct (shortens_strip_open "```" t) as [x Ex].
        destruct (Hc (strip_open "```" t)) as [y Ey].
        exists x, y. now rewrite <- Ey.
      + exists "", "". now rewrite app_nil_r. }
  destruct (shortens_trim_from false text) as [x Ex].
  destruct (mirrored_shortens _ _ mirrored_trimEnd (shortens_trim_from true)
              (trimStart text)) as [y Ey].
  destruct (Hs (trim text)) as (x' & y' & E).
  exists (x ++ x'), (y' ++ y).
  rewrite Ex at 1. fold (trimStart text). rewrite Ey at 1. fold (trim text).
  rewrite E at 1. now rewrite !app_assoc.
Qed.

Lemma has_span_part (t x y : string) : has_span t -> has_span (x ++ t ++ y).
Proof.
  intros (a & b & c & ->). exists (x ++ a), b, (c ++ y).
  rewrite !app_assoc. cbn [append]. now rewrite app_assoc.
Qed.

(** A text without a brace span has none left once trimmed and stripped
    of its fences. *)
Lemma no_span_jsonText (text : string) :
  match_braces text = None -> match_braces (strip_fences (trim text)) = None.
Proof.
  intros H. destruct (match_braces (strip_fences (trim text))) as [m|] eqn:E;
    [|reflexivity].
  exfalso. apply match_braces_some in E.
  destruct (jsonText_part text) as (x & y & Et).
  apply (match_braces_span text); [|exact H].
  rewrite Et. now apply has_span_part.
Qed.

End ExtractFacts.

(** ** Round trips through the extraction *)

Lemma stringify_object_braced (fields : list (string * value)) :
  exists m m',
    stringify (VObj fields) = String "{" m
    /\ Str.rev (stringify (VObj fields)) = String "}" m'.
Proof.
  unfold stringify. cbn [JSON_stringify].
  set (X := JS.join _ _).
  exists (X ++ "}"), (Str.rev X ++ "{"). split; [reflexivity|].
  change ("{" ++ X ++ "}") with (String "{" (X ++ "}")).
  now rewrite StrFacts.rev_cons, StrFacts.rev_app.
Qed.

(** C3 (as amended).  Let [J] be an object that [JSON.parse] reads back
    from its serialisation.  Extraction returns [J] from the serialisation
    fenced as [```json] or as a bare [```] block, from the serialisation
    itself, and from the serialisation with brace-free text before and
    after it, provided that the whole text, once trimmed and stripped of
    fence markers, is not JSON by itself. *)
Theorem extract_json_round_trip (failure : string) (fields : list (string * value)) :
  JSON.parse (stringify (VObj fields)) = Some (VObj fields) ->
  extract_json failure (fence "json" (stringify (VObj fields))) = Ok (VObj fields)
  /\ extract_json failure (fence "" (stringify (VObj fields))) = Ok (VObj fields)
  /\ extract_json failure (stringify (VObj fields)) = Ok (VObj fields)
  /\ forall pre post,
       brace_free pre = true -> brace_free post = true ->
       JSON.parse (strip_fences (Str.trim (pre ++ stringify (VObj fields) ++ post))) = None ->
       extract_json failure (pre ++ stringify (VObj fields) ++ post) = Ok (VObj fields).
Proof.
  intros RT.
  destruct (stringify_object_braced fields) as (m & m' & Eo & Ec).
  set (s := stringify (VObj fields)) in *.
  repeat split.
  - unfold extract_json.
    rewrite (ExtractFacts.jsonText_fenced s "json") by now left.
    now rewrite RT.
  - unfold extract_json.
    rewrite (ExtractFacts.jsonText_fenced s "") by now right.
    now rewrite RT.
  - unfold extract_json.
    rewrite (ExtractFacts.trim_braced s m m' Eo Ec),
      (ExtractFacts.strip_fences_braced s m Eo).
    now rewrite RT.
  - intros pre post Hpre Hpost Hfail. unfold extract_json.
    rewrite Hfail.
    destruct (ExtractFacts.keeps_jsonText s m m' Eo Ec pre post)
      as (pre' & post' & x & y & -> & -> & ->).
    rewrite ExtractFacts.brace_free_app in Hpre, Hpost.
    apply Bool.andb_true_iff in Hpre as [_ Hpre].
    apply Bool.andb_true_iff in Hpost as [Hpost _].
    rewrite (StrFacts.match_braces_wrapped pre' post' s m m' Hpre Hpost Eo Ec).
    now rewrite RT.
Qed.

Lemma extract_json_round_trip_witness :
  extract_json "none"
    ("some prose " ++ stringify sample_assignment ++ " more prose")
  = Ok sample_assignment.
Proof.
  refine (proj2 (proj2 (proj2
            (extract_json_round_trip "none" _ _))) "some prose " " more prose" _ _ _);
    vm_compute; reflexivity.
Defined.

(** C3 as stated fails: brackets are brace-free, and a serialised object
    between brackets is the JSON text of an array. *)
Lemma extract_json_brace_free_prose_counterexample :
  JSON.parse (stringify (VObj [])) = Some (VObj [])
  /\ brace_free "[" = true /\ brace_free "]" = true
  /\ extract_json "none" ("[" ++ stringify (VObj []) ++ "]") = Ok (VArr [VObj []])
  /\ extract_json "none" ("[" ++ stringify (VObj []) ++ "]") <> Ok (VObj []).
Proof.
  repeat split; try (vm_compute; reflexivity). vm_compute. discriminate.
Qed.

(** ** The handlers *)

Lemma get_ok_receiver (b : value) (k : string) (v : value) :
  JS.get b k = Ok v -> b <> VNull /\ b <> VUndefined.
Proof. destruct b; simpl; intros H; (discriminate || (split; discriminate)). Qed.

Lemma get_literal (b : value) (k : string) :
  JS.inherited k = false -> b <> VNull -> b <> VUndefined ->
  exists v, JS.get b k = Ok v.
Proof.
  intros Hk H1 H2. destruct b; simpl; try contradiction; eauto.
  - destruct (String.eqb k "length"); eauto.
  - destruct (String.eqb k "length"); eauto.
  - rewrite Hk. destruct (obj_get fields k); eauto.
Qed.

(** [JSON.parse] gives arrays, objects, strings, numbers, booleans and
    [null], never [undefined]. *)
Lemma parse_value_defined (fuel : nat) :
  (forall s v r, JSON.parse_value fuel s = Some (v, r) -> v <> VUndefined)
  /\ (forall s acc v r, JSON.parse_elements fuel s acc = Some (v, r) -> v <> VUndefined)
  /\ (forall s acc v r, JSON.parse_members fuel s acc = Some (v, r) -> v <> VUndefined).
Proof.
  induction fuel as [|f (IHv & IHe & IHm)]; [repeat split; discriminate|].
  repeat split.
  - intros s v r. cbn [JSON.parse_value].
    destruct (JSON.skip_ws s) as [|c t]; [discriminate|].
    destruct (JSON.code c =? 123).
    { destruct (JSON.skip_ws t) as [|c' t']; [discriminate|].
      destruct (JSON.code c' =? 125); [intros [= <- _]; discriminate | apply IHm]. }
    destruct (JSON.code c =? 91).
    { destruct (JSON.skip_ws t) as [|c' t']; [discriminate|].
      destruct (JSON.code c' =? 93); [intros [= <- _]; discriminate | apply IHe]. }
    destruct (JSON.code c =? 34).
    { destruct (JSON.parse_string_body t None []) as [[str r']|]; [|discriminate].
      intros [= <- _]; discriminate. }
    unfold JSON.expect.
    destruct (JSON.code c =? 116);
      [destruct (prefix _ _); [intros [= <- _]|]; discriminate|].
    destruct (JSON.code c =? 102);
      [destruct (prefix _ _); [intros [= <- _]|]; discriminate|].
    destruct (JSON.code c =? 110);
      [destruct (prefix _ _); [intros [= <- _]|]; discriminate|].
    destruct (JSON.parse_number _) as [[n r']|]; [|discriminate].
    intros [= <- _]; discriminate.
  - intros s acc v r. cbn [JSON.parse_elements].
    destruct (JSON.parse_value f s) as [[x s1]|]; [|discriminate].
    destruct (JSON.skip_ws s1) as [|c t]; [discriminate|].
    destruct (JSON.code c =? 44); [apply IHe|].
    destruct (JSON.code c =? 93); [intros [= <- _]|]; discriminate.
  - intros s acc v r. cbn [JSON.parse_members].
    destruct (JSON.skip_ws s) as [|q r0]; [discriminate|].
    destruct (JSON.code q =? 34); [|discriminate].
    destruct (JSON.parse_string_body r0 None []) as [[k s1]|]; [|discriminate].
    destruct (JSON.skip_ws s1) as [|c t]; [discriminate|].
    destruct (JSON.code c =? 58); [|discriminate].
    destruct (JSON.parse_value f t) as [[x s2]|]; [|discriminate].
    destruct (JSON.skip_ws s2) as [|c' t']; [discriminate|].
    destruct (JSON.code c' =? 44); [apply IHm|].
    destruct (JSON.code c' =? 125); [intros [= <- _]|]; discriminate.
Qed.

Lemma parse_defined (s : string) (v : value) :
  JSON.parse s = Some v -> v <> VUndefined.
Proof.
  unfold JSON.parse.
  destruct (JSON.parse_value _ s) as [[x r]|] eqn:E; [|discriminate].
  destruct (JSON.skip_ws r); [|discriminate].
  intros [= <-]. exact (proj1 (parse_value_defined _) _ _ _ E).
Qed.

(** C5 (as amended).  From a body that is JSON other than [null] the two
    fields can always be read, and then a request whose [query] is missing,
    is not a string or is empty once trimmed, and a request whose
    [assignmentType] is given but is none of the six kinds, is answered
    with status 400, and no call to the model is made.  A body that is not
    JSON, or is [null], has no [query] to be read: the reading throws
    inside the [try] block and the answer is 500, also without a call. *)
Theorem generate_rejects_invalid_request (w : world) (req : request) :
  (forall b,
     JSON.parse (body req) = Some b ->
     (exists q, JS.get b "query" = Ok q /\ forall s, q = VStr s -> Str.trim s = "")
     \/ (exists t, JS.get b "assignmentType" = Ok t
                   /\ t <> VUndefined /\ Generate.is_valid_type t = false) ->
     exists r, Generate.POST w req = (Some r, []) /\ status r = 400)
  /\ (forall b,
        JSON.parse (body req) = Some b -> b <> VNull ->
        exists q t, JS.get b "query" = Ok q /\ JS.get b "assignmentType" = Ok t)
  /\ (JSON.parse (body req) = None \/ JSON.parse (body req) = Some VNull ->
      exists r, Generate.POST w req = (Some r, []) /\ status r = 500).
Proof.
  split; [|split].
  - intros b Hb H.
    assert (Hq : exists q, JS.get b "query" = Ok q).
    { destruct H as [(q & Hq & _) | (t & Ht & _)]; [eauto|].
      apply get_ok_receiver in Ht as [H1 H2]. now apply get_literal. }
    assert (Ht : exists t, JS.get b "assignmentType" = Ok t).
    { destruct Hq as [q Hq]. apply get_ok_receiver in Hq as [H1 H2].
      now apply get_literal. }
    destruct Hq as [q Hq], Ht as [t Ht].
    run_handler. rewrite Hb, Hq, Ht.
    destruct (Generate.query_rejected q) eqn:Rq; [eexists; split; reflexivity|].
    destruct H as [(q' & Hq' & Hs) | (t' & Ht' & Hu & Hv)].
    + exfalso. rewrite Hq in Hq'. injection Hq' as <-.
      unfold Generate.query_rejected in Rq.
      destruct q as [| | | |s| |];
        try (simpl in Rq; rewrite ?Bool.orb_true_r in Rq; discriminate).
      rewrite (Hs s eq_refl) in Rq. simpl in Rq.
      now rewrite Bool.orb_true_r in Rq.
    + rewrite Ht in Ht'. injection Ht' as <-.
      assert (Ed : Generate.with_default t (VStr "case-study") = t)
        by (destruct t; try reflexivity; contradiction).
      rewrite Ed, Hv. eexists; split; reflexivity.
  - intros b Hb N. pose proof (parse_defined _ _ Hb) as U.
    destruct (get_literal b "query" eq_refl N U) as [q Hq].
    destruct (get_literal b "assignmentType" eq_refl N U) as [t Ht].
    eauto.
  - intros [Hb | Hb]; run_handler; rewrite Hb; eexists; split; reflexivity.
Qed.

Lemma generate_rejects_invalid_request_witness :
  exists r,
    Generate.POST {| OPENAI_API_KEY := Some "key"; generateText := fun _ _ => Ok "{}" |}
      {| body := tpl "{ ~query~: ~   ~, ~assignmentType~: ~essay~ }" |}
    = (Some r, []) /\ status r = 400.
Proof.
  refine (proj1 (generate_rejects_invalid_request _ _)
            (VObj [("query", VStr "   "); ("assignmentType", VStr "essay")]) _ _).
  - vm_compute. reflexivity.
  - left. exists (VStr "   "). split; [reflexivity|].
    intros s E. injection E as <-. vm_compute. reflexivity.
Defined.

(** C5 as stated fails: a request whose body is [null] has no query, and
    so has one whose body is not JSON; neither is answered 400. *)
Lemma generate_unreadable_body_counterexample :
  JSON.parse "null" = Some VNull
  /\ JSON.parse "query=tides" = None
  /\ (forall body', In body' ["null"; "query=tides"] ->
      exists r,
        Generate.POST (model_replying "{}") {| body := body' |} = (Some r, [])
        /\ status r = 500 /\ status r <> 400).
Proof.
  split; [reflexivity|]. split; [reflexivity|].
  intros body' [<- | [<- | []]].
  - eexists. split; [vm_compute; reflexivity|]. split; [reflexivity | discriminate].
  - eexists. split; [vm_compute; reflexivity|]. split; [reflexivity | discriminate].
Qed.

(** C6.  A valid request (a query that is a string with something left
    after trimming, an assignment type that is absent or one of the six
    kinds) made while no credential is configured is answered with status
    500, and no call to the model is made: the variable is looked at before
    the call, whatever the model would have done. *)
Theorem generate_missing_credential (w : world) (req : request) (b t : value)
  (q : string) :
  JSON.parse (body req) = Some b ->
  JS.get b "query" = Ok (VStr q) -> Str.trim q <> "" ->
  JS.get b "assignmentType" = Ok t ->
  Generate.is_valid_type (Generate.with_default t (VStr "case-study")) = true ->
  OPENAI_API_KEY w = None \/ OPENAI_API_KEY w = Some "" ->
  exists r, Generate.POST w req = (Some r, []) /\ status r = 500.
Proof.
  intros Hb Hq Hne Ht Hv Hk.
  assert (Rq : Generate.query_rejected (VStr q) = false).
  { unfold Generate.query_rejected. simpl.
    destruct (String.eqb_spec (Str.trim q) ""); [contradiction|].
    destruct (String.eqb_spec q ""); [|reflexivity].
    subst q. now contradiction Hne. }
  assert (Nk : no_api_key w = true).
  { unfold no_api_key. now destruct Hk as [-> | ->]. }
  run_handler. rewrite Hb, Hq, Ht, Rq, Hv, Nk.
  eexists; split; reflexivity.
Qed.

Lemma generate_missing_credential_witness :
  exists r,
    Generate.POST {| OPENAI_API_KEY := None; generateText := fun _ _ => Ok "{}" |}
      {| body := tpl "{ ~query~: ~supply chain ethics~ }" |}
    = (Some r, []) /\ status r = 500.
Proof.
  refine (generate_missing_credential _ _
            (VObj [("query", VStr "supply chain ethics")]) VUndefined
            "supply chain ethics" _ _ _ _ _ _).
  - vm_compute. reflexivity.
  - reflexivity.
  - vm_compute. discriminate.
  - reflexivity.
  - reflexivity.
  - left. reflexivity.
Defined.

(** *** How a run of the evaluation handler unfolds *)

Lemma evaluate_failure_status (e : exn) : status (Evaluate.failure e) = 500.
Proof. now destruct e. Qed.

Lemma generate_failure_status (e : exn) : status (Generate.failure e) = 500.
Proof. now destruct e. Qed.

(** Either no call is made, and the response is a rejection or the
    report of an error met while writing the prompt; or exactly one call is
    made, with the evaluation prompt and a budget of 2000, and the response
    is settled by what the model returns. *)
Lemma evaluate_run (w : world) (req : request) :
  (exists r, Evaluate.POST w req = (r, [])
             /\ forall x, r = Some x -> status x = 400 \/ status x = 500)
  \/ (exists b assignment submission ty prompt,
        JSON.parse (body req) = Some b
        /\ JS.get b "assignment" = Ok assignment
        /\ JS.get b "submission" = Ok submission
        /\ JS.get b "assignmentType" = Ok ty
        /\ JS.truthy assignment = true
        /\ JS.truthy submission = true
        /\ JS.truthy ty = true
        /\ no_api_key w = false
        /\ Evaluate.evaluation_prompt assignment submission ty = Ok prompt
        /\ Evaluate.POST w req
           = (settle Evaluate.failure
                (text <- generateText w prompt 2000 ;; Evaluate.results assignment text),
              [(prompt, 2000)])).
Proof.
  run_handler.
  destruct (JSON.parse (body req)) as [b|] eqn:Hb;
    [|left; eexists; split; [reflexivity | intros x [= <-]; now right]].
  destruct (JS.get b "assignment") as [assignment|e|] eqn:Ha;
    [| left; eexists; split; [reflexivity | intros x [= <-]; right; apply evaluate_failure_status]
     | left; eexists; split; [reflexivity | discriminate]].
  destruct (JS.get b "submission") as [submission|e|] eqn:Hs;
    [| left; eexists; split; [reflexivity | intros x [= <-]; right; apply evaluate_failure_status]
     | left; eexists; split; [reflexivity | discriminate]].
  destruct (JS.get b "assignmentType") as [ty|e|] eqn:Ht;
    [| left; eexists; split; [reflexivity | intros x [= <-]; right; apply evaluate_failure_status]
     | left; eexists; split; [reflexivity | discriminate]].
  destruct (JS.truthy assignment) eqn:Ta; cbn [negb];
    [| left; eexists; split; [reflexivity | intros x [= <-]; now left]].
  destruct (JS.truthy submission) eqn:Ts; cbn [negb];
    [| left; eexists; split; [reflexivity | intros x [= <-]; now left]].
  destruct (JS.truthy ty) eqn:Tt; cbn [negb];
    [| left; eexists; split; [reflexivity | intros x [= <-]; now left]].
  destruct (no_api_key w) eqn:Nk;
    [left; eexists; split; [reflexivity | intros x [= <-]; now right]|].
  destruct (Evaluate.evaluation_prompt assignment submission ty) as [prompt|e|] eqn:Hp;
    [| left; eexists; split; [reflexivity | intros x [= <-]; right; apply evaluate_failure_status]
     | left; eexists; split; [reflexivity | discriminate]].
  right. exists b, assignment, submission, ty, prompt.
  repeat (split; [first [assumption | reflexivity]|]).
  destruct (generateText w prompt 2000) as [text|e|]; cbn [bind settle app];
    [|reflexivity|reflexivity].
  now destruct (Evaluate.results assignment text).
Qed.

(** *** Which requests the evaluation handler turns away *)

Lemma both_are_cases (kind : string) (ty submission : value) :
  JS.truthy submission = true ->
  Evaluate.both_are kind ty submission = Ok true
  \/ Evaluate.both_are kind ty submission = Ok false.
Proof.
  intros Hs. unfold Evaluate.both_are.
  destruct (JS.strict_eq ty (VStr kind)); [|now right].
  destruct (get_literal submission "type" eq_refl) as [v ->];
    [destruct submission; discriminate .. |].
  cbn. destruct (JS.strict_eq v (VStr kind)); auto.
Qed.

(** C2 (as amended).  From a body that is JSON other than [null] the
    three fields can always be read, and the evaluation handler answers
    400, before any call to the model, when [assignment], [submission] or
    [assignmentType] is missing from it or is falsy.  A body that is not
    JSON, or is [null], is answered 500, also before any call: reading the
    fields throws inside the [try] block.  The handler checks nothing else:
    when the type and the submission are not one of the four pairs it has
    a prompt for, [multiple-choice], [essay], [test] and [case-study], it
    writes the generic prompt, whatever the type is. *)
Theorem evaluate_requires_three_fields (w : world) (req : request) :
  (forall b,
     JSON.parse (body req) = Some b ->
     (exists v, JS.get b "assignment" = Ok v /\ JS.truthy v = false)
     \/ (exists v, JS.get b "submission" = Ok v /\ JS.truthy v = false)
     \/ (exists v, JS.get b "assignmentType" = Ok v /\ JS.truthy v = false) ->
     exists r, Evaluate.POST w req = (Some r, []) /\ status r = 400)
  /\ (forall b,
        JSON.parse (body req) = Some b -> b <> VNull ->
        exists assignment submission ty,
          JS.get b "assignment" = Ok assignment
          /\ JS.get b "submission" = Ok submission
          /\ JS.get b "assignmentType" = Ok ty)
  /\ (JSON.parse (body req) = None \/ JSON.parse (body req) = Some VNull ->
      exists r, Evaluate.POST w req = (Some r, []) /\ status r = 500)
  /\ (forall assignment submission ty,
        JS.truthy submission = true ->
        (forall kind,
           In kind ["multiple-choice"; "essay"; "test"; "case-study"] ->
           Evaluate.both_are kind ty submission <> Ok true) ->
        Evaluate.evaluation_prompt assignment submission ty
        = Evaluate.generic_prompt assignment submission ty).
Proof.
  split; [|split; [|split]].
  - intros b Hb H.
    assert (R : b <> VNull /\ b <> VUndefined).
    { destruct H as [(v & Hv & _) | [(v & Hv & _) | (v & Hv & _)]];
        now apply get_ok_receiver in Hv. }
    destruct R as [R1 R2].
    destruct (get_literal b "assignment" eq_refl R1 R2) as [a Ha].
    destruct (get_literal b "submission" eq_refl R1 R2) as [s Hs].
    destruct (get_literal b "assignmentType" eq_refl R1 R2) as [t Ht].
    run_handler. rewrite Hb, Ha, Hs, Ht.
    destruct (JS.truthy a) eqn:Ta; cbn [negb]; [|eexists; split; reflexivity].
    destruct (JS.truthy s) eqn:Ts; cbn [negb]; [|eexists; split; reflexivity].
    destruct (JS.truthy t) eqn:Tt; cbn [negb]; [|eexists; split; reflexivity].
    exfalso.
    destruct H as [(v & Hv & F) | [(v & Hv & F) | (v & Hv & F)]];
      congruence.
  - intros b Hb N. pose proof (parse_defined _ _ Hb) as U.
    destruct (get_literal b "assignment" eq_refl N U) as [a Ha].
    destruct (get_literal b "submission" eq_refl N U) as [s Hs].
    destruct (get_literal b "assignmentType" eq_refl N U) as [t Ht].
    exists a, s, t. auto.
  - intros [Hb | Hb]; run_handler; rewrite Hb; eexists; split; reflexivity.
  - intros assignment submission ty Ts Hk. unfold Evaluate.evaluation_prompt.
    assert (F : forall kind,
               In kind ["multiple-choice"; "essay"; "test"; "case-study"] ->
               Evaluate.both_are kind ty submission = Ok false).
    { intros kind Hin. destruct (both_are_cases kind ty submission Ts) as [E|E];
        [now apply Hk in E | exact E]. }
    rewrite (F "multiple-choice"), (F "essay"), (F "test"), (F "case-study");
      simpl; auto 6.
Qed.

Lemma evaluate_requires_three_fields_witness :
  exists r,
    Evaluate.POST {| OPENAI_API_KEY := Some "key"; generateText := fun _ _ => Ok "{}" |}
      {| body := tpl "{ ~assignment~: { ~title~: ~T~ }, ~assignmentType~: ~essay~ }" |}
    = (Some r, []) /\ status r = 400.
Proof.
  refine (proj1 (evaluate_requires_three_fields _ _)
            (VObj [("assignment", VObj [("title", VStr "T")]);
                   ("assignmentType", VStr "essay")]) _ _).
  - vm_compute. reflexivity.
  - right. left. exists VUndefined. split; reflexivity.
Defined.

(** C2 as stated fails: a type outside the six kinds, with a submission
    of yet another shape, is evaluated and answered with a success; and a
    body that is [null], in which all three fields are missing, is
    answered 500, not 400. *)
Lemma evaluate_unknown_kind_counterexample :
  Generate.is_valid_type (VStr "quiz") = false
  /\ (exists r c,
        Evaluate.POST (model_replying graded_reply)
          {| body := tpl "{ ~assignment~: { ~title~: ~T~, ~rubric~: { ~categories~: [], ~totalPoints~: 10 } }, ~submission~: { ~type~: ~essay~, ~text~: ~An answer.~ }, ~assignmentType~: ~quiz~ }" |}
        = (Some r, [c])
        /\ status r = 200)
  /\ (exists r,
        Evaluate.POST (model_replying graded_reply) {| body := "null" |} = (Some r, [])
        /\ status r = 500 /\ status r <> 400).
Proof.
  split; [reflexivity|]. split.
  - eexists. eexists. split; [vm_compute; reflexivity | reflexivity].
  - eexists. split; [vm_compute; reflexivity|]. split; [reflexivity | discriminate].
Qed.

(** ** The arithmetic of the evaluation *)

Lemma bind_ok {A B : Type} (m : result A) (k : A -> result B) (b : B) :
  bind m k = Ok b -> exists a, m = Ok a /\ k a = Ok b.
Proof. destruct m; simpl; intros H; try discriminate. eauto. Qed.

Ltac invert_binds :=
  repeat match goal with
         | H : bind _ _ = Ok _ |- _ =>
             let a := fresh "a" in
             let E := fresh "E" in
             apply bind_ok in H as (a & E & H)
         | H : Ok _ = Ok _ |- _ => injection H as H
         end.

(** One turn of the summation over an entry it copes with. *)
Lemma add_score_tolerated (sum : Num.number) (item : value) :
  tolerated item ->
  exists n, Evaluate.add_score (VNum sum) item = Ok (VNum (Num.add sum n))
            /\ (forall score, JS.get item "score" = Ok score ->
                JS.truthy score = false -> n = Num.zero).
Proof.
  intros (score & Hs & H). unfold Evaluate.add_score. rewrite Hs. cbn [bind].
  unfold JS.or.
  destruct (JS.truthy score) eqn:T.
  - destruct H as [H | [n ->]]; [discriminate|].
    exists n. split; [reflexivity|].
    intros score' E. injection E as <-. now rewrite T.
  - exists Num.zero. split; [reflexivity | auto].
Qed.

Lemma add_score_numeric (sum : Num.number) (item : value) :
  numeric_entry item ->
  Evaluate.add_score (VNum sum) item = Ok (VNum (Num.add sum (score_of item))).
Proof.
  unfold Evaluate.add_score, score_of.
  intros [H | (n & H & Hn)]; rewrite H; cbn [bind]; [reflexivity|].
  unfold JS.or, JS.truthy. rewrite Hn, Bool.orb_false_r.
  now destruct (Num.is_zero n).
Qed.

Lemma total_score_numeric (items : list value) :
  Forall numeric_entry items ->
  Evaluate.total_score (VArr items) = Ok (VNum (sum_of_scores items)).
Proof.
  unfold Evaluate.total_score, sum_of_scores. cbn [JS.as_array bind].
  change (Evaluate.num 0) with (VNum Num.zero).
  generalize Num.zero as acc.
  induction items as [|item items IH]; intros acc H; [reflexivity|].
  inversion H as [|? ? Hi Hr]; subst.
  cbn [foldM fold_left]. rewrite (add_score_numeric acc item Hi). cbn [bind].
  now apply IH.
Qed.

Lemma total_score_tolerated (items : list value) :
  Forall tolerated items ->
  exists n, Evaluate.total_score (VArr items) = Ok (VNum n).
Proof.
  unfold Evaluate.total_score. cbn [JS.as_array bind].
  change (Evaluate.num 0) with (VNum Num.zero).
  generalize Num.zero as acc.
  induction items as [|item items IH]; intros acc H; [now exists acc|].
  inversion H as [|? ? Hi Hr]; subst.
  destruct (add_score_tolerated acc item Hi) as (n & E & _).
  cbn [foldM]. rewrite E. cbn [bind]. now apply IH.
Qed.

Lemma add_score_contribution (sum : Num.number) (item : value) :
  tolerated item ->
  Evaluate.add_score (VNum sum) item = Ok (VNum (Num.add sum (contribution item))).
Proof.
  intros (score & Hs & H). unfold Evaluate.add_score, contribution.
  rewrite Hs. cbn [bind]. unfold JS.or.
  destruct (JS.truthy score) eqn:T.
  - destruct H as [H | [n ->]]; [discriminate|]. rewrite T. reflexivity.
  - destruct score; try reflexivity. rewrite T. reflexivity.
Qed.

Lemma total_score_contributions (items : list value) :
  Forall tolerated items ->
  Evaluate.total_score (VArr items) = Ok (VNum (sum_of_contributions items)).
Proof.
  unfold Evaluate.total_score, sum_of_contributions. cbn [JS.as_array bind].
  change (Evaluate.num 0) with (VNum Num.zero).
  generalize Num.zero as acc.
  induction items as [|item items IH]; intros acc H; [reflexivity|].
  inversion H as [|? ? Hi Hr]; subst.
  cbn [foldM fold_left]. rewrite (add_score_contribution acc item Hi). cbn [bind].
  now apply IH.
Qed.

(** C7 (as amended).  On a list whose entries are not [null] and have a
    score that is a number or is falsy (missing, [null], [false], a zero,
    NaN or the empty string), the summation does not throw, and the total
    is the sum, from zero and in order, of what the entries contribute:
    exactly zero for an entry whose score is falsy, and the score itself
    for any other number.  Nothing is said of other lists. *)
Theorem falsy_score_counts_zero (items : list value) :
  Forall tolerated items ->
  Evaluate.total_score (VArr items) = Ok (VNum (sum_of_contributions items))
  /\ (forall item score,
        In item items ->
        JS.get item "score" = Ok score -> JS.truthy score = false ->
        contribution item = Num.zero)
  /\ (forall item n,
        In item items ->
        JS.get item "score" = Ok (VNum n) -> JS.truthy (VNum n) = true ->
        contribution item = n)
  /\ (forall sum item score,
        JS.get item "score" = Ok score -> JS.truthy score = false ->
        Evaluate.add_score (VNum sum) item = Ok (VNum (Num.add sum Num.zero))).
Proof.
  intros H. split; [now apply total_score_contributions|]. repeat split.
  - intros item score _ Hs T. unfold contribution. rewrite Hs.
    destruct score; try reflexivity. now rewrite T.
  - intros item n _ Hs T. unfold contribution. now rewrite Hs, T.
  - intros sum item score Hs T.
    destruct (add_score_tolerated sum item) as (n & E & Hz); [exists score; auto|].
    now rewrite E, (Hz score Hs T).
Qed.

Lemma falsy_score_counts_zero_witness :
  Evaluate.total_score
    (VArr [VObj [("category", VStr "Depth")];
           VObj [("score", VNull)];
           VObj [("score", VNum (Num.of_Z 7))]])
  = Ok (VNum (sum_of_contributions
                [VObj [("category", VStr "Depth")];
                 VObj [("score", VNull)];
                 VObj [("score", VNum (Num.of_Z 7))]])).
Proof.
  refine (proj1 (falsy_score_counts_zero _ _)).
  repeat constructor.
  - exists VUndefined. split; [reflexivity | now left].
  - exists VNull. split; [reflexivity | now left].
  - exists (VNum (Num.of_Z 7)). split; [reflexivity | right; eauto].
Defined.

(** C7 as stated fails: a score that is a non-empty string is no number,
    yet the total is not what it was without it; and the summation throws
    on a [null] entry. *)
Lemma non_numeric_score_counterexample :
  Evaluate.total_score (VArr [VObj [("score", VStr "high")]]) = Ok (VStr "0high")
  /\ Evaluate.total_score (VArr [VNull])
     = Throw (TypeError "Cannot read properties of null (reading 'score')").
Proof. split; reflexivity. Qed.

(** *** What a successful evaluation returns *)

Lemma evaluate_success (w : world) (req : request) (r : response) (calls : list call) :
  Evaluate.POST w req = (Some r, calls) -> status r = 200 ->
  exists b assignment submission ty prompt text,
    JSON.parse (body req) = Some b
    /\ JS.get b "assignment" = Ok assignment
    /\ JS.get b "submission" = Ok submission
    /\ JS.get b "assignmentType" = Ok ty
    /\ Evaluate.evaluation_prompt assignment submission ty = Ok prompt
    /\ calls = [(prompt, 2000)]
    /\ generateText w prompt 2000 = Ok text
    /\ Evaluate.results assignment text = Ok r.
Proof.
  intros H St.
  destruct (evaluate_run w req)
    as [(r' & E & Hr) | (b & a & s & ty & prompt & Hb & Ha & Hs & Ht & _ & _ & _ & _ & Hp & E)];
    rewrite E in H.
  - injection H as -> <-. destruct (Hr r eq_refl); lia.
  - injection H as H <-.
    exists b, a, s, ty, prompt.
    destruct (generateText w prompt 2000) as [text|e|]; cbn [bind settle] in H.
    + exists text. repeat (split; [first [assumption | reflexivity]|]).
      destruct (Evaluate.results a text) as [x|e|]; cbn [settle] in H;
        [now injection H as -> | | discriminate].
      injection H as <-. rewrite evaluate_failure_status in St. discriminate.
    + injection H as <-. rewrite evaluate_failure_status in St. discriminate.
    + discriminate.
Qed.

Lemma results_shape (assignment : value) (text : string) (r : response) :
  Evaluate.results assignment text = Ok r ->
  exists data items totalScore maxScore percentage,
    extract_json "Could not parse evaluation data from AI response" text = Ok data
    /\ JS.get data "rubricAssessment" = Ok (VArr items)
    /\ Evaluate.total_score (VArr items) = Ok totalScore
    /\ Evaluate.path assignment ["rubric"; "totalPoints"] = Ok maxScore
    /\ Evaluate.percent totalScore maxScore = Ok percentage
    /\ exists feedback detailed,
         r = json_response
               (VObj [("success", VBool true);
                      ("results",
                       VObj [("totalScore", totalScore);
                             ("maxScore", maxScore);
                             ("percentage", VNum percentage);
                             ("feedback", feedback);
                             ("detailedFeedback", detailed);
                             ("rubricScores", VArr items)])])
               200.
Proof.
  unfold Evaluate.results, Evaluate.success. intros H. invert_binds.
  rename a into data, a0 into ra, a1 into ts, a2 into ms, a3 into pct.
  assert (Hra : exists items, ra = VArr items).
  { unfold Evaluate.total_score in E1. apply bind_ok in E1 as (items & Ei & _).
    destruct ra; try discriminate. eauto. }
  destruct Hra as [items ->].
  rewrite E0 in E6. injection E6 as <-.
  exists data, items, ts, ms, pct. repeat (split; [assumption|]).
  eexists. eexists. symmetry. exact H.
Qed.

(** C1 (as amended).  In every successful evaluation the figures of the
    response agree: [totalScore] is the sum of the scores in
    [rubricScores], [maxScore] is [assignment.rubric.totalPoints], and
    [percentage] is [Math.round((totalScore / maxScore) * 100)] as binary64
    arithmetic computes it (which is not always [round(100 * totalScore /
    maxScore)]: see the counterexample).  For the scores 20 and 15 and 50
    points in all, the total is 35 and the percentage 70. *)
Theorem evaluation_figures (w : world) (req : request) (r : response)
  (calls : list call) :
  Evaluate.POST w req = (Some r, calls) -> status r = 200 -> figures_agree req r.
Proof.
  intros H St.
  destruct (evaluate_success w req r calls H St)
    as (b & assignment & _ & _ & _ & text & Hb & Ha & _ & _ & _ & _ & _ & Hr).
  destruct (results_shape assignment text r Hr)
    as (data & items & ts & ms & pct & _ & _ & Hts & Hms & Hp & fb & dt & ->).
  exists b, assignment, items, ts, ms, pct.
  repeat (split; [first [assumption | reflexivity]|]).
  split; [|split; [assumption | split; [assumption | split]]].
  - intros Hn. rewrite (total_score_numeric items Hn) in Hts. now injection Hts.
  - intros t m -> ->. cbn in Hp. now injection Hp.
  - intros -> ->. vm_compute in Hts. injection Hts as <-.
    vm_compute in Hp. injection Hp as <-. split; reflexivity.
Qed.

Lemma evaluation_figures_witness :
  figures_agree (essay_request "50") example_response.
Proof.
  apply (evaluation_figures
           (model_replying
              (scores_reply "[ { ~score~: 20, ~maxScore~: 25 }, { ~score~: 15, ~maxScore~: 25 } ]"))
           (essay_request "50") example_response example_calls);
    vm_compute; reflexivity.
Defined.

(** C1 as stated fails: with a score of 29 out of 200 points the handler
    reports 14 percent, the quotient 29/200 being a little under 0.145 in
    binary64, where [round(100 * totalScore / maxScore)] is 15. *)
Lemma percentage_counterexample :
  exists r c,
    Evaluate.POST (model_replying (scores_reply "[ { ~score~: 29, ~maxScore~: 200 } ]"))
      (essay_request "200")
    = (Some r, [c])
    /\ status r = 200
    /\ result_field r "totalScore" = Some (VNum (Num.of_Z 29))
    /\ result_field r "maxScore" = Some (VNum (Num.of_Z 200))
    /\ result_field r "percentage" = Some (VNum (Num.of_Z 14))
    /\ spec_percentage 29 200 = 15
    /\ Num.round (Num.div (Num.mul (Num.of_Z 100) (Num.of_Z 29)) (Num.of_Z 200))
       = Num.of_Z 15.
Proof.
  eexists. eexists. split; [vm_compute; reflexivity|].
  repeat split; vm_compute; reflexivity.
Qed.

Lemma total_score_not_array (ra : value) :
  (forall items, ra <> VArr items) -> exists e, Evaluate.total_score ra = Throw e.
Proof.
  intros H. unfold Evaluate.total_score.
  destruct ra as [| | | | |xs|]; cbn [JS.as_array bind]; eauto.
  now contradiction (H xs).
Qed.

Lemma settle_throw (on_error : exn -> response) (e : exn) (r : response) :
  settle on_error (Throw e) = Some r -> r = on_error e.
Proof. cbn. congruence. Qed.

(** C9.  When the model has been called and the JSON recovered from its
    text has no [rubricAssessment] array, the response is the 500 of the
    [catch] block: the summation is attempted on what is there and throws
    before the default of [rubricScores] is ever reached. *)
Theorem missing_rubric_assessment_fails (w : world) (req : request) (r : response)
  (prompt text : string) (data : value) :
  Evaluate.POST w req = (Some r, [(prompt, 2000)]) ->
  generateText w prompt 2000 = Ok text ->
  extract_json "Could not parse evaluation data from AI response" text = Ok data ->
  (forall items, JS.get data "rubricAssessment" <> Ok (VArr items)) ->
  status r = 500 /\ exists e, r = Evaluate.failure e.
Proof.
  intros H Hg Hx Hno.
  destruct (evaluate_run w req)
    as [(r' & E & _) | (b & a & s & ty & p & _ & _ & _ & _ & _ & _ & _ & _ & _ & E)];
    rewrite E in H; [discriminate|].
  injection H as H <-. rewrite Hg in H. cbn [bind] in H.
  unfold Evaluate.results in H. rewrite Hx in H. cbn [bind] in H.
  assert (T : exists e,
             (rubricAssessment <- JS.get data "rubricAssessment" ;;
              totalScore <- Evaluate.total_score rubricAssessment ;;
              maxScore <- Evaluate.path a ["rubric"; "totalPoints"] ;;
              percentage <- Evaluate.percent totalScore maxScore ;;
              Evaluate.success totalScore maxScore percentage data) = Throw e).
  { destruct (JS.get data "rubricAssessment") as [ra|e|] eqn:Hra; cbn [bind].
    - assert (N : forall items, ra <> VArr items)
        by (intros items ->; now apply (Hno items)).
      destruct (total_score_not_array ra N) as [e ->]. cbn [bind]. eauto.
    - eauto.
    - discriminate H. }
  destruct T as [e T]. rewrite T in H. apply settle_throw in H. subst r.
  split; [apply evaluate_failure_status | eauto].
Qed.

Lemma missing_rubric_assessment_fails_witness :
  status (response_of (Evaluate.POST (model_replying "{}") (essay_request "50"))) = 500.
Proof.
  refine (proj1 (missing_rubric_assessment_fails
                   (model_replying "{}") (essay_request "50") _
                   example_prompt "{}" (VObj []) _ _ _ _)).
  - vm_compute. reflexivity.
  - reflexivity.
  - vm_compute. reflexivity.
  - intros items. cbn. discriminate.
Defined.

(** *** Division by a zero or absent [totalPoints] *)

Lemma div_zero_or_nan (x y : Num.number) :
  Num.is_zero y || Num.is_nan y = true -> Num.is_finite (Num.div x y) = false.
Proof. destruct x, y; try discriminate; reflexivity. Qed.

Lemma percent_of_non_finite (q : Num.number) :
  Num.is_finite q = false ->
  Num.is_finite (Num.round (Num.mul q (Num.of_Z 100))) = false.
Proof. destruct q; try discriminate; reflexivity. Qed.

Lemma to_number_zero_or_absent (maxScore : value) :
  zero_or_absent maxScore ->
  exists y, JS.to_number maxScore = Ok y /\ Num.is_zero y || Num.is_nan y = true.
Proof.
  intros [-> | [-> | [s ->]]]; eexists; split; reflexivity.
Qed.

Lemma percent_zero_or_absent (totalScore maxScore : value) :
  zero_or_absent maxScore ->
  (forall p, Evaluate.percent totalScore maxScore = Ok p -> Num.is_finite p = false)
  /\ (forall x, JS.to_number totalScore = Ok x ->
      exists p, Evaluate.percent totalScore maxScore = Ok p).
Proof.
  intros Z. destruct (to_number_zero_or_absent maxScore Z) as (y & Hy & Hz).
  unfold Evaluate.percent, JS.div. rewrite Hy. split.
  - intros p H. invert_binds. subst.
    now apply percent_of_non_finite, div_zero_or_nan.
  - intros x ->. cbn [bind]. eauto.
Qed.

Lemma total_score_kind (items : list value) (totalScore : value) :
  Evaluate.total_score (VArr items) = Ok totalScore ->
  (exists n, totalScore = VNum n) \/ (exists s, totalScore = VStr s).
Proof.
  unfold Evaluate.total_score. cbn [JS.as_array bind].
  assert (K : (exists n, Evaluate.num 0 = VNum n) \/ (exists s, Evaluate.num 0 = VStr s))
    by (left; eexists; reflexivity).
  revert K. generalize (Evaluate.num 0) as acc.
  induction items as [|item items IH]; intros acc K H.
  - cbn in H. injection H as <-. exact K.
  - cbn [foldM] in H. apply bind_ok in H as (next & Hn & H).
    apply (IH next); [|exact H].
    unfold Evaluate.add_score in Hn. apply bind_ok in Hn as (score & _ & Hn).
    unfold JS.add in Hn.
    apply bind_ok in Hn as (pa & _ & Hn). apply bind_ok in Hn as (pb & _ & Hn).
    destruct (JS.is_string pa || JS.is_string pb).
    + apply bind_ok in Hn as (sa & _ & Hn). apply bind_ok in Hn as (sb & _ & Hn).
      injection Hn as <-. right. eauto.
    + apply bind_ok in Hn as (na & _ & Hn). apply bind_ok in Hn as (nb & _ & Hn).
      injection Hn as <-. left. eauto.
Qed.

(** C10.  The division is unguarded.  With [totalPoints] zero or absent
    the percentage is computed without any error, for whatever total the
    summation produced, and it is NaN or an infinity; a success response
    to such a request carries a percentage that is no finite number; and
    an evaluation in which everything but the division is settled is
    answered with a success all the same, status 200 after the one call,
    with such a percentage. *)
Theorem zero_total_points_percentage (maxScore : value) :
  zero_or_absent maxScore ->
  (forall totalScore,
     (exists n, totalScore = VNum n) \/ (exists s, totalScore = VStr s) ->
     exists p, Evaluate.percent totalScore maxScore = Ok p
               /\ Num.is_finite p = false)
  /\ (forall w req r calls b assignment,
        Evaluate.POST w req = (Some r, calls) -> status r = 200 ->
        JSON.parse (body req) = Some b ->
        JS.get b "assignment" = Ok assignment ->
        Evaluate.path assignment ["rubric"; "totalPoints"] = Ok maxScore ->
        exists p, result_field r "percentage" = Some (VNum p)
                  /\ Num.is_finite p = false)
  /\ (forall w req assignment prompt totalScore,
        sums_up w req assignment prompt totalScore ->
        Evaluate.path assignment ["rubric"; "totalPoints"] = Ok maxScore ->
        exists r p,
          Evaluate.POST w req = (Some r, [(prompt, 2000)])
          /\ status r = 200
          /\ result_field r "totalScore" = Some totalScore
          /\ result_field r "percentage" = Some (VNum p)
          /\ Num.is_finite p = false).
Proof.
  intros Z.
  assert (P : forall ts,
             (exists n, ts = VNum n) \/ (exists s, ts = VStr s) ->
             exists p, Evaluate.percent ts maxScore = Ok p
                       /\ Num.is_finite p = false).
  { intros ts Hts.
    destruct (percent_zero_or_absent ts maxScore Z) as [Hf Hx].
    destruct (Hx (match ts with
                  | VNum n => n
                  | VStr s => JS.string_to_number s
                  | _ => Num.nan
                  end)) as [p Hp];
      [destruct Hts as [[n ->] | [s ->]]; reflexivity|].
    exists p. split; [exact Hp | now apply Hf]. }
  split; [exact P|]. split.
  - intros w req r calls b assignment H St Hb Ha Hm.
    destruct (evaluate_success w req r calls H St)
      as (b' & a' & _ & _ & _ & text & Hb' & Ha' & _ & _ & _ & _ & _ & Hr).
    rewrite Hb in Hb'. injection Hb' as <-.
    rewrite Ha in Ha'. injection Ha' as <-.
    destruct (results_shape assignment text r Hr)
      as (data & items & ts & ms & pct & _ & _ & _ & Hms & Hp & fb & dt & ->).
    rewrite Hm in Hms. injection Hms as <-.
    exists pct. split; [reflexivity|].
    now apply (proj1 (percent_zero_or_absent ts maxScore Z)).
  - intros w req assignment prompt ts
      (b & submission & ty & text & data & items
       & Hb & Ha & Ta & Hs & Ts & Ht & Tt & Nk & Hp & Hg & Hx & Hra & Hsum) Hm.
    destruct (P ts (total_score_kind items ts Hsum)) as (p & Hpc & Hfin).
    destruct (get_ok_receiver _ _ _ Hra) as [N U].
    destruct (get_literal data "overallFeedback" eq_refl N U) as [overall Ho].
    destruct (get_literal data "detailedFeedback" eq_refl N U) as [detailed Hd].
    eexists. exists p.
    run_handler. rewrite Hb, Ha, Hs, Ht, Ta, Ts, Tt. cbn [negb].
    rewrite Nk, Hp, Hg. unfold Evaluate.results. rewrite Hx. cbn [bind].
    rewrite Hra. cbn [bind]. rewrite Hsum. cbn [bind]. rewrite Hm. cbn [bind].
    rewrite Hpc. cbn [bind]. unfold Evaluate.success.
    rewrite Ho, Hd, Hra. cbn [bind app].
    split; [reflexivity|]. repeat split. exact Hfin.
Qed.

Lemma zero_total_points_percentage_witness :
  exists r p,
    zero_points_run = (Some r, [(zero_points_prompt, 2000)])
    /\ status r = 200
    /\ result_field r "totalScore" = Some (VNum (Num.of_Z 20))
    /\ result_field r "percentage" = Some (VNum p)
    /\ Num.is_finite p = false.
Proof.
  refine (proj2 (proj2 (zero_total_points_percentage (VNum (S754_zero false)) _))
            (model_replying (scores_reply "[ { ~score~: 20, ~maxScore~: 25 } ]"))
            (essay_request "0") (essay_assignment (S754_zero false))
            zero_points_prompt (VNum (Num.of_Z 20)) _ _).
  - right. right. now exists false.
  - exists (essay_body (S754_zero false)),
      (VObj [("type", VStr "essay"); ("text", VStr "An answer.")]), (VStr "essay"),
      (scores_reply "[ { ~score~: 20, ~maxScore~: 25 } ]"),
      (VObj [("overallFeedback", VStr "Fine.");
             ("rubricAssessment",
              VArr [VObj [("score", VNum (Num.of_Z 20));
                          ("maxScore", VNum (Num.of_Z 25))]])]),
      [VObj [("score", VNum (Num.of_Z 20)); ("maxScore", VNum (Num.of_Z 25))]].
    repeat split; vm_compute; reflexivity.
  - reflexivity.
Defined.

(** ** Texts from which nothing can be recovered *)

Lemma generate_run (w : world) (req : request) :
  (exists r, Generate.POST w req = (r, [])
             /\ forall x, r = Some x -> status x = 400 \/ status x = 500)
  \/ (exists b q given,
        JSON.parse (body req) = Some b
        /\ JS.get b "query" = Ok (VStr q)
        /\ JS.get b "assignmentType" = Ok given
        /\ Generate.query_rejected (VStr q) = false
        /\ Generate.is_valid_type (Generate.with_default given (VStr "case-study")) = true
        /\ no_api_key w = false
        /\ Generate.POST w req
           = (settle Generate.failure
                (text <- generateText w
                           (Generate.generation_prompt
                              (Generate.with_default given (VStr "case-study")) q)
                           3000 ;;
                 Generate.generated (VStr q)
                   (Generate.with_default given (VStr "case-study")) text),
              [(Generate.generation_prompt
                  (Generate.with_default given (VStr "case-study")) q, 3000)])).
Proof.
  run_handler.
  destruct (JSON.parse (body req)) as [b|] eqn:Hb;
    [|left; eexists; split; [reflexivity | intros x [= <-]; now right]].
  destruct (JS.get b "query") as [query|e|] eqn:Hq;
    [| left; eexists; split; [reflexivity | intros x [= <-]; right; apply generate_failure_status]
     | left; eexists; split; [reflexivity | discriminate]].
  destruct (JS.get b "assignmentType") as [given|e|] eqn:Ht;
    [| left; eexists; split; [reflexivity | intros x [= <-]; right; apply generate_failure_status]
     | left; eexists; split; [reflexivity | discriminate]].
  destruct (Generate.query_rejected query) eqn:Rq;
    [left; eexists; split; [reflexivity | intros x [= <-]; now left]|].
  destruct (Generate.is_valid_type _) eqn:Vt; cbn [negb];
    [|left; eexists; split; [reflexivity | intros x [= <-]; now left]].
  destruct (no_api_key w) eqn:Nk;
    [left; eexists; split; [reflexivity | intros x [= <-]; now right]|].
  destruct query as [| | | |q| |];
    try (unfold Generate.query_rejected in Rq;
         rewrite Bool.orb_true_r in Rq; discriminate).
  right. exists b, q, given.
  repeat (split; [first [assumption | reflexivity]|]).
  cbn [JS.to_string].
  destruct (generateText w _ 3000) as [text|e|]; cbn [bind settle app];
    [|reflexivity|reflexivity].
  now destruct (Generate.generated _ _ text).
Qed.

Lemma extract_json_irrecoverable (failure text : string) :
  Str.match_braces text = None ->
  JSON.parse (strip_fences (Str.trim text)) = None ->
  extract_json failure text = Throw (ErrorObj "Error" failure).
Proof.
  intros Hs Hp. unfold extract_json.
  now rewrite Hp, (ExtractFacts.no_span_jsonText text Hs).
Qed.

(** C8 (as amended).  A text that holds no span from an opening brace to
    a closing one and that, once trimmed and stripped of its fence markers,
    is not JSON, makes the extraction throw its own error; the generation
    handler and the evaluation handler, having received such a text from
    the model, answer 500 with that error's message. *)
Theorem irrecoverable_text_fails (text : string) :
  Str.match_braces text = None ->
  JSON.parse (strip_fences (Str.trim text)) = None ->
  (forall failure, extract_json failure text = Throw (ErrorObj "Error" failure))
  /\ (forall w req r prompt budget,
        Generate.POST w req = (Some r, [(prompt, budget)]) ->
        generateText w prompt budget = Ok text ->
        status r = 500
        /\ r = Generate.failure
                 (ErrorObj "Error" "Could not parse assignment data from AI response"))
  /\ (forall w req r prompt budget,
        Evaluate.POST w req = (Some r, [(prompt, budget)]) ->
        generateText w prompt budget = Ok text ->
        status r = 500
        /\ r = Evaluate.failure
                 (ErrorObj "Error" "Could not parse evaluation data from AI response")).
Proof.
  intros Hs Hp. split; [|split].
  - intros failure. now apply extract_json_irrecoverable.
  - intros w req r prompt budget H Hg.
    destruct (generate_run w req)
      as [(r' & E & _) | (b & q & given & _ & _ & _ & _ & _ & _ & E)];
      rewrite E in H; [discriminate|].
    injection H as H <- <-. rewrite Hg in H. cbn [bind] in H.
    unfold Generate.generated in H.
    rewrite (extract_json_irrecoverable _ text Hs Hp) in H.
    apply settle_throw in H. subst r. split; reflexivity.
  - intros w req r prompt budget H Hg.
    destruct (evaluate_run w req)
      as [(r' & E & _) | (b & a & s & ty & p & _ & _ & _ & _ & _ & _ & _ & _ & _ & E)];
      rewrite E in H; [discriminate|].
    injection H as H <- <-. rewrite Hg in H. cbn [bind] in H.
    unfold Evaluate.results in H.
    rewrite (extract_json_irrecoverable _ text Hs Hp) in H.
    apply settle_throw in H. subst r. split; reflexivity.
Qed.

Lemma irrecoverable_text_fails_witness :
  extract_json "none" "I am sorry, I cannot help with that."
  = Throw (ErrorObj "Error" "none").
Proof.
  refine (proj1 (irrecoverable_text_fails "I am sorry, I cannot help with that." _ _)
            "none");
    vm_compute; reflexivity.
Defined.

(** C8 as stated fails: a fenced number holds no brace and, fences
    included, is not JSON, yet the generation handler recovers the number
    and answers with a success. *)
Lemma fenced_scalar_counterexample :
  Str.match_braces (fence "json" "5") = None
  /\ JSON.parse (fence "json" "5") = None
  /\ exists r c,
       Generate.POST (model_replying (fence "json" "5"))
         {| body := tpl "{ ~query~: ~supply chain ethics~ }" |}
       = (Some r, [c])
       /\ status r = 200.
Proof.
  split; [reflexivity | split; [reflexivity|]].
  eexists. eexists. split; [vm_compute; reflexivity | reflexivity].
Qed.

(** ** Scoring before the prompt is written *)

Lemma includes_prefix (s p : string) : prefix p s = true -> Str.includes s p = true.
Proof. destruct s; simpl; intros ->; reflexivity. Qed.

Lemma includes_cons (c : ascii) (s p : string) :
  Str.includes s p = true -> Str.includes (String c s) p = true.
Proof. simpl. intros ->. apply Bool.orb_true_r. Qed.

Lemma includes_app_r (a s p : string) :
  Str.includes s p = true -> Str.includes (a ++ s) p = true.
Proof.
  intros H. induction a as [|c a IH]; [exact H|].
  cbn [append]. now apply includes_cons.
Qed.

Lemma ok_inj {A : Type} (a b : A) : Ok a = Ok b -> a = b.
Proof. congruence. Qed.

Lemma includes_middle (a n b : string) : Str.includes (a ++ n ++ b) n = true.
Proof. apply includes_app_r, includes_prefix, StrFacts.prefix_refl_app. Qed.

Lemma toString_method_to_string (v : value) (s : string) :
  JS.toString_method v = Ok s -> JS.to_string v = Ok s.
Proof.
  destruct v; simpl; try discriminate; auto.
  destruct (JS.has_own fields "toString"); [discriminate | auto].
Qed.

Lemma get_computed_key (v key : value) (s : string) :
  JS.to_string key = Ok s -> JS.get_computed v key = JS.get_computed v (VStr s).
Proof.
  intros H. destruct v; cbn [JS.get_computed JS.to_string bind]; rewrite ?H; reflexivity.
Qed.

Lemma score_question_inv (answers answerKey : value) (t0 t1 : Evaluate.tally)
  (q : value) :
  Evaluate.score_question answers answerKey t0 q = Ok t1 ->
  exists c,
    answered_correctly answers answerKey q = Ok c
    /\ if c then add_points (Evaluate.totalPoints t0) q = Ok (Evaluate.totalPoints t1)
       else Evaluate.totalPoints t1 = Evaluate.totalPoints t0.
Proof.
  unfold Evaluate.score_question, answered_correctly, add_points. intros H.
  apply bind_ok in H as (number & Hn & H).
  apply bind_ok in H as (given & Hg & H).
  apply bind_ok in H as (number' & Hn' & H).
  apply bind_ok in H as (key & Hkey & H).
  apply bind_ok in H as (expected & He & H).
  rewrite Hn in Hn'. injection Hn' as <-.
  apply toString_method_to_string in Hkey.
  rewrite <- (get_computed_key answerKey number key Hkey) in He.
  rewrite Hn. cbn [bind]. rewrite Hg. cbn [bind]. rewrite He. cbn [bind].
  exists (JS.strict_eq given expected). split; [reflexivity|].
  apply bind_ok in H as ([count total] & Hc & H).
  apply bind_ok in H as (question & _ & H).
  apply bind_ok in H as (points & _ & H).
  apply bind_ok in H as (earned & _ & H).
  injection H as <-. cbn [Evaluate.totalPoints].
  destruct (JS.strict_eq given expected).
  - apply bind_ok in Hc as (pts & Hp & Hc).
    apply bind_ok in Hc as (total' & Ht & Hc).
    injection Hc as _ <-. rewrite Hp. cbn [bind]. exact Ht.
  - now injection Hc as _ <-.
Qed.

(** The tally kept while mapping over the questions ends on the objective
    score. *)
Lemma score_questions_refines (answers answerKey : value) (questions : list value) :
  forall t0 t,
    foldM (Evaluate.score_question answers answerKey) questions t0 = Ok t ->
    exists correct,
      filterM (answered_correctly answers answerKey) questions = Ok correct
      /\ foldM add_points correct (Evaluate.totalPoints t0)
         = Ok (Evaluate.totalPoints t).
Proof.
  induction questions as [|q qs IH]; intros t0 t H.
  - injection H as <-. now exists [].
  - cbn [foldM] in H. apply bind_ok in H as (t1 & H1 & H).
    destruct (IH t1 t H) as (correct & Hf & Hs).
    destruct (score_question_inv _ _ _ _ _ H1) as (c & Hc & Ht).
    cbn [filterM]. rewrite Hc, Hf. cbn [bind].
    destruct c.
    + exists (q :: correct). split; [reflexivity|].
      cbn [foldM]. rewrite Ht. exact Hs.
    + exists correct. split; [reflexivity|]. now rewrite <- Ht.
Qed.

Lemma multiple_choice_prompt_embeds (assignment submission : value) (prompt : string) :
  Evaluate.multiple_choice_prompt assignment submission = Ok prompt ->
  embeds_objective_score assignment submission prompt.
Proof.
  unfold Evaluate.multiple_choice_prompt. intros H.
  apply bind_ok in H as (questions & Hq & H).
  apply bind_ok in H as (answers & Ha & H).
  apply bind_ok in H as (answerKey & Hk & H).
  apply bind_ok in H as (qs & Hqs & H).
  apply bind_ok in H as (t & Ht & H).
  apply bind_ok in H as (title & _ & H).
  apply bind_ok in H as (earned & He & H).
  apply bind_ok in H as (possible & _ & H).
  apply bind_ok in H as (possible' & _ & H).
  apply bind_ok in H as (pct & _ & H).
  apply bind_ok in H as (details & _ & H).
  apply bind_ok in H as (rubric & _ & H).
  apply ok_inj in H. subst prompt.
  assert (questions = VArr qs) as -> by (destruct questions; try discriminate; now injection Hqs as ->).
  destruct (score_questions_refines answers answerKey qs _ t Ht) as (correct & Hf & Hs).
  exists qs, answers, answerKey, (Evaluate.totalPoints t), earned.
  repeat (split; [first [assumption | reflexivity]|]).
  split; [unfold objective_score; rewrite Hf; exact Hs|].
  split; [exact He|].
  match goal with
  | |- Str.includes (?l1 ++ ?x1 ++ ?l2 ++ ?x2 ++ ?l3 ++ ?x3 ++ _ ++ earned ++ _ ++ ?rest) ?n
       = true =>
      replace (Str.includes _ n)
        with (Str.includes
                ((l1 ++ x1 ++ l2 ++ x2 ++ l3 ++ x3 ++ String Str.LF "") ++ n ++ rest) n)
        by (now rewrite !StrFacts.app_assoc)
  end.
  apply includes_middle.
Qed.

(** C4 (as amended).  For the multiple-choice kind the objective score,
    the sum of [q.points] over the questions whose answer equals the key's,
    is computed while the prompt is written and stands in it after
    "Points Earned:"; every call the handler makes for such a request
    carries that prompt, so the score is there before the model is asked.
    (For the test kind no score is computed: see the counterexample.) *)
Theorem objective_score_precedes_call (assignment submission : value) :
  (forall prompt,
     Evaluate.multiple_choice_prompt assignment submission = Ok prompt ->
     embeds_objective_score assignment submission prompt)
  /\ (forall w req b r calls,
        JSON.parse (body req) = Some b ->
        JS.get b "assignment" = Ok assignment ->
        JS.get b "submission" = Ok submission ->
        JS.get b "assignmentType" = Ok (VStr "multiple-choice") ->
        JS.get submission "type" = Ok (VStr "multiple-choice") ->
        Evaluate.POST w req = (r, calls) ->
        forall prompt budget,
          In (prompt, budget) calls ->
          embeds_objective_score assignment submission prompt).
Proof.
  split; [apply multiple_choice_prompt_embeds|].
  intros w req b r calls Hb Ha Hs Ht Hty H prompt budget Hin.
  destruct (evaluate_run w req)
    as [(r' & E & _)
       | (b' & a' & s' & ty' & p & Hb' & Ha' & Hs' & Ht' & _ & _ & _ & _ & Hp & E)];
    rewrite E in H; injection H as _ <-; [contradiction|].
  rewrite Hb in Hb'. injection Hb' as <-.
  rewrite Ha in Ha'. injection Ha' as <-.
  rewrite Hs in Hs'. injection Hs' as <-.
  rewrite Ht in Ht'. injection Ht' as <-.
  destruct Hin as [Hin | []]. injection Hin as -> _.
  apply multiple_choice_prompt_embeds.
  unfold Evaluate.evaluation_prompt, Evaluate.both_are in Hp.
  cbn [JS.strict_eq String.eqb Ascii.eqb Bool.eqb] in Hp.
  rewrite Hty in Hp. exact Hp.
Qed.

Lemma objective_score_precedes_call_witness :
  embeds_objective_score (quiz "multiple-choice" 5 5)
    (quiz_submission "multiple-choice" "C")
    (quiz_prompt "multiple-choice" "C" 5 5)
  /\ objective_score (quiz_questions 5 5)
       (quiz_answers "C") (VObj [("1", VStr "A"); ("2", VStr "B")])
     = Ok (VNum (Num.of_Z 5))
  /\ Str.includes (quiz_prompt "multiple-choice" "C" 5 5)
       "- Points Earned: 5 out of " = true.
Proof.
  split; [|split; vm_compute; reflexivity].
  apply (proj1 (objective_score_precedes_call _ _)).
  vm_compute. reflexivity.
Defined.

(** C4 as stated fails for the test kind: with both questions, worth 7
    and 9 points, answered as the key has them, the objective score is 16,
    and the prompt, which lists the answers and the key side by side,
    contains neither a "Points Earned" line nor the number 16. *)
Lemma test_kind_counterexample :
  Evaluate.evaluation_prompt (quiz "test" 7 9) (quiz_submission "test" "B") (VStr "test")
  = Ok (quiz_prompt "test" "B" 7 9)
  /\ objective_score (quiz_questions 7 9) (quiz_answers "B")
       (VObj [("1", VStr "A"); ("2", VStr "B")])
     = Ok (VNum (Num.of_Z 16))
  /\ Str.includes (quiz_prompt "test" "B" 7 9) "Points Earned" = false
  /\ Str.includes (quiz_prompt "test" "B" 7 9) "16" = false.
Proof. repeat split; vm_compute; reflexivity. Qed.

(** * Further properties of the handlers *)

(** ** Credentials, calls and statuses *)

(** X1.  The evaluation handler looks for the credential before it
    writes any prompt: a request that carries the three fields is answered
    500 with the configuration message, and no call is made, when the key
    is absent or empty. *)
Theorem evaluate_missing_credential (w : world) (req : request)
  (b assignment submission ty : value) :
  JSON.parse (body req) = Some b ->
  JS.get b "assignment" = Ok assignment -> JS.truthy assignment = true ->
  JS.get b "submission" = Ok submission -> JS.truthy submission = true ->
  JS.get b "assignmentType" = Ok ty -> JS.truthy ty = true ->
  OPENAI_API_KEY w = None \/ OPENAI_API_KEY w = Some "" ->
  Evaluate.POST w req
  = (Some (json_response
             (error_payload
                "OpenAI API key is not configured. Please add OPENAI_API_KEY to your .env.local file.")
             500), []).
Proof.
  intros Hb Ha Ta Hs Ts Ht Tt Hk.
  assert (Nk : no_api_key w = true)
    by (unfold no_api_key; now destruct Hk as [-> | ->]).
  run_handler. now rewrite Hb, Ha, Hs, Ht, Ta, Ts, Tt, Nk.
Qed.

Lemma evaluate_missing_credential_witness :
  fst (Evaluate.POST {| OPENAI_API_KEY := None; generateText := fun _ _ => Ok "{}" |}
         (essay_request "50"))
  = Some (json_response
            (error_payload
               "OpenAI API key is not configured. Please add OPENAI_API_KEY to your .env.local file.")
            500).
Proof.
  rewrite (evaluate_missing_credential _ (essay_request "50")
             (essay_body (Num.of_Z 50)) (essay_assignment (Num.of_Z 50))
             (VObj [("type", VStr "essay"); ("text", VStr "An answer.")])
             (VStr "essay")); try reflexivity.
  now left.
Defined.

Lemma generated_status (query ty : value) (text : string) (r : response) :
  Generate.generated query ty text = Ok r -> status r = 200.
Proof.
  unfold Generate.generated. intros H.
  apply bind_ok in H as (data & _ & H). apply ok_inj in H. now subst r.
Qed.

Lemma results_status (assignment : value) (text : string) (r : response) :
  Evaluate.results assignment text = Ok r -> status r = 200.
Proof.
  intros H. destruct (results_shape _ _ _ H)
    as (? & ? & ? & ? & ? & _ & _ & _ & _ & _ & ? & ? & ->).
  reflexivity.
Qed.

Lemma settle_after_call (on_error : exn -> response) (called : result string)
  (k : string -> result response) (x : response) :
  (forall e, status (on_error e) = 500) ->
  (forall text r, k text = Ok r -> status r = 200) ->
  settle on_error (text <- called ;; k text) = Some x ->
  status x = 200 \/ status x = 500.
Proof.
  intros He Hk H. destruct called as [text|e|]; cbn [bind settle] in H.
  - destruct (k text) as [r|e|] eqn:E; cbn [settle] in H; try discriminate.
    + injection H as <-. left. eauto.
    + injection H as <-. right. apply He.
  - injection H as <-. right. apply He.
  - discriminate.
Qed.

(** X2.  Each handler calls the model at most once for a request, the
    generation handler with a budget of 3000 tokens and the evaluation
    handler with 2000; it answers with status 200, 400 or 500 only, with 200
    only after the call, and with 400 only without one. *)
Theorem one_call_at_most (w : world) (req : request) :
  (forall r calls,
     Generate.POST w req = (r, calls) ->
     (calls = [] \/ exists prompt, calls = [(prompt, 3000)])
     /\ forall x, r = Some x ->
          (status x = 200 /\ calls <> [])
          \/ (status x = 400 /\ calls = [])
          \/ status x = 500)
  /\ (forall r calls,
        Evaluate.POST w req = (r, calls) ->
        (calls = [] \/ exists prompt, calls = [(prompt, 2000)])
        /\ forall x, r = Some x ->
             (status x = 200 /\ calls <> [])
             \/ (status x = 400 /\ calls = [])
             \/ status x = 500).
Proof.
  split; intros r calls H.
  - destruct (generate_run w req)
      as [(r' & E & Hr) | (b & q & given & _ & _ & _ & _ & _ & _ & E)];
      rewrite E in H; injection H as <- <-.
    + split; [now left|]. intros x Hx. destruct (Hr x Hx); auto.
    + split; [right; eauto|]. intros x Hx.
      destruct (settle_after_call _ _ _ x generate_failure_status
                  (generated_status _ _) Hx); [left; split; [assumption | discriminate] | auto].
  - destruct (evaluate_run w req)
      as [(r' & E & Hr) | (b & a & s & ty & p & _ & _ & _ & _ & _ & _ & _ & _ & _ & E)];
      rewrite E in H; injection H as <- <-.
    + split; [now left|]. intros x Hx. destruct (Hr x Hx); auto.
    + split; [right; eauto|]. intros x Hx.
      destruct (settle_after_call _ _ _ x evaluate_failure_status
                  (results_status _) Hx); [left; split; [assumption | discriminate] | auto].
Qed.

(** X3.  When the call to the model fails with an error, each handler
    answers 500 and reports the error's message inside its own sentence;
    when something that is no error is thrown, it answers 500 with a fixed
    sentence. *)
Theorem upstream_failure_reported (w : world) (req : request) (r : response)
  (prompt : string) (budget : Z) (e : exn) :
  generateText w prompt budget = Throw e ->
  (Generate.POST w req = (Some r, [(prompt, budget)]) ->
   status r = 500
   /\ payload r
      = error_payload
          match e with
          | ErrorObj _ message =>
              "Failed to generate assignment: " ++ message
              ++ ". Please try again or check your API configuration."
          | NonError => "An unexpected error occurred while generating the assignment."
          end)
  /\ (Evaluate.POST w req = (Some r, [(prompt, budget)]) ->
      status r = 500
      /\ payload r
         = error_payload
             match e with
             | ErrorObj _ message =>
                 "Failed to evaluate submission: " ++ message ++ ". Please try again."
             | NonError => "An unexpected error occurred while evaluating the submission."
             end).
Proof.
  intros Hg. split; intros H.
  - destruct (generate_run w req)
      as [(r' & E & _) | (b & q & given & _ & _ & _ & _ & _ & _ & E)];
      rewrite E in H; [discriminate|].
    injection H as H <- <-. rewrite Hg in H. apply settle_throw in H. subst r.
    now destruct e.
  - destruct (evaluate_run w req)
      as [(r' & E & _) | (b & a & s & ty & p & _ & _ & _ & _ & _ & _ & _ & _ & _ & E)];
      rewrite E in H; [discriminate|].
    injection H as H <- <-. rewrite Hg in H. apply settle_throw in H. subst r.
    now destruct e.
Qed.


Lemma upstream_failure_reported_witness :
  payload (response_of (Evaluate.POST (failing_model "rate limit") (essay_request "50")))
  = error_payload "Failed to evaluate submission: rate limit. Please try again.".
Proof.
  refine (proj2 (proj2 (upstream_failure_reported (failing_model "rate limit")
                          (essay_request "50") _ example_prompt 2000
                          (ErrorObj "Error" "rate limit") _) _)).
  - reflexivity.
  - vm_compute. reflexivity.
Defined.

(** X4.  A body that is not JSON, or that is the JSON value [null], is
    answered 500 by both handlers, and neither calls the model. *)
Theorem unreadable_body_fails (w : world) (req : request) :
  JSON.parse (body req) = None \/ JSON.parse (body req) = Some VNull ->
  exists r1 r2,
    Generate.POST w req = (Some r1, []) /\ status r1 = 500
    /\ Evaluate.POST w req = (Some r2, []) /\ status r2 = 500.
Proof.
  intros [H | H]; run_handler; rewrite H; cbn;
    eexists; eexists; repeat split; reflexivity.
Qed.

Lemma unreadable_body_fails_witness :
  exists r1 r2,
    Generate.POST (model_replying "{}") {| body := "null" |} = (Some r1, [])
    /\ status r1 = 500
    /\ Evaluate.POST (model_replying "{}") {| body := "null" |} = (Some r2, [])
    /\ status r2 = 500.
Proof.
  apply unreadable_body_fails. right. vm_compute. reflexivity.
Defined.

(** ** What the generation handler sends and returns *)

(** X5.  A successful generation was produced by exactly one call, whose
    prompt is the template of the type around the quoted query; the
    response returns what was recovered from the model's text as it is,
    the query as it was sent (not trimmed), and the type, which is
    [case-study] when the request names none. *)
Theorem generate_success (w : world) (req : request) (r : response)
  (calls : list call) :
  Generate.POST w req = (Some r, calls) -> status r = 200 ->
  exists b q given text data,
    JSON.parse (body req) = Some b
    /\ JS.get b "query" = Ok (VStr q)
    /\ Str.trim q <> ""
    /\ JS.get b "assignmentType" = Ok given
    /\ Generate.is_valid_type (Generate.with_default given (VStr "case-study")) = true
    /\ calls = [(Generate.generation_prompt
                   (Generate.with_default given (VStr "case-study")) q, 3000)]
    /\ generateText w
         (Generate.generation_prompt (Generate.with_default given (VStr "case-study")) q)
         3000 = Ok text
    /\ extract_json "Could not parse assignment data from AI response" text = Ok data
    /\ payload r
       = VObj [("success", VBool true);
               ("assignment", data);
               ("query", VStr q);
               ("assignmentType", Generate.with_default given (VStr "case-study"))].
Proof.
  intros H St.
  destruct (generate_run w req)
    as [(r' & E & Hr) | (b & q & given & Hb & Hq & Ht & Rq & Vt & _ & E)];
    rewrite E in H.
  - injection H as -> <-. destruct (Hr r eq_refl); lia.
  - injection H as H <-.
    destruct (generateText w _ 3000) as [text|e|] eqn:Hg; cbn [bind settle] in H;
      [| apply settle_throw in H; subst r; rewrite generate_failure_status in St; lia
       | discriminate].
    unfold Generate.generated in H.
    destruct (extract_json _ text) as [data|e|] eqn:Hx; cbn [bind settle] in H;
      [| apply settle_throw in H; subst r; rewrite generate_failure_status in St; lia
       | discriminate].
    injection H as <-.
    exists b, q, given, text, data.
    repeat (split; [first [assumption | reflexivity]|]).
    split; [|repeat (split; [first [assumption | reflexivity]|]); reflexivity].
    intros Hblank. unfold Generate.query_rejected in Rq. cbn in Rq.
    rewrite Hblank in Rq. cbn in Rq. now rewrite Bool.orb_true_r in Rq.
Qed.

Lemma generate_success_witness :
  payload
    (response_of
       (Generate.POST (model_replying (fence "json" (stringify sample_assignment)))
          {| body := tpl "{ ~query~: ~ supply chain ethics ~ }" |}))
  = VObj [("success", VBool true);
          ("assignment", sample_assignment);
          ("query", VStr " supply chain ethics ");
          ("assignmentType", VStr "case-study")].
Proof.
  destruct (generate_success
              (model_replying (fence "json" (stringify sample_assignment)))
              {| body := tpl "{ ~query~: ~ supply chain ethics ~ }" |}
              (response_of
                 (Generate.POST (model_replying (fence "json" (stringify sample_assignment)))
                    {| body := tpl "{ ~query~: ~ supply chain ethics ~ }" |}))
              (snd (Generate.POST (model_replying (fence "json" (stringify sample_assignment)))
                      {| body := tpl "{ ~query~: ~ supply chain ethics ~ }" |})))
    as (b & q & given & text & data & _); vm_compute; reflexivity.
Defined.

(** X6.  A request with a query that has something left after trimming,
    a type that is absent or one of the six, and a credential in place
    always reaches the model, once, with the prompt of its type. *)
Theorem generate_accepts (w : world) (req : request) (b given : value) (q : string) :
  JSON.parse (body req) = Some b ->
  JS.get b "query" = Ok (VStr q) -> Str.trim q <> "" ->
  JS.get b "assignmentType" = Ok given ->
  Generate.is_valid_type (Generate.with_default given (VStr "case-study")) = true ->
  no_api_key w = false ->
  snd (Generate.POST w req)
  = [(Generate.generation_prompt (Generate.with_default given (VStr "case-study")) q,
      3000)].
Proof.
  intros Hb Hq Hne Ht Hv Nk.
  destruct (generate_run w req)
    as [(r' & E & _) | (b' & q' & given' & Hb' & Hq' & Ht' & _ & _ & _ & E)].
  - exfalso. revert E. run_handler. rewrite Hb, Hq, Ht, Hv, Nk.
    assert (Rq : Generate.query_rejected (VStr q) = false).
    { unfold Generate.query_rejected. simpl.
      destruct (String.eqb_spec (Str.trim q) ""); [contradiction|].
      destruct (String.eqb_spec q ""); [|reflexivity].
      subst q. now contradiction Hne. }
    rewrite Rq. cbn [negb JS.to_string].
    destruct (generateText w _ 3000); cbn; try discriminate.
    destruct (Generate.generated _ _ _); discriminate.
  - rewrite E. cbn [snd].
    rewrite Hb in Hb'. injection Hb' as <-.
    rewrite Hq in Hq'. injection Hq' as <-.
    rewrite Ht in Ht'. injection Ht' as <-. reflexivity.
Qed.

Lemma generate_accepts_witness :
  snd (Generate.POST (model_replying "{}") {| body := tpl "{ ~query~: ~tides~, ~assignmentType~: ~essay~ }" |})
  = [(Generate.generation_prompt (VStr "essay") "tides", 3000)].
Proof.
  apply (generate_accepts _ _ (VObj [("query", VStr "tides"); ("assignmentType", VStr "essay")])
           (VStr "essay") "tides");
    try (vm_compute; reflexivity).
  vm_compute. discriminate.
Defined.

(** X7.  Whatever the type, the generation prompt quotes the query
    verbatim and names, in its JSON skeleton, the three fields the display
    looks for before it shows an assignment, as well as the rubric's
    [categories] and [totalPoints]. *)
Theorem generation_prompt_contents (assignmentType : value) (query : string) :
  Str.includes (Generate.generation_prompt assignmentType query)
    (Generate.quote ++ query ++ Generate.quote) = true
  /\ forall field,
       In field (required_fields ++ ["categories"; "totalPoints"])%list ->
       Str.includes (Generate.generation_prompt assignmentType query)
         (Generate.quote ++ field ++ Generate.quote) = true.
Proof.
  assert (Q : forall a b,
             Str.includes (a ++ (Generate.quote ++ query ++ Generate.quote) ++ b)
               (Generate.quote ++ query ++ Generate.quote) = true)
    by (intros; apply includes_middle).
  assert (F : forall a q' b n,
             Str.includes b n = true -> Str.includes (a ++ q' ++ b) n = true)
    by (intros; now do 2 apply includes_app_r).
  unfold Generate.generation_prompt.
  repeat match goal with
         | |- context [if ?c then _ else _] => destruct c
         end;
    (split;
     [ apply Q
     | intros field Hin; apply F;
       repeat (destruct Hin as [<- | Hin]; [vm_compute; reflexivity|]);
       destruct Hin ]).
Qed.

(** ** What an assignment needs before the model is asked *)

Lemma mapM_ok {A B : Type} (f : A -> result B) (xs : list A) (ys : list B) :
  mapM f xs = Ok ys -> Forall (fun x => exists y, f x = Ok y) xs.
Proof.
  revert ys. induction xs as [|x xs IH]; intros ys H; [constructor|].
  cbn [mapM] in H. apply bind_ok in H as (y & Hy & H).
  apply bind_ok in H as (ys' & Hys & _).
  constructor; [eauto | eapply IH; eauto].
Qed.

Lemma evaluation_prompt_needs_rubric (assignment submission ty : value)
  (prompt : string) :
  Evaluate.evaluation_prompt assignment submission ty = Ok prompt ->
  exists text, Evaluate.rubric_text assignment = Ok text.
Proof.
  unfold Evaluate.evaluation_prompt. intros H.
  apply bind_ok in H as ([|] & _ & H);
    [unfold Evaluate.multiple_choice_prompt in H; invert_binds; eauto|].
  apply bind_ok in H as ([|] & _ & H);
    [unfold Evaluate.essay_prompt in H; invert_binds; eauto|].
  apply bind_ok in H as ([|] & _ & H);
    [unfold Evaluate.test_prompt in H; invert_binds; eauto|].
  apply bind_ok in H as ([|] & _ & H);
    [unfold Evaluate.case_study_prompt in H; invert_binds; eauto|].
  unfold Evaluate.generic_prompt in H. invert_binds. eauto.
Qed.

(** X8.  The model is asked to evaluate only assignments whose rubric
    has an array of categories in which every category has all four
    levels: under its [levels] there is an entry for each of them that is
    neither [undefined] nor [null], whose [description] (which may be
    missing, or anything that converts to a string) is written into the
    prompt.  For any other assignment the prompt cannot be written and no
    call is made. *)
Theorem call_needs_rubric_levels (w : world) (req : request)
  (r : option response) (calls : list call) (b assignment : value) :
  Evaluate.POST w req = (r, calls) -> calls <> [] ->
  JSON.parse (body req) = Some b -> JS.get b "assignment" = Ok assignment ->
  exists categories,
    Evaluate.path assignment ["rubric"; "categories"] = Ok (VArr categories)
    /\ Forall
         (fun cat => forall level, In level rubric_levels -> level_present cat level)
         categories.
Proof.
  intros H Hc Hb Ha.
  destruct (evaluate_run w req)
    as [(r' & E & _)
       | (b' & a' & s & ty & p & Hb' & Ha' & _ & _ & _ & _ & _ & _ & Hp & E)];
    rewrite E in H; injection H as _ <-; [contradiction|].
  rewrite Hb in Hb'. injection Hb' as <-.
  rewrite Ha in Ha'. injection Ha' as <-.
  destruct (evaluation_prompt_needs_rubric _ _ _ _ Hp) as [text Hr].
  unfold Evaluate.rubric_text in Hr.
  apply bind_ok in Hr as (cv & Hcv & Hr).
  apply bind_ok in Hr as (cats & Hcats & Hr).
  apply bind_ok in Hr as (parts & Hparts & _).
  assert (cv = VArr cats) as ->
    by (destruct cv; try discriminate; now injection Hcats as ->).
  exists cats. split; [exact Hcv|].
  apply mapM_ok in Hparts.
  eapply Forall_impl; [|exact Hparts].
  intros cat [y Hy] level Hin. unfold Evaluate.rubric_category in Hy.
  apply bind_ok in Hy as (name & _ & Hy). apply bind_ok in Hy as (points & _ & Hy).
  apply bind_ok in Hy as (t1 & H1 & Hy). apply bind_ok in Hy as (t2 & H2 & Hy).
  apply bind_ok in Hy as (t3 & H3 & Hy). apply bind_ok in Hy as (t4 & H4 & _).
  assert (R : forall lv t,
             Evaluate.subst (Evaluate.path cat ["levels"; lv; "description"]) = Ok t ->
             level_present cat lv).
  { intros lv t Hs. unfold Evaluate.subst, Evaluate.path in Hs.
    apply bind_ok in Hs as (d & Hd & Ht). cbn [foldM] in Hd.
    apply bind_ok in Hd as (levels & Hl & Hd).
    apply bind_ok in Hd as (entry & He & Hd).
    apply bind_ok in Hd as (d' & Hd' & Hd). injection Hd as <-.
    destruct (get_ok_receiver _ _ _ Hd') as [N U].
    exists levels, entry, d', t. repeat split; auto. }
  destruct Hin as [<- | [<- | [<- | [<- | []]]]]; eauto.
Qed.

Lemma call_needs_rubric_levels_witness :
  exists categories,
    Evaluate.path levelled_assignment ["rubric"; "categories"] = Ok (VArr categories)
    /\ Forall
         (fun cat => forall level, In level rubric_levels -> level_present cat level)
         categories.
Proof.
  apply (call_needs_rubric_levels
           (model_replying graded_reply) levelled_request
           (fst (Evaluate.POST (model_replying graded_reply) levelled_request))
           (snd (Evaluate.POST (model_replying graded_reply) levelled_request))
           levelled_body levelled_assignment).
  - reflexivity.
  - vm_compute. discriminate.
  - vm_compute. reflexivity.
  - reflexivity.
Defined.

(** ** What the extraction returns *)

Lemma match_braces_part (t m : string) :
  Str.match_braces t = Some m ->
  exists a c, t = a ++ m ++ c /\ occurs "{" a = false /\ occurs "}" c = false.
Proof.
  unfold Str.match_braces. intros H.
  destruct (Str.from_first "{" t) as [t1|] eqn:E1; [|discriminate].
  destruct (Str.from_first "}" (Str.rev t1)) as [u|] eqn:E2; [|discriminate].
  injection H as <-.
  apply StrFacts.from_first_some in E1 as (p & r1 & -> & _ & Hp).
  apply StrFacts.from_first_some in E2 as (p2 & r2 & E & _ & Hp2).
  apply (f_equal Str.rev) in E. rewrite StrFacts.rev_involutive, StrFacts.rev_app in E.
  exists p, (Str.rev p2). rewrite E. repeat split; [exact Hp|].
  now rewrite StrFacts.occurs_rev.
Qed.

(** X9.  Whatever the extraction returns is what [JSON.parse] reads from
    a stretch of the model's text: nothing is made up, and surrounding
    text is only ever dropped. *)
Theorem extract_json_reads_part (failure text : string) (data : value) :
  extract_json failure text = Ok data ->
  exists before part after,
    text = before ++ part ++ after /\ JSON.parse part = Some data.
Proof.
  unfold extract_json. intros H.
  destruct (ExtractFacts.jsonText_part text) as (x & y & Et).
  destruct (JSON.parse (strip_fences (Str.trim text))) as [v|] eqn:P.
  - injection H as <-. eauto.
  - destruct (Str.match_braces _) as [m|] eqn:M; [|discriminate].
    destruct (JSON.parse m) as [v|] eqn:Pm; [|discriminate].
    injection H as <-.
    apply match_braces_part in M as (a & c & Em & _).
    exists (x ++ a), m, (c ++ y). split; [|exact Pm].
    rewrite Et at 1. rewrite Em. now rewrite !StrFacts.app_assoc.
Qed.

Lemma extract_json_reads_part_witness :
  exists before part after,
    "Here you go: { } Enjoy!" = before ++ part ++ after
    /\ JSON.parse part = Some (VObj []).
Proof.
  apply (extract_json_reads_part "none"). vm_compute. reflexivity.
Defined.

(** ** Scoring of multiple-choice answers *)

Lemma score_question_step (answers answerKey : value) (t t' : Evaluate.tally)
  (q : value) :
  Evaluate.score_question answers answerKey t q = Ok t' ->
  exists d,
    Evaluate.questionDetails t' = (Evaluate.questionDetails t ++ [d])%list
    /\ detail_of q d
    /\ Evaluate.correctCount t'
       = Evaluate.correctCount t + (if Evaluate.isCorrect d then 1 else 0).
Proof.
  unfold Evaluate.score_question. intros H.
  apply bind_ok in H as (number & _ & H).
  apply bind_ok in H as (given & _ & H).
  apply bind_ok in H as (number' & _ & H).
  apply bind_ok in H as (key & _ & H).
  apply bind_ok in H as (expected & _ & H).
  apply bind_ok in H as ([count total] & Hc & H).
  apply bind_ok in H as (question & Hq & H).
  apply bind_ok in H as (points & Hp & H).
  apply bind_ok in H as (earned & He & H).
  apply ok_inj in H. subst t'. cbn.
  eexists. split; [reflexivity|]. unfold detail_of. cbn.
  destruct (JS.strict_eq given expected).
  - apply bind_ok in Hc as (pts & _ & Hc). apply bind_ok in Hc as (tot & _ & Hc).
    apply ok_inj in Hc. injection Hc as <- _.
    rewrite Hp in He. apply ok_inj in He. subst earned. auto.
  - apply ok_inj in Hc. injection Hc as <- _.
    apply ok_inj in He. subst earned. repeat split; auto. lia.
Qed.

Lemma filter_snoc {A : Type} (f : A -> bool) (l : list A) (x : A) :
  filter f (l ++ [x]) = (filter f l ++ if f x then [x] else [])%list.
Proof.
  rewrite filter_app. cbn. now destruct (f x).
Qed.

Lemma score_questions_from (answers answerKey : value) (questions : list value) :
  forall t0 t,
    foldM (Evaluate.score_question answers answerKey) questions t0 = Ok t ->
    exists ds,
      Evaluate.questionDetails t = (Evaluate.questionDetails t0 ++ ds)%list
      /\ Forall2 detail_of questions ds
      /\ Evaluate.correctCount t
         = Evaluate.correctCount t0
           + Z.of_nat (List.length (filter Evaluate.isCorrect ds)).
Proof.
  induction questions as [|q qs IH]; intros t0 t H.
  - apply ok_inj in H. subst t. exists []. rewrite app_nil_r. cbn.
    repeat split; [constructor | lia].
  - cbn [foldM] in H. apply bind_ok in H as (t1 & H1 & H).
    destruct (score_question_step _ _ _ _ _ H1) as (d & Ed & Hd & Hc).
    destruct (IH t1 t H) as (ds & Eds & Hds & Hcs).
    exists (d :: ds). rewrite Eds, Ed, <- app_assoc. cbn [app].
    repeat split; [now constructor|].
    rewrite Hcs, Hc. cbn [filter]. destruct (Evaluate.isCorrect d); cbn [List.length]; lia.
Qed.

(** X10.  The tally of the multiple-choice scoring has one detail for
    each question, in order, with the question's text and points; the count
    of correct answers is the number of details marked correct, so it never
    exceeds the number of questions; and a detail earns the points of its
    question when it is correct and none otherwise. *)
Theorem score_questions_tally (questions : list value) (answers answerKey : value)
  (t : Evaluate.tally) :
  Evaluate.score_questions questions answers answerKey = Ok t ->
  tally_matches questions t.
Proof.
  unfold Evaluate.score_questions. intros H.
  destruct (score_questions_from _ _ _ _ _ H) as (ds & Eds & Hds & Hc).
  cbn in Eds, Hc. unfold tally_matches. rewrite Eds, Hc.
  split; [exact Hds|]. split; [reflexivity|].
  rewrite (Forall2_length Hds).
  pose proof (filter_length_le Evaluate.isCorrect ds). lia.
Qed.

Lemma score_questions_tally_witness :
  exists t,
    Evaluate.score_questions (quiz_questions 5 5) (quiz_answers "C")
      (VObj [("1", VStr "A"); ("2", VStr "B")]) = Ok t
    /\ tally_matches (quiz_questions 5 5) t /\ Evaluate.correctCount t = 1.
Proof.
  eexists. split; [vm_compute; reflexivity|].
  split; [apply (score_questions_tally _ (quiz_answers "C")
                   (VObj [("1", VStr "A"); ("2", VStr "B")]));
          vm_compute; reflexivity
         | reflexivity].
Defined.

(** X11.  A question for which the submission holds no answer and the
    answer key no entry is scored as correct: the two look-ups both give
    [undefined], which are equal, and the question's points are earned. *)
Theorem absent_from_both_counts_correct (answers answerKey : list (string * value))
  (t : Evaluate.tally) (q number points total : value) (key : string) :
  JS.get q "number" = Ok number ->
  JS.toString_method number = Ok key ->
  JS.inherited key = false ->
  obj_get answers key = None -> obj_get answerKey key = None ->
  JS.get q "points" = Ok points ->
  JS.add (Evaluate.totalPoints t) points = Ok total ->
  exists t',
    Evaluate.score_question (VObj answers) (VObj answerKey) t q = Ok t'
    /\ Evaluate.correctCount t' = Evaluate.correctCount t + 1
    /\ Evaluate.totalPoints t' = total.
Proof.
  intros Hn Hk Hi Ha Hkey Hp Ht.
  assert (Hs : JS.to_string number = Ok key) by now apply toString_method_to_string.
  destruct (get_literal q "question" eq_refl) as [question Hq];
    [apply (get_ok_receiver q "number" number Hn) ..|].
  unfold Evaluate.score_question.
  rewrite Hn. cbn [bind].
  assert (G1 : JS.get_computed (VObj answers) number = Ok VUndefined).
  { cbn [JS.get_computed]. rewrite Hs. cbn [bind]. now rewrite Ha, Hi. }
  assert (G2 : JS.get_computed (VObj answerKey) (VStr key) = Ok VUndefined).
  { cbn [JS.get_computed JS.to_string bind]. now rewrite Hkey, Hi. }
  rewrite G1. cbn [bind]. rewrite Hk. cbn [bind]. rewrite G2. cbn [bind JS.strict_eq].
  rewrite Hp. cbn [bind]. rewrite Ht. cbn [bind]. rewrite Hq. cbn [bind].
  eexists. split; [reflexivity|]. split; reflexivity.
Qed.

Lemma absent_from_both_counts_correct_witness :
  exists t',
    Evaluate.score_question (VObj [("1", VStr "A")]) (VObj [("1", VStr "A")])
      empty_tally unkeyed_question
    = Ok t'
    /\ Evaluate.correctCount t' = Evaluate.correctCount empty_tally + 1
    /\ Evaluate.totalPoints t' = Evaluate.num 5.
Proof.
  apply (absent_from_both_counts_correct [("1", VStr "A")] [("1", VStr "A")]
           empty_tally unkeyed_question (Evaluate.num 7) (Evaluate.num 5)
           (Evaluate.num 5) "7");
    vm_compute; reflexivity.
Defined.

(** ** Answers that are not there *)

(** X12.  In the prompt for a mixed test, a question whose answer is
    missing from the submission, or is falsy, is listed with "No answer
    provided"; in the prompt for a case study the response to the task at
    position [i] (from 0) is looked up under [i + 1], and a missing or falsy
    one is listed as "No response provided". *)
Theorem missing_answers_are_marked (submission : value) :
  (forall q answers number given line,
     JS.get submission "answers" = Ok answers ->
     JS.get q "number" = Ok number ->
     JS.get_computed answers number = Ok given -> JS.truthy given = false ->
     Evaluate.test_question submission q = Ok line ->
     Str.includes line "Student Answer: No answer provided" = true)
  /\ (forall i task text responses given,
        JS.get submission "responses" = Ok responses ->
        JS.get_computed responses (Evaluate.num (i + 1)) = Ok given ->
        JS.truthy given = false ->
        JS.to_string task = Ok text ->
        Evaluate.task_response submission (i, task)
        = Ok ("Task " ++ Num.to_string (Num.of_Z (i + 1)) ++ ": " ++ text
              ++ String Str.LF "Response: No response provided")).
Proof.
  split.
  - intros q answers number given line Ha Hn Hg Tg H.
    unfold Evaluate.test_question in H. rewrite Ha in H. cbn [bind] in H.
    rewrite Hn in H. cbn [bind] in H. rewrite Hg in H. cbn [bind] in H.
    unfold JS.or in H. rewrite Tg in H.
    apply bind_ok in H as (n' & _ & H).
    apply bind_ok in H as (ty & _ & H).
    apply bind_ok in H as (question & _ & H).
    apply bind_ok in H as (answer & Ea & H).
    apply bind_ok in H as (points & _ & H).
    apply ok_inj in Ea. subst answer. apply ok_inj in H. subst line.
    match goal with
    | |- Str.includes (?a ++ ?b ++ ?c ++ ?d ++ ?e ++ _ ++ ?g ++ ?h) ?n = true =>
        replace (Str.includes _ n)
          with (Str.includes ((a ++ b ++ c ++ d ++ e ++ String Str.LF "   ") ++ n ++ h) n)
          by (now rewrite !StrFacts.app_assoc)
    end.
    apply includes_middle.
  - intros i task text responses given Hr Hg Tg Ht.
    unfold Evaluate.task_response. cbn [fst snd].
    rewrite Hr. cbn [bind]. rewrite Hg. cbn [bind].
    unfold JS.or. rewrite Tg, Ht. reflexivity.
Qed.

Lemma missing_answers_are_marked_witness :
  Evaluate.task_response (VObj [("responses", VObj [("1", VStr "Done.")])])
    (1, VStr "Weigh the options")
  = Ok ("Task 2: Weigh the options" ++ String Str.LF "Response: No response provided").
Proof.
  apply (proj2 (missing_answers_are_marked _) 1 (VStr "Weigh the options")
           "Weigh the options" (VObj [("1", VStr "Done.")]) VUndefined);
    reflexivity.
Defined.

(** ** The feedback of a successful evaluation *)

(** X13.  A successful evaluation returns the model's [rubricAssessment]
    array and [detailedFeedback] as they came, and as [feedback] the
    model's [overallFeedback], or "Evaluation complete." when that is
    missing or falsy: the feedback of a success is never empty. *)
Theorem evaluation_feedback (w : world) (req : request) (r : response)
  (calls : list call) :
  Evaluate.POST w req = (Some r, calls) -> status r = 200 ->
  exists prompt text data overall detailed items,
    calls = [(prompt, 2000)]
    /\ generateText w prompt 2000 = Ok text
    /\ extract_json "Could not parse evaluation data from AI response" text = Ok data
    /\ JS.get data "overallFeedback" = Ok overall
    /\ JS.get data "detailedFeedback" = Ok detailed
    /\ JS.get data "rubricAssessment" = Ok (VArr items)
    /\ result_field r "feedback" = Some (JS.or overall (VStr "Evaluation complete."))
    /\ JS.truthy (JS.or overall (VStr "Evaluation complete.")) = true
    /\ result_field r "detailedFeedback" = Some detailed
    /\ result_field r "rubricScores" = Some (VArr items).
Proof.
  intros H St.
  destruct (evaluate_success w req r calls H St)
    as (b & a & s & ty & prompt & text & _ & _ & _ & _ & _ & Hc & Hg & Hr).
  unfold Evaluate.results in Hr.
  apply bind_ok in Hr as (data & Hx & Hr).
  apply bind_ok in Hr as (ra & Hra & Hr).
  apply bind_ok in Hr as (ts & Hts & Hr).
  apply bind_ok in Hr as (ms & _ & Hr).
  apply bind_ok in Hr as (pct & _ & Hr).
  unfold Evaluate.success in Hr.
  apply bind_ok in Hr as (overall & Ho & Hr).
  apply bind_ok in Hr as (detailed & Hd & Hr).
  apply bind_ok in Hr as (ra' & Hra' & Hr).
  rewrite Hra in Hra'. apply ok_inj in Hra'. subst ra'.
  assert (exists items, ra = VArr items) as [items ->].
  { unfold Evaluate.total_score in Hts. apply bind_ok in Hts as (items & Ei & _).
    destruct ra; try discriminate. eauto. }
  apply ok_inj in Hr. subst r.
  exists prompt, text, data, overall, detailed, items.
  repeat (split; [first [assumption | reflexivity]|]).
  split; [|split; reflexivity].
  unfold JS.or. now destruct (JS.truthy overall) eqn:T.
Qed.

Lemma evaluation_feedback_witness :
  result_field
    (response_of
       (Evaluate.POST (model_replying (tpl "{ ~rubricAssessment~: [] }"))
          (essay_request "50")))
    "feedback"
  = Some (VStr "Evaluation complete.").
Proof.
  destruct (evaluation_feedback
              (model_replying (tpl "{ ~rubricAssessment~: [] }")) (essay_request "50")
              (response_of
                 (Evaluate.POST (model_replying (tpl "{ ~rubricAssessment~: [] }"))
                    (essay_request "50")))
              example_calls)
    as (prompt & text & data & overall & detailed & items & _);
    vm_compute; reflexivity.
Defined.

(** * The results panel *)

Lemma SFleb_trans (a b c : spec_float) :
  SFleb a b = true -> SFleb b c = true -> SFleb a c = true.
Proof.
  unfold SFleb, SFcompare.
  destruct a as [sa|sa| |sa ma ea], b as [sb|sb| |sb mb eb], c as [sc|sc| |sc mc ec];
    try discriminate; try reflexivity;
    repeat match goal with s : bool |- _ => destruct s end;
    try discriminate; try reflexivity;
    repeat match goal with
           | |- context [Pos.compare_cont Eq ?x ?y] =>
               change (Pos.compare_cont Eq x y) with (Pos.compare x y)
           end;
    destruct (Z.compare_spec ea eb), (Z.compare_spec eb ec), (Z.compare_spec ea ec);
    try discriminate; try reflexivity; try (exfalso; lia); subst;
    destruct (Pos.compare_spec ma mb), (Pos.compare_spec mb mc), (Pos.compare_spec ma mc);
    cbn; try discriminate; try reflexivity; exfalso; lia.
Qed.

(** X14.  The letter, the colour of the figure and the colour of a
    category's bar always come from the same band: the three sets of
    thresholds agree. *)
Theorem grade_letter_and_colors_agree (percentage : value) (letter : string) :
  Results.getGradeLetter percentage = Ok letter ->
  exists n color,
    JS.to_number percentage = Ok n
    /\ Results.getGradeColor percentage = Ok color
    /\ In (letter, (color, Results.bar_color n)) grade_bands.
Proof.
  unfold Results.getGradeLetter, Results.getGradeColor, Results.at_least.
  destruct (JS.to_number percentage) as [n|e|]; cbn [bind]; try discriminate.
  intros H. exists n. unfold Results.bar_color.
  destruct (SFleb (Num.of_Z 90) n);
    [apply ok_inj in H; subst letter; eexists; repeat split; cbn; auto|].
  destruct (SFleb (Num.of_Z 80) n);
    [apply ok_inj in H; subst letter; eexists; repeat split; cbn; auto|].
  destruct (SFleb (Num.of_Z 70) n);
    [apply ok_inj in H; subst letter; eexists; repeat split; cbn; auto|].
  destruct (SFleb (Num.of_Z 60) n);
    apply ok_inj in H; subst letter; eexists; repeat split; cbn; auto 6.
Qed.

Lemma grade_letter_and_colors_agree_witness :
  exists n color,
    JS.to_number (VNum (Num.of_Z 85)) = Ok n
    /\ Results.getGradeColor (VNum (Num.of_Z 85)) = Ok color
    /\ In ("B", (color, Results.bar_color n)) grade_bands.
Proof.
  apply grade_letter_and_colors_agree. reflexivity.
Defined.

(** X15.  A higher percentage never gets a worse letter. *)
Theorem higher_percentage_no_worse_grade (x y : Num.number) (lx ly : string) :
  SFleb x y = true ->
  Results.getGradeLetter (VNum x) = Ok lx ->
  Results.getGradeLetter (VNum y) = Ok ly ->
  grade_rank lx <= grade_rank ly.
Proof.
  intros L Hx Hy.
  assert (T : forall t, SFleb t x = true -> SFleb t y = true)
    by (intros t Ht; exact (SFleb_trans t x y Ht L)).
  unfold Results.getGradeLetter, Results.at_least in Hx, Hy.
  cbn [JS.to_number bind] in Hx, Hy.
  destruct (SFleb (Num.of_Z 90) x) eqn:A;
    [rewrite (T _ A) in Hy; apply ok_inj in Hx, Hy; subst; reflexivity|].
  destruct (SFleb (Num.of_Z 80) x) eqn:B.
  { rewrite (T _ B) in Hy. apply ok_inj in Hx. subst lx.
    destruct (SFleb (Num.of_Z 90) y); apply ok_inj in Hy; subst ly; cbn; lia. }
  destruct (SFleb (Num.of_Z 70) x) eqn:C.
  { rewrite (T _ C) in Hy. apply ok_inj in Hx. subst lx.
    destruct (SFleb (Num.of_Z 90) y), (SFleb (Num.of_Z 80) y);
      apply ok_inj in Hy; subst ly; cbn; lia. }
  destruct (SFleb (Num.of_Z 60) x) eqn:D.
  { rewrite (T _ D) in Hy. apply ok_inj in Hx. subst lx.
    destruct (SFleb (Num.of_Z 90) y), (SFleb (Num.of_Z 80) y), (SFleb (Num.of_Z 70) y);
      apply ok_inj in Hy; subst ly; cbn; lia. }
  apply ok_inj in Hx. subst lx.
  destruct (SFleb (Num.of_Z 90) y), (SFleb (Num.of_Z 80) y), (SFleb (Num.of_Z 70) y),
    (SFleb (Num.of_Z 60) y); apply ok_inj in Hy; subst ly; cbn; lia.
Qed.

Lemma higher_percentage_no_worse_grade_witness :
  grade_rank "C" <= grade_rank "A".
Proof.
  apply (higher_percentage_no_worse_grade (Num.of_Z 70) (Num.of_Z 95)); reflexivity.
Defined.

(** X16.  A percentage that is NaN or infinite, as a zero or absent
    [totalPoints] makes it, is serialised as [null] in the response, and the
    panel grades what it reads back as "F". *)
Theorem non_finite_percentage_graded_F (percentage : Num.number) :
  Num.is_finite percentage = false ->
  exists text received,
    JSON_stringify (VNum percentage) = Some text
    /\ JSON.parse text = Some received
    /\ Results.getGradeLetter received = Ok "F".
Proof.
  intros H. exists "null", VNull. cbn [JSON_stringify]. rewrite H.
  repeat split; reflexivity.
Qed.

Lemma non_finite_percentage_graded_F_witness :
  exists text received,
    JSON_stringify (VNum (S754_infinity false)) = Some text
    /\ JSON.parse text = Some received
    /\ Results.getGradeLetter received = Ok "F".
Proof.
  apply non_finite_percentage_graded_F. reflexivity.
Defined.

(** X17.  A category whose maximum is zero never has a finite percentage:
    its bar is green when its score is above zero and red otherwise. *)
Theorem zero_max_score_bar (item : value) (score : Num.number) :
  JS.get item "score" = Ok (VNum score) ->
  JS.get item "maxScore" = Ok (Evaluate.num 0) ->
  exists p,
    Results.itemPercentage item = Ok p
    /\ Num.is_finite p = false
    /\ Results.bar_color p
       = (if SFltb (Num.of_Z 0) score then "bg-green-500" else "bg-red-500").
Proof.
  intros Hs Hm. unfold Results.itemPercentage. rewrite Hs, Hm.
  cbn [bind JS.div JS.to_number Evaluate.num].
  eexists. split; [reflexivity|].
  destruct score as [[]|[]| |[] m e]; split; reflexivity.
Qed.

Lemma zero_max_score_bar_witness :
  exists p,
    Results.itemPercentage
      (VObj [("score", Evaluate.num 5); ("maxScore", Evaluate.num 0)]) = Ok p
    /\ Num.is_finite p = false
    /\ Results.bar_color p
       = (if SFltb (Num.of_Z 0) (Num.of_Z 5) then "bg-green-500" else "bg-red-500").
Proof.
  apply zero_max_score_bar; reflexivity.
Defined.

(** * The submission form *)

Lemma strict_eq_str (v : value) (k : string) :
  JS.strict_eq v (VStr k) = true -> v = VStr k.
Proof.
  destruct v; cbn; try discriminate.
  intros H. apply String.eqb_eq in H. now subst.
Qed.

Lemma filterM_nil {A : Type} (f : A -> result bool) (xs : list A) :
  filterM f xs = Ok [] -> Forall (fun x => f x = Ok false) xs.
Proof.
  induction xs as [|x r IH]; cbn [filterM]; intros H; [constructor|].
  apply bind_ok in H as (keep & Hk & H).
  apply bind_ok in H as (rest & Hr & H).
  apply ok_inj in H. destruct keep; [discriminate|]. subst rest.
  constructor; auto.
Qed.

Lemma no_length_nil {A : Type} (xs : list A) :
  (0 <? Z.of_nat (List.length xs)) = false -> xs = [].
Proof.
  destruct xs; [reflexivity|]. cbn [List.length]. intros H.
  apply Z.ltb_ge in H. lia.
Qed.

Lemma answers_submission_inv (kind : string) (answers : list (string * value))
  (questions s : value) :
  Submission.answers_submission kind answers questions = Ok (Submission.Submit s) ->
  s = VObj [("type", VStr kind); ("answers", VObj answers)]
  /\ exists qs, questions = VArr qs /\ Forall (answered (VObj answers)) qs.
Proof.
  unfold Submission.answers_submission, Submission.unanswered_questions.
  intros H. apply bind_ok in H as (un & Hu & H).
  apply bind_ok in Hu as (qs & Hq & Hu).
  destruct (0 <? Z.of_nat (List.length un)) eqn:L; [discriminate|].
  apply ok_inj in H. injection H as <-. split; [reflexivity|].
  destruct questions; try discriminate. apply ok_inj in Hq. subst xs.
  exists qs. split; [reflexivity|].
  apply no_length_nil in L. subst un. apply filterM_nil in Hu.
  eapply Forall_impl; [|exact Hu]. cbn beta. intros q Hq.
  apply bind_ok in Hq as (number & Hn & Hq).
  apply bind_ok in Hq as (given & Hg & Hq).
  apply ok_inj in Hq. exists number, given. repeat split; auto.
  now destruct (JS.truthy given).
Qed.

Lemma text_submission_inv (type : value) (text message : string) (s : value) :
  Submission.text_submission type text message = Submission.Submit s ->
  s = VObj [("type", type); ("text", VStr text)] /\ Str.trim text <> "".
Proof.
  unfold Submission.text_submission. cbn [JS.truthy].
  destruct (String.eqb (Str.trim text) "") eqn:E; cbn [negb]; [discriminate|].
  intros H. injection H as <-. split; [reflexivity|].
  now apply String.eqb_neq.
Qed.

(** The shapes a submission can have, with the branch that made it. *)
Lemma handleSubmit_inv (f : Submission.form) (assignment assignmentType s : value) :
  Submission.handleSubmit f assignment assignmentType = Ok (Submission.Submit s) ->
  (exists kind answers qs,
      In kind ["multiple-choice"; "test"]
      /\ assignmentType = VStr kind
      /\ Submission.has_property "questions" assignment = Ok true
      /\ JS.get assignment "questions" = Ok (VArr qs)
      /\ s = VObj [("type", assignmentType); ("answers", VObj answers)]
      /\ Forall (answered (VObj answers)) qs)
  \/ (exists ts,
        assignmentType = VStr "case-study"
        /\ Submission.has_property "tasks" assignment = Ok true
        /\ JS.get assignment "tasks" = Ok (VArr ts)
        /\ s = VObj [("type", assignmentType);
                     ("responses", VObj (Submission.caseStudyResponses f))]
        /\ Forall (fun it => responded (VObj (Submission.caseStudyResponses f)) (fst it))
                  (JS.enumerate 0 ts))
  \/ (s = VObj [("type", assignmentType); ("text", VStr (Submission.essayText f))]
      /\ Str.trim (Submission.essayText f) <> ""
      /\ forall kind field, In (kind, field) itemised_kinds ->
           assignmentType = VStr kind ->
           Submission.has_property field assignment = Ok false).
Proof.
  unfold Submission.handleSubmit, Submission.kind_with. intros H.
  destruct (JS.strict_eq assignmentType (VStr "multiple-choice")) eqn:Emc.
  { apply strict_eq_str in Emc. subst assignmentType.
    destruct (Submission.has_property "questions" assignment) as [[]|e|] eqn:Hp;
      cbn [bind] in H; try discriminate.
    - apply bind_ok in H as (questions & Hq & H).
      apply answers_submission_inv in H as (-> & qs & -> & Hall).
      left. exists "multiple-choice", (Submission.mcAnswers f), qs.
      cbn [In]. repeat split; auto.
    - cbn in H. apply ok_inj in H. apply text_submission_inv in H as (-> & Hne).
      right; right. repeat split; auto.
      intros kind field [E|[E|[E|[]]]] K; injection E as <- <-;
        (exact Hp || discriminate K). }
  cbn [bind] in H.
  destruct (JS.strict_eq assignmentType (VStr "essay")) eqn:Ees.
  { apply strict_eq_str in Ees. subst assignmentType.
    apply ok_inj in H. apply text_submission_inv in H as (-> & Hne).
    right; right. repeat split; auto.
    intros kind field [E|[E|[E|[]]]] K; injection E as <- <-; discriminate K. }
  destruct (JS.strict_eq assignmentType (VStr "test")) eqn:Ete.
  { apply strict_eq_str in Ete. subst assignmentType.
    destruct (Submission.has_property "questions" assignment) as [[]|e|] eqn:Hp;
      cbn [bind] in H; try discriminate.
    - apply bind_ok in H as (questions & Hq & H).
      apply answers_submission_inv in H as (-> & qs & -> & Hall).
      left. exists "test", (Submission.mixedAnswers f), qs.
      cbn [In]. repeat split; auto.
    - cbn in H. apply ok_inj in H. apply text_submission_inv in H as (-> & Hne).
      right; right. repeat split; auto.
      intros kind field [E|[E|[E|[]]]] K; injection E as <- <-;
        (exact Hp || discriminate K). }
  cbn [bind] in H.
  destruct (JS.strict_eq assignmentType (VStr "case-study")) eqn:Ecs.
  { apply strict_eq_str in Ecs. subst assignmentType.
    destruct (Submission.has_property "tasks" assignment) as [[]|e|] eqn:Hp;
      cbn [bind] in H; try discriminate.
    - apply bind_ok in H as (tasks & Ht & H).
      unfold Submission.unanswered_tasks in H.
      apply bind_ok in H as (un & Hu & H).
      apply bind_ok in Hu as (ts & Hts & Hu).
      destruct (0 <? Z.of_nat (List.length un)) eqn:L; [discriminate|].
      apply ok_inj in H. injection H as <-.
      destruct tasks; try discriminate. apply ok_inj in Hts. subst xs.
      right; left. exists ts. repeat split; auto.
      apply no_length_nil in L. subst un. apply filterM_nil in Hu.
      eapply Forall_impl; [|exact Hu]. cbn beta. intros it Hit.
      apply bind_ok in Hit as (given & Hg & Hit). apply ok_inj in Hit.
      exists given. split; auto. now destruct (JS.truthy given).
    - apply ok_inj in H. apply text_submission_inv in H as (-> & Hne).
      right; right. repeat split; auto.
      intros kind field [E|[E|[E|[]]]] K; injection E as <- <-;
        (exact Hp || discriminate K). }
  cbn [bind] in H. apply ok_inj in H.
  apply text_submission_inv in H as (-> & Hne).
  right; right. repeat split; auto.
  intros kind field [E|[E|[E|[]]]] K; injection E as <- <-; subst assignmentType;
    cbn in Emc, Ete, Ecs; discriminate.
Qed.

(** X18.  A submission the form hands over names the assignment type it
    was given as its own type; so the route's test of a kind, which looks
    at both, comes down to the assignment type alone. *)
Theorem submission_type_matches (f : Submission.form)
  (assignment assignmentType s : value) :
  Submission.handleSubmit f assignment assignmentType = Ok (Submission.Submit s) ->
  JS.get s "type" = Ok assignmentType
  /\ forall kind,
       Evaluate.both_are kind assignmentType s
       = Ok (JS.strict_eq assignmentType (VStr kind)).
Proof.
  intros H.
  assert (T : JS.get s "type" = Ok assignmentType).
  { apply handleSubmit_inv in H
      as [(kind & answers & qs & _ & _ & _ & _ & -> & _)
         |[(ts & _ & _ & _ & -> & _) | (-> & _)]]; reflexivity. }
  split; [exact T|]. intros kind. unfold Evaluate.both_are. rewrite T.
  cbn [bind]. now destruct (JS.strict_eq assignmentType (VStr kind)).
Qed.

Lemma submission_type_matches_witness :
  JS.get (VObj [("type", VStr "essay"); ("text", VStr "My essay.")]) "type"
  = Ok (VStr "essay")
  /\ forall kind,
       Evaluate.both_are kind (VStr "essay")
         (VObj [("type", VStr "essay"); ("text", VStr "My essay.")])
       = Ok (JS.strict_eq (VStr "essay") (VStr kind)).
Proof.
  apply (submission_type_matches (form_with_text "My essay.") sample_assignment).
  vm_compute. reflexivity.
Defined.

Lemma safe_type_listed (assignmentType : value) :
  exists k, In k Display.validTypes
            /\ Display.safeAssignmentType assignmentType = VStr k.
Proof.
  unfold Display.safeAssignmentType.
  destruct (existsb _ Display.validTypes) eqn:E.
  - apply existsb_exists in E as (k & Hin & Hk). exists k. split; [exact Hin|].
    destruct assignmentType; cbn in Hk; try discriminate.
    apply String.eqb_eq in Hk. now subst.
  - exists "case-study". split; [cbn; auto | reflexivity].
Qed.

(** X19.  Whatever type the display is given, a submission that leaves
    its form names one of the six listed types, and the form was opened for
    that same type. *)
Theorem form_sends_listed_type (f : Submission.form)
  (assignment assignmentType s : value) :
  Submission.handleSubmit f assignment (Display.safeAssignmentType assignmentType)
  = Ok (Submission.Submit s) ->
  exists k,
    In k Display.validTypes
    /\ Display.safeAssignmentType assignmentType = VStr k
    /\ JS.get s "type" = Ok (VStr k).
Proof.
  intros H. destruct (safe_type_listed assignmentType) as (k & Hin & Hk).
  exists k. repeat split; auto. rewrite Hk in H.
  apply handleSubmit_inv in H
    as [(kind & answers & qs & _ & _ & _ & _ & -> & _)
       |[(ts & _ & _ & _ & -> & _) | (-> & _)]]; reflexivity.
Qed.

Lemma form_sends_listed_type_witness :
  exists k,
    In k Display.validTypes
    /\ Display.safeAssignmentType (VStr "homework") = VStr k
    /\ JS.get (VObj [("type", VStr "case-study");
                     ("responses", VObj [("1", VStr "Them"); ("2", VStr "This")])])
              "type" = Ok (VStr k).
Proof.
  apply (form_sends_listed_type
           (form_with_responses [("1", VStr "Them"); ("2", VStr "This")])
           sample_assignment).
  vm_compute. reflexivity.
Defined.

(** X20.  A multiple-choice or test submission leaves the form in one of
    two shapes only: with the answers, every question of the assignment
    having one that is not empty; or, when the assignment has no
    [questions], with the text that was typed, which is not blank. *)
Theorem submitted_answers_complete (f : Submission.form)
  (assignment s : value) (kind : string) :
  In kind ["multiple-choice"; "test"] ->
  Submission.handleSubmit f assignment (VStr kind) = Ok (Submission.Submit s) ->
  (exists qs answers,
      JS.get assignment "questions" = Ok (VArr qs)
      /\ s = VObj [("type", VStr kind); ("answers", answers)]
      /\ Forall (answered answers) qs)
  \/ (Submission.has_property "questions" assignment = Ok false
      /\ s = VObj [("type", VStr kind); ("text", VStr (Submission.essayText f))]
      /\ Str.trim (Submission.essayText f) <> "").
Proof.
  intros Hk H.
  apply handleSubmit_inv in H
    as [(kind' & answers & qs & _ & _ & _ & Hqs & -> & Hall)
       |[(ts & Hcs & _) | (-> & Hne & Hno)]].
  - left. exists qs, (VObj answers). repeat split; auto.
  - destruct Hk as [<-|[<-|[]]]; discriminate Hcs.
  - right. repeat split; auto.
    destruct Hk as [<-|[<-|[]]];
      [apply (Hno "multiple-choice") | apply (Hno "test")]; cbn; auto.
Qed.

Lemma submitted_answers_complete_witness :
  (exists qs answers,
      JS.get (quiz "multiple-choice" 5 5) "questions" = Ok (VArr qs)
      /\ quiz_submission "multiple-choice" "C"
         = VObj [("type", VStr "multiple-choice"); ("answers", answers)]
      /\ Forall (answered answers) qs)
  \/ (Submission.has_property "questions" (quiz "multiple-choice" 5 5) = Ok false
      /\ quiz_submission "multiple-choice" "C"
         = VObj [("type", VStr "multiple-choice");
                 ("text",
                  VStr (Submission.essayText
                          (form_with_answers [("1", VStr "A"); ("2", VStr "C")])))]
      /\ Str.trim (Submission.essayText
                     (form_with_answers [("1", VStr "A"); ("2", VStr "C")])) <> "").
Proof.
  apply (submitted_answers_complete
           (form_with_answers [("1", VStr "A"); ("2", VStr "C")])
           (quiz "multiple-choice" 5 5)
           (quiz_submission "multiple-choice" "C") "multiple-choice").
  - cbn. auto.
  - vm_compute. reflexivity.
Defined.

Lemma Forall_enumerate {A : Type} (P : Z -> Prop) (xs : list A) (k : Z) :
  Forall (fun it => P (fst it)) (JS.enumerate k xs) ->
  forall i, (i < List.length xs)%nat -> P (k + Z.of_nat i).
Proof.
  revert k. induction xs as [|x r IH]; intros k H i Hi; [cbn in Hi; lia|].
  cbn [JS.enumerate] in H. inversion H as [|? ? Hx Hr]; subst.
  destruct i as [|i].
  - cbn [fst] in Hx. now replace (k + Z.of_nat 0) with k by lia.
  - replace (k + Z.of_nat (S i)) with ((k + 1) + Z.of_nat i) by lia.
    apply IH; [exact Hr | cbn in Hi; lia].
Qed.

(** X21.  A case-study submission leaves the form in one of two shapes
    only: with the responses, every task of the assignment having one
    that is not empty, stored under the task's 1-based position; or, when
    the assignment has no [tasks], with the text that was typed, which is
    not blank. *)
Theorem submitted_responses_complete (f : Submission.form) (assignment s : value) :
  Submission.handleSubmit f assignment (VStr "case-study")
  = Ok (Submission.Submit s) ->
  (exists ts responses,
      JS.get assignment "tasks" = Ok (VArr ts)
      /\ s = VObj [("type", VStr "case-study"); ("responses", responses)]
      /\ forall i, (i < List.length ts)%nat -> responded responses (Z.of_nat i))
  \/ (Submission.has_property "tasks" assignment = Ok false
      /\ s = VObj [("type", VStr "case-study");
                   ("text", VStr (Submission.essayText f))]
      /\ Str.trim (Submission.essayText f) <> "").
Proof.
  intros H.
  apply handleSubmit_inv in H
    as [(kind' & answers & qs & Hk & E & _)
       |[(ts & _ & _ & Hts & -> & Hall) | (-> & Hne & Hno)]].
  - destruct Hk as [<-|[<-|[]]]; discriminate E.
  - left. exists ts, (VObj (Submission.caseStudyResponses f)). repeat split; auto.
    intros i Hi.
    exact (Forall_enumerate
             (responded (VObj (Submission.caseStudyResponses f))) ts 0 Hall i Hi).
  - right. repeat split; auto. apply (Hno "case-study" "tasks"); cbn; auto.
Qed.

Lemma submitted_responses_complete_witness :
  (exists ts responses,
      JS.get sample_assignment "tasks" = Ok (VArr ts)
      /\ VObj [("type", VStr "case-study");
               ("responses", VObj [("1", VStr "Them"); ("2", VStr "This")])]
         = VObj [("type", VStr "case-study"); ("responses", responses)]
      /\ forall i, (i < List.length ts)%nat -> responded responses (Z.of_nat i))
  \/ (Submission.has_property "tasks" sample_assignment = Ok false
      /\ VObj [("type", VStr "case-study");
               ("responses", VObj [("1", VStr "Them"); ("2", VStr "This")])]
         = VObj [("type", VStr "case-study");
                 ("text",
                  VStr (Submission.essayText
                          (form_with_responses
                             [("1", VStr "Them"); ("2", VStr "This")])))]
      /\ Str.trim (Submission.essayText
                     (form_with_responses [("1", VStr "Them"); ("2", VStr "This")]))
         <> "").
Proof.
  apply (submitted_responses_complete
           (form_with_responses [("1", VStr "Them"); ("2", VStr "This")])).
  vm_compute. reflexivity.
Defined.

(** X22.  Text is submitted only as it was typed and only when it is not
    blank: a submission with a text has the text of the form, and that
    text has something other than white space in it. *)
Theorem blank_text_not_submitted (f : Submission.form)
  (assignment assignmentType s : value) (text : string) :
  Submission.handleSubmit f assignment assignmentType = Ok (Submission.Submit s) ->
  JS.get s "text" = Ok (VStr text) ->
  text = Submission.essayText f /\ Str.trim text <> "".
Proof.
  intros H T.
  apply handleSubmit_inv in H
    as [(kind' & answers & qs & _ & _ & _ & _ & -> & _)
       |[(ts & _ & _ & _ & -> & _) | (-> & Hne & _)]];
    cbn in T; try discriminate.
  apply ok_inj in T. injection T as <-. auto.
Qed.

Lemma blank_text_not_submitted_witness :
  "My essay." = Submission.essayText (form_with_text "My essay.")
  /\ Str.trim "My essay." <> "".
Proof.
  apply (blank_text_not_submitted (form_with_text "My essay.") sample_assignment
           (VStr "essay") (VObj [("type", VStr "essay"); ("text", VStr "My essay.")])).
  - vm_compute. reflexivity.
  - reflexivity.
Defined.

(** * The form and the evaluation route together *)

(** A request that passes the checks and for which no prompt can be
    written is answered with a 500, and no call is made. *)
Lemma evaluate_prompt_throw (w : world) (req : request)
  (b assignment submission ty : value) (e : exn) :
  JSON.parse (body req) = Some b ->
  JS.get b "assignment" = Ok assignment ->
  JS.get b "submission" = Ok submission ->
  JS.get b "assignmentType" = Ok ty ->
  JS.truthy assignment = true ->
  JS.truthy submission = true ->
  JS.truthy ty = true ->
  Evaluate.evaluation_prompt assignment submission ty = Throw e ->
  exists r, Evaluate.POST w req = (Some r, []) /\ status r = 500.
Proof.
  intros Hb Ha Hs Ht Ta Ts Tt Hp.
  run_handler. rewrite Hb, Ha, Hs, Ht, Ta, Ts, Tt. cbn [negb].
  destruct (no_api_key w); [eexists; split; reflexivity|].
  rewrite Hp. eexists; split; [reflexivity | apply evaluate_failure_status].
Qed.

Lemma to_string_within (v : value) : JS.to_string v <> Beyond.
Proof.
  revert v. fix IH 1. intros v.
  destruct v as [ | |b|n|s|xs|fs]; cbn [JS.to_string]; try discriminate.
  - match goal with
    | |- bind (?elems xs) _ <> _ => assert (E : elems xs <> Beyond)
    end.
    { induction xs as [|x r IHr]; [discriminate|].
      assert (X : match x with
                  | VUndefined | VNull => Ok ""%string
                  | _ => JS.to_string x
                  end <> Beyond).
      { pose proof (IH x) as Hx. destruct x; try discriminate; exact Hx. }
      destruct (match x with
                | VUndefined | VNull => Ok ""%string
                | _ => JS.to_string x
                end) as [sx|e|]; cbn [bind]; [|discriminate|contradiction].
      match goal with
      | |- bind ?m _ <> _ => destruct m; cbn [bind]; [discriminate|discriminate|contradiction]
      end. }
    match goal with
    | |- bind ?m _ <> _ => destruct m; cbn [bind]; [discriminate|discriminate|contradiction]
    end.
  - destruct (JS.has_own fs "toString"); discriminate.
Qed.

Lemma subst_get_settles (a : value) (k : string) :
  JS.inherited k = false -> a <> VNull -> a <> VUndefined ->
  (exists text, Evaluate.subst (JS.get a k) = Ok text)
  \/ (exists e, Evaluate.subst (JS.get a k) = Throw e).
Proof.
  intros Hk N U. destruct (get_literal a k Hk N U) as [v Hv].
  unfold Evaluate.subst. rewrite Hv. cbn [bind].
  pose proof (to_string_within v) as T.
  destruct (JS.to_string v); [left|right|contradiction]; eauto.
Qed.

Lemma absent_property (field : string) (a : value) :
  Submission.has_property field a = Ok false ->
  JS.get a field = Ok VUndefined /\ JS.truthy a = true
  /\ a <> VNull /\ a <> VUndefined.
Proof.
  destruct a as [ | |b|n|s|xs|fs]; try (cbn; discriminate);
    cbn [Submission.has_property JS.get JS.truthy].
  - intros H. apply ok_inj in H. rewrite H. repeat split; discriminate.
  - unfold JS.has_own. destruct (obj_get fs field); [discriminate|].
    destruct (JS.inherited field); [discriminate|]. repeat split; discriminate.
Qed.

Lemma itemless_prompt_throws (a : value) (kind field text : string) :
  In (kind, field) itemised_kinds ->
  Submission.has_property field a = Ok false ->
  exists e,
    Evaluate.evaluation_prompt a (VObj [("type", VStr kind); ("text", VStr text)])
      (VStr kind) = Throw e.
Proof.
  intros Hin Hno. apply absent_property in Hno as (G & _ & N & U).
  unfold Evaluate.evaluation_prompt.
  destruct Hin as [E|[E|[E|[]]]]; injection E as <- <-.
  - change (Evaluate.both_are "multiple-choice" (VStr "multiple-choice")
              (VObj [("type", VStr "multiple-choice"); ("text", VStr text)]))
      with (@Ok bool true).
    cbn [bind]. unfold Evaluate.multiple_choice_prompt. rewrite G. cbn [bind].
    change (JS.get (VObj [("type", VStr "multiple-choice"); ("text", VStr text)]) "answers")
      with (Ok VUndefined).
    cbn [bind].
    destruct (get_literal a "answerKey" eq_refl N U) as [ak Hak]. rewrite Hak.
    cbn [bind JS.as_array]. eexists; reflexivity.
  - change (Evaluate.both_are "multiple-choice" (VStr "test")
              (VObj [("type", VStr "test"); ("text", VStr text)]))
      with (@Ok bool false).
    change (Evaluate.both_are "essay" (VStr "test")
              (VObj [("type", VStr "test"); ("text", VStr text)]))
      with (@Ok bool false).
    change (Evaluate.both_are "test" (VStr "test")
              (VObj [("type", VStr "test"); ("text", VStr text)]))
      with (@Ok bool true).
    cbn [bind]. unfold Evaluate.test_prompt.
    destruct (subst_get_settles a "title" eq_refl N U) as [[t Ht]|[e He]];
      [rewrite Ht | rewrite He; eexists; reflexivity].
    cbn [bind]. rewrite G. cbn [bind JS.as_array]. eexists; reflexivity.
  - change (Evaluate.both_are "multiple-choice" (VStr "case-study")
              (VObj [("type", VStr "case-study"); ("text", VStr text)]))
      with (@Ok bool false).
    change (Evaluate.both_are "essay" (VStr "case-study")
              (VObj [("type", VStr "case-study"); ("text", VStr text)]))
      with (@Ok bool false).
    change (Evaluate.both_are "test" (VStr "case-study")
              (VObj [("type", VStr "case-study"); ("text", VStr text)]))
      with (@Ok bool false).
    change (Evaluate.both_are "case-study" (VStr "case-study")
              (VObj [("type", VStr "case-study"); ("text", VStr text)]))
      with (@Ok bool true).
    cbn [bind]. unfold Evaluate.case_study_prompt.
    destruct (subst_get_settles a "title" eq_refl N U) as [[t Ht]|[e He]];
      [rewrite Ht | rewrite He; eexists; reflexivity].
    cbn [bind].
    destruct (subst_get_settles a "scenario" eq_refl N U) as [[sc Hsc]|[e He]];
      [rewrite Hsc | rewrite He; eexists; reflexivity].
    cbn [bind]. rewrite G. cbn [bind JS.as_array]. eexists; reflexivity.
Qed.

(** X23.  For a multiple-choice, test or case-study assignment that has
    no list of questions or tasks, the form takes free text instead; the
    evaluation route then reads the missing list, and every such
    submission is answered with a 500 without the model being called. *)
Theorem itemless_submission_fails (w : world) (req : request)
  (b assignment s : value) (f : Submission.form) (kind field : string) :
  In (kind, field) itemised_kinds ->
  Submission.has_property field assignment = Ok false ->
  Submission.handleSubmit f assignment (VStr kind) = Ok (Submission.Submit s) ->
  JSON.parse (body req) = Some b ->
  JS.get b "assignment" = Ok assignment ->
  JS.get b "submission" = Ok s ->
  JS.get b "assignmentType" = Ok (VStr kind) ->
  exists r, Evaluate.POST w req = (Some r, []) /\ status r = 500.
Proof.
  intros Hin Hno Hf Hb Ha Hs Ht.
  assert (S : s = VObj [("type", VStr kind); ("text", VStr (Submission.essayText f))]).
  { apply handleSubmit_inv in Hf
      as [(kind' & answers & qs & Hk & E & Hq & _)
         |[(ts & E & Hq & _) | (-> & _)]]; [| |reflexivity]; exfalso.
    - injection E as ->.
      destruct Hk as [<-|[<-|[]]];
        destruct Hin as [E|[E|[E|[]]]]; try discriminate E; injection E as <-;
        rewrite Hq in Hno; discriminate.
    - injection E as ->.
      destruct Hin as [E|[E|[E|[]]]]; try discriminate E; injection E as <-;
        rewrite Hq in Hno; discriminate. }
  destruct (itemless_prompt_throws assignment kind field (Submission.essayText f) Hin Hno)
    as [e He].
  rewrite <- S in He.
  apply absent_property in Hno as (_ & Ta & _).
  apply (evaluate_prompt_throw w req b assignment s (VStr kind) e); auto.
  - subst s. reflexivity.
  - destruct Hin as [E|[E|[E|[]]]]; injection E as <- <-; reflexivity.
Qed.

Lemma itemless_submission_fails_witness :
  exists r,
    Evaluate.POST (model_replying graded_reply) itemless_request = (Some r, [])
    /\ status r = 500.
Proof.
  apply (itemless_submission_fails
           (model_replying graded_reply) itemless_request
           (VObj [("assignment", itemless_assignment);
                  ("submission", VObj [("type", VStr "multiple-choice");
                                       ("text", VStr "My answers.")]);
                  ("assignmentType", VStr "multiple-choice")])
           itemless_assignment
           (VObj [("type", VStr "multiple-choice"); ("text", VStr "My answers.")])
           (form_with_text "My answers.") "multiple-choice" "questions").
  - cbn. auto.
  - reflexivity.
  - vm_compute. reflexivity.
  - vm_compute. reflexivity.
  - reflexivity.
  - reflexivity.
  - reflexivity.
Defined.

(** * Answering and submitting *)

Lemma obj_get_set_same (fs : list (string * value)) (k : string) (v : value) :
  obj_get (obj_set fs k v) k = Some v.
Proof.
  induction fs as [|[k1 v1] r IH]; cbn [obj_set obj_get].
  - now rewrite String.eqb_refl.
  - destruct (String.eqb k1 k) eqn:E; cbn [obj_get]; rewrite E; auto.
Qed.

Lemma obj_get_set_other (fs : list (string * value)) (k k' : string) (v : value) :
  k' <> k -> obj_get (obj_set fs k v) k' = obj_get fs k'.
Proof.
  intros N. induction fs as [|[k1 v1] r IH]; cbn [obj_set obj_get].
  - apply String.eqb_neq in N. rewrite String.eqb_sym in N. now rewrite N.
  - destruct (String.eqb k1 k) eqn:E; cbn [obj_get].
    + apply String.eqb_eq in E. subst k1.
      apply String.eqb_neq in N. rewrite String.eqb_sym in N. now rewrite N.
    + destruct (String.eqb k1 k'); auto.
Qed.

Lemma filled_set (fs : list (string * value)) (k chosen : string) :
  filled fs -> chosen <> "" -> filled (obj_set fs k (VStr chosen)).
Proof.
  intros F N k' v H. destruct (string_dec k' k) as [->|D].
  - rewrite obj_get_set_same in H. injection H as <-. cbn.
    apply String.eqb_neq in N. now rewrite N.
  - rewrite obj_get_set_other in H by exact D. eauto.
Qed.

Lemma choices_recorded (choices : list (value * string))
  (start final : list (string * value)) :
  foldM (fun answers choice =>
           Submission.record_answer answers (fst choice) (snd choice))
        choices start = Ok final ->
  Forall (fun choice => snd choice <> "") choices ->
  filled start ->
  filled final
  /\ (forall k, obj_get start k <> None -> obj_get final k <> None)
  /\ (forall number chosen, In (number, chosen) choices ->
        exists k, JS.to_string number = Ok k /\ obj_get final k <> None).
Proof.
  revert start. induction choices as [|[n c] r IH]; intros start H Hne F.
  - cbn in H. apply ok_inj in H. subst final. repeat split; auto.
    intros number chosen [].
  - cbn [foldM fst snd] in H. apply bind_ok in H as (next & Hn & H).
    unfold Submission.record_answer in Hn.
    apply bind_ok in Hn as (k & Hk & Hn). apply ok_inj in Hn. subst next.
    inversion Hne as [|? ? Hc Hr]; subst. cbn [snd] in Hc.
    destruct (IH _ H Hr (filled_set start k c F Hc)) as (F' & Keep & All).
    assert (Kept : forall k', obj_get (obj_set start k (VStr c)) k' <> None ->
                              obj_get final k' <> None) by exact Keep.
    repeat split; auto.
    + intros k' Hk'. apply Keep. destruct (string_dec k' k) as [->|D].
      * now rewrite obj_get_set_same.
      * now rewrite obj_get_set_other by exact D.
    + intros number chosen [E|Hin].
      * injection E as <- <-. exists k. split; [exact Hk|].
        apply Keep. now rewrite obj_get_set_same.
      * eauto.
Qed.

Lemma filterM_none {A : Type} (f : A -> result bool) (xs : list A) :
  Forall (fun x => f x = Ok false) xs -> filterM f xs = Ok [].
Proof.
  induction 1 as [|x r Hx Hr IH]; cbn [filterM]; [reflexivity|].
  rewrite Hx, IH. reflexivity.
Qed.

(** X24.  Once an answer that is not empty has been chosen for every
    question of a multiple-choice assignment, in any order and however
    often it was changed, the form submits: it hands over the record of
    answers as it stands and raises no alert. *)
Theorem answering_every_question_submits (f : Submission.form)
  (assignment : value) (qs : list value) (choices : list (value * string)) :
  JS.get assignment "questions" = Ok (VArr qs) ->
  after_choices choices = Ok (Submission.mcAnswers f) ->
  Forall (fun choice => snd choice <> "") choices ->
  Forall (fun q => exists number chosen,
                     JS.get q "number" = Ok number
                     /\ In (number, chosen) choices) qs ->
  Submission.handleSubmit f assignment (VStr "multiple-choice")
  = Ok (Submission.Submit
          (VObj [("type", VStr "multiple-choice");
                 ("answers", VObj (Submission.mcAnswers f))])).
Proof.
  intros Hq Hc Hne Hall.
  assert (P : Submission.has_property "questions" assignment = Ok true).
  { destruct assignment as [ | |b|n|s|xs|fs]; try (cbn in Hq; discriminate Hq).
    cbn [JS.get] in Hq. cbn [Submission.has_property]. unfold JS.has_own.
    destruct (obj_get fs "questions"); [reflexivity|].
    cbn in Hq. discriminate Hq. }
  destruct (choices_recorded choices [] (Submission.mcAnswers f) Hc Hne)
    as (F & _ & All); [intros k v; discriminate|].
  unfold Submission.handleSubmit, Submission.kind_with.
  change (JS.strict_eq (VStr "multiple-choice") (VStr "multiple-choice")) with true.
  cbv iota. rewrite P. cbn [bind]. rewrite Hq. cbn [bind].
  unfold Submission.answers_submission, Submission.unanswered_questions.
  cbn [JS.as_array bind]. rewrite filterM_none; [reflexivity|].
  eapply Forall_impl; [|exact Hall]. cbn beta.
  intros q (number & chosen & Hn & Hin). rewrite Hn. cbn [bind].
  destruct (All number chosen Hin) as (k & Hk & Hset).
  cbn [JS.get_computed]. rewrite Hk. cbn [bind].
  destruct (obj_get (Submission.mcAnswers f) k) as [given|] eqn:G; [|contradiction].
  cbn [bind]. now rewrite (F k given G).
Qed.

Lemma answering_every_question_submits_witness :
  Submission.handleSubmit (form_with_answers [("2", VStr "C"); ("1", VStr "A")])
    (quiz "multiple-choice" 5 5) (VStr "multiple-choice")
  = Ok (Submission.Submit
          (VObj [("type", VStr "multiple-choice");
                 ("answers", VObj [("2", VStr "C"); ("1", VStr "A")])])).
Proof.
  apply (answering_every_question_submits
           (form_with_answers [("2", VStr "C"); ("1", VStr "A")])
           (quiz "multiple-choice" 5 5) (quiz_questions 5 5)
           [(Evaluate.num 2, "B"); (Evaluate.num 1, "A"); (Evaluate.num 2, "C")]).
  - reflexivity.
  - vm_compute. reflexivity.
  - repeat constructor; discriminate.
  - repeat constructor.
    + exists (Evaluate.num 1), "A". split; [reflexivity | cbn; auto].
    + exists (Evaluate.num 2), "C". split; [reflexivity | cbn; auto].
Defined.

(** * The routes and the browser *)

Lemma generate_failure_reported (e : exn) : reported (Generate.failure e).
Proof. destruct e; eexists; (split; [reflexivity | discriminate]). Qed.

Lemma evaluate_failure_reported (e : exn) : reported (Evaluate.failure e).
Proof. destruct e; eexists; (split; [reflexivity | discriminate]). Qed.

Ltac reports :=
  let H := fresh in
  intros H; injection H as <- _; right; split;
  [ first [ now left | now right
          | right; apply generate_failure_status
          | right; apply evaluate_failure_status ]
  | first [ apply generate_failure_reported
          | apply evaluate_failure_reported
          | eexists; split; [reflexivity | discriminate] ] ].

(** Every response of the generation route is a success, with status 200
    and the assignment in its payload, or reports an error with status 400
    or 500. *)
Lemma generate_responses (w : world) (req : request) (x : response) (calls : list call) :
  Generate.POST w req = (Some x, calls) ->
  (status x = 200
   /\ exists data query type,
        payload x = VObj [("success", VBool true); ("assignment", data);
                          ("query", query); ("assignmentType", type)])
  \/ ((status x = 400 \/ status x = 500) /\ reported x).
Proof.
  run_handler.
  destruct (JSON.parse (body req)) as [b|]; [|reports].
  destruct (JS.get b "query") as [query|e|]; [|reports|discriminate].
  destruct (JS.get b "assignmentType") as [given|e|]; [|reports|discriminate].
  destruct (Generate.query_rejected query); [reports|].
  destruct (Generate.is_valid_type _); cbn [negb]; [|reports].
  destruct (no_api_key w); [reports|].
  destruct (JS.to_string query) as [q|e|]; [|reports|discriminate].
  destruct (generateText w _ 3000) as [text|e|]; [|reports|discriminate].
  destruct (Generate.generated _ _ text) as [r|e|] eqn:G; [|reports|discriminate].
  intros H. injection H as <- _. left.
  unfold Generate.generated in G. apply bind_ok in G as (data & _ & G).
  apply ok_inj in G. subst r. split; [reflexivity|]. do 3 eexists. reflexivity.
Qed.

(** Every response of the evaluation route is a success, with status 200
    and an object of results in its payload, or reports an error with
    status 400 or 500. *)
Lemma evaluate_responses (w : world) (req : request) (x : response) (calls : list call) :
  Evaluate.POST w req = (Some x, calls) ->
  (status x = 200
   /\ exists fields,
        payload x = VObj [("success", VBool true); ("results", VObj fields)])
  \/ ((status x = 400 \/ status x = 500) /\ reported x).
Proof.
  run_handler.
  destruct (JSON.parse (body req)) as [b|]; [|reports].
  destruct (JS.get b "assignment") as [assignment|e|]; [|reports|discriminate].
  destruct (JS.get b "submission") as [submission|e|]; [|reports|discriminate].
  destruct (JS.get b "assignmentType") as [ty|e|]; [|reports|discriminate].
  destruct (JS.truthy assignment); cbn [negb]; [|reports].
  destruct (JS.truthy submission); cbn [negb]; [|reports].
  destruct (JS.truthy ty); cbn [negb]; [|reports].
  destruct (no_api_key w); [reports|].
  destruct (Evaluate.evaluation_prompt assignment submission ty) as [prompt|e|];
    [|reports|discriminate].
  destruct (generateText w prompt 2000) as [text|e|]; [|reports|discriminate].
  destruct (Evaluate.results assignment text) as [r|e|] eqn:G; [|reports|discriminate].
  intros H. injection H as <- _. left.
  destruct (results_shape _ _ _ G)
    as (? & ? & ? & ? & ? & _ & _ & _ & _ & _ & ? & ? & ->).
  split; [reflexivity|]. eexists. reflexivity.
Qed.

(** * The page *)

Lemma success_and_truthy (data : value) (k : string) (shown : value) :
  success_and data k = Ok shown -> JS.truthy shown = true ->
  JS.get data k = Ok shown
  /\ exists success, JS.get data "success" = Ok success /\ JS.truthy success = true.
Proof.
  unfold success_and. intros H T. apply bind_ok in H as (success & Hs & H).
  destruct (JS.truthy success) eqn:E.
  - split; [exact H|]. eauto.
  - apply ok_inj in H. subst shown. rewrite E in T. discriminate.
Qed.

Lemma throw_error_of_throws {A : Type} (data : value) (otherwise : string) (a : A) :
  @throw_error_of A data otherwise <> Ok a.
Proof.
  unfold throw_error_of.
  destruct (JS.get data "error") as [e| |]; cbn [bind]; try discriminate.
  destruct (JS.to_string _); discriminate.
Qed.

Lemma home_received_inv (p : Home.page) (r : fetched) (a q t : value) :
  Home.received p r = Ok (a, q, t) ->
  JS.truthy a = true
  /\ ok r = true
  /\ exists data success,
       json r = Ok data
       /\ JS.get data "success" = Ok success /\ JS.truthy success = true
       /\ JS.get data "assignment" = Ok a.
Proof.
  unfold Home.received. intros H. apply bind_ok in H as (data & Hd & H).
  destruct (ok r); cbn [negb] in H;
    [|now apply throw_error_of_throws in H].
  apply bind_ok in H as (shown & Hs & H).
  destruct (JS.truthy shown) eqn:T; [|discriminate].
  destruct (success_and_truthy _ _ _ Hs T) as (Ha & success & Hsc & Tsc).
  rewrite Ha in H. cbn [bind] in H.
  apply bind_ok in H as (q' & _ & H). apply bind_ok in H as (t' & _ & H).
  apply ok_inj in H. injection H as <- _ _.
  repeat split; auto. exists data, success. auto.
Qed.

(** X25.  Whatever the network does, generating ends in one of two
    states: an assignment to show and no error, or an error and no
    assignment.  A blank query sends nothing; any other query sends one
    request, with the query and the type as typed, and the page is no
    longer loading afterwards. *)
Theorem generation_outcome (fetch : transport) (p p' : Home.page)
  (log : list (string * string)) :
  Home.handleGenerateAssignment fetch p = Some (p', log) ->
  ((Home.error p' = None /\ JS.truthy (Home.assignment p') = true)
   \/ (Home.error p' <> None /\ Home.assignment p' = VNull))
  /\ (if Home.blank (Home.searchQuery p) then log = []
      else log = [("/api/generate", Home.generate_body p)]
           /\ Home.isGenerating p' = false).
Proof.
  unfold Home.handleGenerateAssignment.
  destruct (Home.blank (Home.searchQuery p)).
  { intros H. injection H as <- <-. split; [right; split; [discriminate|]|]; reflexivity. }
  cbn [fst snd].
  destruct (fetch "/api/generate" (Home.generate_body p)) as [r|e|]; cbn [bind].
  - destruct (Home.received p r) as [[[a q] t]|e|] eqn:R; intros H; try discriminate;
      injection H as <- <-; cbn.
    + apply home_received_inv in R as (T & _). auto.
    + split; [right; split; [discriminate|]|]; auto.
  - intros H. injection H as <- <-. cbn.
    split; [right; split; [discriminate|]|]; auto.
  - discriminate.
Qed.

Lemma generation_outcome_witness :
  ((Home.error blank_refused = None
    /\ JS.truthy (Home.assignment blank_refused) = true)
   \/ (Home.error blank_refused <> None /\ Home.assignment blank_refused = VNull))
  /\ (if Home.blank (Home.searchQuery (typed_page "  " "essay"))
      then @nil (string * string) = []
      else [] = [("/api/generate", Home.generate_body (typed_page "  " "essay"))]
           /\ Home.isGenerating blank_refused = false).
Proof.
  apply (generation_outcome (answering (Generate.failure NonError))
           (typed_page "  " "essay") blank_refused []).
  reflexivity.
Defined.

(** X26.  The page and the generation route turn away the same queries,
    and every type the selector offers is one the route accepts: what the
    page sends is never answered with the 400 of the route's checks. *)
Theorem page_requests_pass_validation :
  (forall query, Home.blank query = Generate.query_rejected (VStr query))
  /\ (forall type, In type Home.options ->
        Generate.is_valid_type
          (Generate.with_default (VStr type) (VStr "case-study")) = true).
Proof.
  split.
  - intros query. unfold Home.blank, Generate.query_rejected. cbn [JS.truthy].
    destruct query as [|c r]; [reflexivity|].
    cbn [String.eqb negb orb]. now rewrite Bool.negb_involutive.
  - intros type H. cbn in H.
    repeat (destruct H as [<-|H]; [reflexivity|]). contradiction.
Qed.

Lemma page_requests_pass_validation_witness :
  Generate.is_valid_type (Generate.with_default (VStr "essay") (VStr "case-study"))
  = true.
Proof.
  apply (proj2 page_requests_pass_validation "essay"). cbn. auto.
Defined.

Lemma error_read (x : response) (r : fetched) :
  ok r = ((200 <=? status x) && (status x <=? 299)) ->
  json r = Ok (payload x) ->
  (status x = 400 \/ status x = 500) -> reported x ->
  exists message,
    payload x = error_payload message
    /\ ok r = false
    /\ forall (A : Type) otherwise,
         (data <- json r ;; @throw_error_of A data otherwise)
         = Throw (ErrorObj "Error" message).
Proof.
  intros Hok Hj St (message & P & N). exists message.
  split; [exact P|]. split.
  - rewrite Hok. destruct St as [-> | ->]; reflexivity.
  - intros A otherwise. rewrite Hj, P. cbn [bind]. unfold throw_error_of.
    change (JS.get (error_payload message) "error") with (Ok (VStr message)).
    cbn [bind]. unfold JS.or. cbn [JS.truthy].
    apply String.eqb_neq in N. rewrite N. cbn [negb JS.to_string bind]. reflexivity.
Qed.

Lemma delivered_json (x : response) :
  reads_back (payload x) -> json (delivered x) = Ok (payload x).
Proof. unfold reads_back, delivered. cbn [json]. now intros ->. Qed.

(** X27.  When the generation route turns a request of the page down or
    fails, and the page reads the payload of the response as it was sent,
    the page shows the route's message word for word, shows no assignment
    and stops loading. *)
Theorem generation_error_shown (w : world) (fetch : transport) (p : Home.page)
  (x : response) (calls : list call) (r : fetched) :
  Home.blank (Home.searchQuery p) = false ->
  Generate.POST w {| body := Home.generate_body p |} = (Some x, calls) ->
  status x <> 200 ->
  fetch "/api/generate" (Home.generate_body p) = Ok r ->
  ok r = ((200 <=? status x) && (status x <=? 299)) ->
  json r = Ok (payload x) ->
  exists message p',
    payload x = error_payload message
    /\ Home.handleGenerateAssignment fetch p
       = Some (p', [("/api/generate", Home.generate_body p)])
    /\ Home.error p' = Some message
    /\ Home.assignment p' = VNull
    /\ Home.isGenerating p' = false.
Proof.
  intros B H St F Hok' Hj.
  destruct (generate_responses _ _ _ _ H) as [(S2 & _) | (S4 & Rep)];
    [contradiction|].
  destruct (error_read x r Hok' Hj S4 Rep) as (message & P & Hok & T).
  exists message. eexists. split; [exact P|].
  unfold Home.handleGenerateAssignment. rewrite B. cbn [fst snd]. rewrite F.
  cbn [bind]. unfold Home.received.
  specialize (T (value * value * value)%type
                "Failed to generate assignment. Please try again.").
  rewrite Hj in T |- *. cbn [bind] in T |- *.
  rewrite Hok. cbn [negb]. rewrite T. cbn [message_or]. repeat split.
Qed.

Lemma generation_error_shown_witness :
  exists message p',
    payload (response_of (Generate.POST keyless
                            {| body := Home.generate_body (typed_page "Tides" "essay") |}))
    = error_payload message
    /\ Home.handleGenerateAssignment
         (answering (response_of (Generate.POST keyless
                                    {| body := Home.generate_body (typed_page "Tides" "essay") |})))
         (typed_page "Tides" "essay")
       = Some (p', [("/api/generate", Home.generate_body (typed_page "Tides" "essay"))])
    /\ Home.error p' = Some message
    /\ Home.assignment p' = VNull
    /\ Home.isGenerating p' = false.
Proof.
  eapply (generation_error_shown keyless _ (typed_page "Tides" "essay")).
  - reflexivity.
  - vm_compute. reflexivity.
  - vm_compute. discriminate.
  - reflexivity.
  - reflexivity.
  - vm_compute. reflexivity.
Defined.

(** X28.  When the generation route answers 200, the browser parses the
    JSON text of the response, and the payload is one that reads back from
    its JSON text as it was, the page shows exactly the assignment of the
    payload, with no error, provided that assignment is not falsy.  When
    the model's text was a bare [null], [false], [0] or empty string, the
    route still answers 200, and the page reports an invalid response
    instead. *)
Theorem generation_success_shown (w : world) (fetch : transport) (p : Home.page)
  (x : response) (calls : list call) :
  Home.blank (Home.searchQuery p) = false ->
  Generate.POST w {| body := Home.generate_body p |} = (Some x, calls) ->
  status x = 200 ->
  fetch "/api/generate" (Home.generate_body p) = Ok (delivered x) ->
  reads_back (payload x) ->
  exists data p',
    JS.get (payload x) "assignment" = Ok data
    /\ Home.handleGenerateAssignment fetch p
       = Some (p', [("/api/generate", Home.generate_body p)])
    /\ Home.isGenerating p' = false
    /\ (if JS.truthy data
        then Home.assignment p' = data /\ Home.error p' = None
        else Home.assignment p' = VNull
             /\ Home.error p'
                = Some "Invalid response from server. Please try again.").
Proof.
  intros B H St F Rb. pose proof (delivered_json x Rb) as Hj.
  assert (Hok : ok (delivered x) = true) by (cbn [delivered ok]; now rewrite St).
  destruct (generate_responses _ _ _ _ H) as [(_ & data & q & t & P) | ([S4|S5] & _)];
    [|rewrite St in S4; discriminate|rewrite St in S5; discriminate].
  exists data. rewrite P.
  unfold Home.handleGenerateAssignment. rewrite B. cbn [fst snd]. rewrite F.
  cbn [bind]. unfold Home.received. rewrite Hj, Hok, P.
  cbn [bind negb].
  change (success_and
            (VObj [("success", VBool true); ("assignment", data);
                   ("query", q); ("assignmentType", t)]) "assignment")
    with (Ok data).
  change (JS.get
            (VObj [("success", VBool true); ("assignment", data);
                   ("query", q); ("assignmentType", t)]) "assignment")
    with (Ok data).
  change (JS.get
            (VObj [("success", VBool true); ("assignment", data);
                   ("query", q); ("assignmentType", t)]) "query")
    with (Ok q).
  change (JS.get
            (VObj [("success", VBool true); ("assignment", data);
                   ("query", q); ("assignmentType", t)]) "assignmentType")
    with (Ok t).
  cbn [bind]. destruct (JS.truthy data); eexists; repeat split.
Qed.

Lemma generation_success_shown_witness :
  exists data p',
    JS.get (payload null_response) "assignment" = Ok data
    /\ Home.handleGenerateAssignment (answering null_response) (typed_page "Tides" "essay")
       = Some (p', [("/api/generate", Home.generate_body (typed_page "Tides" "essay"))])
    /\ Home.isGenerating p' = false
    /\ (if JS.truthy data
        then Home.assignment p' = data /\ Home.error p' = None
        else Home.assignment p' = VNull
             /\ Home.error p'
                = Some "Invalid response from server. Please try again.").
Proof.
  eapply (generation_success_shown (model_replying "null") _ (typed_page "Tides" "essay")).
  - reflexivity.
  - vm_compute. reflexivity.
  - vm_compute. reflexivity.
  - reflexivity.
  - vm_compute. reflexivity.
Defined.

(** * The display *)

Lemma display_received_inv (r : fetched) (results : value) :
  Display.received r = Ok results -> JS.truthy results = true.
Proof.
  unfold Display.received. intros H. apply bind_ok in H as (data & Hd & H).
  destruct (ok r); cbn [negb] in H;
    [|now apply throw_error_of_throws in H].
  apply bind_ok in H as (shown & Hs & H).
  destruct (JS.truthy shown) eqn:T; [|discriminate].
  destruct (success_and_truthy _ _ _ Hs T) as (Ha & _).
  rewrite Ha in H. apply ok_inj in H. now subst.
Qed.

(** X29.  Whatever the network does, handing a submission over sends one
    request, with the assignment, the submission and the listed type, and
    ends with the form closed and nothing pending: either results that are
    not falsy replace the old ones and nothing is alerted, or one alert is
    raised and the results stay as they were. *)
Theorem submission_outcome (fetch : transport)
  (assignment assignmentType submission : value) (v : Display.view)
  (run : Display.run) :
  Display.handleSubmission fetch assignment assignmentType submission v = Some run ->
  Display.sent run
  = [("/api/evaluate",
      stringify (VObj [("assignment", assignment); ("submission", submission);
                       ("assignmentType", Display.safeAssignmentType assignmentType)]))]
  /\ Display.showSubmission (Display.after run) = false
  /\ Display.isEvaluating (Display.after run) = false
  /\ ((Display.alerts run = []
       /\ JS.truthy (Display.evaluationResults (Display.after run)) = true)
      \/ (exists message, Display.alerts run = [message]
          /\ Display.evaluationResults (Display.after run)
             = Display.evaluationResults v)).
Proof.
  unfold Display.handleSubmission. cbn [fst snd].
  destruct (fetch "/api/evaluate" _) as [r|e|]; cbn [bind].
  - destruct (Display.received r) as [results|e|] eqn:R; intros H; try discriminate;
      injection H as <-; cbn; repeat split.
    + left. split; [reflexivity|]. exact (display_received_inv _ _ R).
    + right. eauto.
  - intros H. injection H as <-. cbn. repeat split. right. eauto.
  - discriminate.
Qed.

Lemma submission_outcome_witness :
  exists run,
    Display.sent run
    = [("/api/evaluate",
        stringify (VObj [("assignment", sample_assignment);
                         ("submission", VObj []);
                         ("assignmentType", Display.safeAssignmentType (VStr "essay"))]))]
    /\ Display.showSubmission (Display.after run) = false
    /\ Display.isEvaluating (Display.after run) = false
    /\ ((Display.alerts run = []
         /\ JS.truthy (Display.evaluationResults (Display.after run)) = true)
        \/ (exists message, Display.alerts run = [message]
            /\ Display.evaluationResults (Display.after run)
               = Display.evaluationResults fresh_view)).
Proof.
  eexists.
  apply (submission_outcome (answering (Evaluate.failure NonError))
           sample_assignment (VStr "essay") (VObj []) fresh_view).
  reflexivity.
Defined.

(** X30.  When the browser parses the JSON text of the evaluation
    route's response to a request of the display, and the payload is one
    that reads back from its JSON text as it was, the display shows the
    results of a 200 without an alert, and alerts the route's own message,
    word for word, for anything else. *)
Theorem evaluation_response_shown (w : world) (fetch : transport)
  (assignment assignmentType submission : value) (v : Display.view)
  (x : response) (calls : list call) :
  Evaluate.POST w
    {| body := Display.evaluate_body assignment submission assignmentType |}
  = (Some x, calls) ->
  fetch "/api/evaluate" (Display.evaluate_body assignment submission assignmentType)
  = Ok (delivered x) ->
  reads_back (payload x) ->
  exists run,
    Display.handleSubmission fetch assignment assignmentType submission v = Some run
    /\ ((status x = 200
         /\ Display.alerts run = []
         /\ JS.get (payload x) "results"
            = Ok (Display.evaluationResults (Display.after run)))
        \/ (status x <> 200
            /\ exists message,
                 payload x = error_payload message
                 /\ Display.alerts run = [message]
                 /\ Display.evaluationResults (Display.after run)
                    = Display.evaluationResults v)).
Proof.
  intros H F Rb. pose proof (delivered_json x Rb) as Hj.
  unfold Display.handleSubmission. cbn [fst snd]. rewrite F. cbn [bind].
  unfold Display.received.
  destruct (evaluate_responses _ _ _ _ H) as [(St & fields & P) | (S4 & Rep)].
  - assert (Hok : ok (delivered x) = true) by (cbn [delivered ok]; now rewrite St).
    rewrite Hj, Hok, P. cbn [bind negb].
    change (success_and
              (VObj [("success", VBool true); ("results", VObj fields)]) "results")
      with (Ok (VObj fields)).
    cbn [bind JS.truthy].
    change (JS.get (VObj [("success", VBool true); ("results", VObj fields)]) "results")
      with (Ok (VObj fields)).
    eexists. split; [reflexivity|]. left. repeat split. exact St.
  - destruct (error_read x (delivered x) eq_refl Hj S4 Rep) as (message & P & Hok & T).
    specialize (T value "Failed to evaluate submission.").
    rewrite Hj in T |- *. cbn [bind] in T |- *.
    rewrite Hok. cbn [negb]. rewrite T. eexists. split; [reflexivity|].
    right. split; [destruct S4 as [-> | ->]; discriminate|].
    exists message. repeat split. exact P.
Qed.

Lemma evaluation_response_shown_witness :
  exists run,
    Display.handleSubmission (answering graded_evaluation)
      (essay_assignment (Num.of_Z 50)) (VStr "essay") essay_submission fresh_view
    = Some run
    /\ ((status graded_evaluation = 200
         /\ Display.alerts run = []
         /\ JS.get (payload graded_evaluation) "results"
            = Ok (Display.evaluationResults (Display.after run)))
        \/ (status graded_evaluation <> 200
            /\ exists message,
                 payload graded_evaluation = error_payload message
                 /\ Display.alerts run = [message]
                 /\ Display.evaluationResults (Display.after run)
                    = Display.evaluationResults fresh_view)).
Proof.
  eapply (evaluation_response_shown (model_replying full_reply)).
  - vm_compute. reflexivity.
  - reflexivity.
  - vm_compute. reflexivity.
Defined.
